(** * Gesture interpreter of vue-mediapipe-worker

    A shallow embedding of [src/composables/useGesture.ts]: the hand
    selection, the dynamic region of interest, the cursor mapping, the
    smoothing buffer and the pinch state machine of [handleResult], together
    with [stopCamera], [worker.onmessage] and the timeout of the double
    click, and the properties of the specification stated over them.
    Around it: the log, the frame counter, the prediction loop and the
    setters of the same file; the bridge to mouse events and the drawing of
    the landmarks of [src/utils/drawing.ts]; the classes of
    [src/components/GestureCursor.vue]; the scrolling of
    [src/components/ScrollableText.vue].

    JavaScript numbers are kept abstract behind the class [Number].  The
    program runs at the instance [float] (IEEE 754 binary64), where every
    definition computes; what depends on the flow of control only is proved
    for every instance; the arithmetic facts the specification states over
    ideal numbers are proved at the instance [Q]. *)

From Stdlib Require Import Floats Uint63 QArith Qminmax ZArith Lia Lqa Bool.
From stdpp Require Import base option list gmap strings.

Set Warnings "-inexact-float".
Local Open Scope string_scope.
Local Open Scope list_scope.

(** ** Numbers *)

(** The operations [handleResult] performs on values of type [number]. *)
Class Number (num : Type) := {
  fromZ : Z -> num;              (* integer literals, [Array.length] *)
  add : num -> num -> num;       (* a + b *)
  sub : num -> num -> num;       (* a - b *)
  mul : num -> num -> num;       (* a * b *)
  div : num -> num -> num;       (* a / b *)
  lt : num -> num -> bool;       (* a < b *)
  seq : num -> num -> bool;      (* a === b *)
  Math_max : num -> num -> num;
  Math_min : num -> num -> num
}.

(** [Math.sqrt], which only the binary64 instance provides. *)
Class NumberSqrt (num : Type) := Math_sqrt : num -> num.

Section Literals.
Context {num : Type} `{Number num}.

(** [a > b] *)
Definition gt (a b : num) : bool := lt b a.

(** A decimal literal [n/d]: both parts are exact and the quotient is
    rounded once, which is how a literal such as [0.05] is read. *)
Definition dec (n d : Z) : num := div (fromZ n) (fromZ d).

(** [Math.pow(v, 2)] *)
Definition pow2 (v : num) : num := mul v v.
End Literals.

Module F.
(** binary64, the [number] type of the running program. *)
Definition ofZ (v : Z) : float :=
  if (v <? 0)%Z then PrimFloat.opp (PrimFloat.of_uint63 (Uint63.of_Z (- v)))
  else PrimFloat.of_uint63 (Uint63.of_Z v).

(** [Math.max] and [Math.min]: NaN as soon as one argument is NaN, and
    [+0] above [-0]. *)
Definition max (a b : float) : float :=
  if PrimFloat.is_nan a then a else if PrimFloat.is_nan b then b
  else if PrimFloat.is_zero a && PrimFloat.is_zero b
       then (if PrimFloat.get_sign a then b else a)
  else if PrimFloat.ltb a b then b else a.

Definition min (a b : float) : float :=
  if PrimFloat.is_nan a then a else if PrimFloat.is_nan b then b
  else if PrimFloat.is_zero a && PrimFloat.is_zero b
       then (if PrimFloat.get_sign a then a else b)
  else if PrimFloat.ltb b a then b else a.
End F.

#[export] Instance float_Number : Number float := {|
  fromZ := F.ofZ;
  add := PrimFloat.add;
  sub := PrimFloat.sub;
  mul := PrimFloat.mul;
  div := PrimFloat.div;
  lt := PrimFloat.ltb;
  seq := PrimFloat.eqb;
  Math_max := F.max;
  Math_min := F.min
|}.

#[export] Instance float_NumberSqrt : NumberSqrt float := PrimFloat.sqrt.

(** Exact rational arithmetic. *)
#[export] Instance Q_Number : Number Q := {|
  fromZ := inject_Z;
  add := Qplus;
  sub := Qminus;
  mul := Qmult;
  div := Qdiv;
  lt := fun a b => negb (Qle_bool b a);
  seq := Qeq_bool;
  Math_max := fun a b => if Qle_bool a b then b else a;
  Math_min := fun a b => if Qle_bool a b then a else b
|}.

(** ** Data model *)

Inductive GestureMode := ModeNone | ModeClick | ModeDrag | ModeRotate | ModeScroll.
Inductive HandPreference := PrefLeft | PrefRight | PrefBoth.
Inductive SmoothingProfile := Fast | Balanced | Smooth.

(** The string a [HandPreference] is written as in the source. *)
Definition handName (h : HandPreference) : string :=
  match h with PrefLeft => "Left" | PrefRight => "Right" | PrefBoth => "Both" end.

(** [Record<string, boolean>] *)
Abbreviation Events := (gmap string bool).

Section Model.
Context {num : Type}.

Record Landmark := { x : num; y : num; z : num }.

(** One classification entry; [displayName] is never read. *)
Record Category := { score : num; categoryName : string }.

(** The message payload [result]; the fields the handler guards
    ([landmarks], [gestures]) may be missing. *)
Record GestureResult := {
  landmarks : option (list (list Landmark));
  gestures : option (list (list Category));
  handednesses : list (list Category)
}.

Record Point := { px : num; py : num }.

Record Cursor := { cx : num; cy : num; active : bool; mode : GestureMode }.

Record DebugInfo := {
  rootPos : Point;
  handScale : num;
  roi : num;
  effectiveRoi : num;
  dbgLandmarks : list Landmark;
  handedness : string
}.

Record GestureState := {
  cursor : Cursor;
  gestureNames : list string;
  events : Events;
  debugInfo : DebugInfo
}.

Record Config := {
  hand : HandPreference;
  smoothing : SmoothingProfile;
  baseRoi : num;
  videoSource : string
}.

(** The object [STATE]; [clickTimer] holds the handle [setTimeout]
    returned. *)
Record STATE_t := {
  lastPinchTime : num;
  clickCount : nat;
  clickTimer : option nat;
  dragStartTime : num;
  isDragging : bool;
  isMiddleDragging : bool;
  lastPosition : Point
}.

(** Everything the closures of [useGesture] share, and the part of the
    browser they talk to: the viewport size and the queue of pending
    timeouts, each with its handle and the time it falls due. *)
Record World := {
  gestureState : GestureState;
  positionBuffer : list Point;
  STATE : STATE_t;
  config : Config;
  isCameraActive : bool;
  isWorkerReady : bool;
  isBusyRef : bool;
  requestRef : option nat;
  innerWidth : num;
  innerHeight : num;
  timers : list (nat * num);
  nextTimer : nat
}.

(** What a handler does: it returns, or an uncaught [TypeError] leaves
    it, with the world as it was at that point. *)
Inductive Outcome := Normal (w : World) | TypeError (w : World).

Definition worldOf (o : Outcome) : World :=
  match o with Normal w => w | TypeError w => w end.

End Model.

Arguments Landmark : clear implicits.
Arguments Category : clear implicits.
Arguments GestureResult : clear implicits.
Arguments Point : clear implicits.
Arguments Cursor : clear implicits.
Arguments DebugInfo : clear implicits.
Arguments GestureState : clear implicits.
Arguments Config : clear implicits.
Arguments STATE_t : clear implicits.
Arguments World : clear implicits.
Arguments Outcome : clear implicits.

(** ** The interpreter *)

Section Interpreter.
Context {num : Type} `{Number num} `{NumberSqrt num}.

(** *** Field updates *)

Definition setActive (b : bool) (c : Cursor num) : Cursor num :=
  {| cx := cx c; cy := cy c; active := b; mode := mode c |}.

Definition setMode (m : GestureMode) (c : Cursor num) : Cursor num :=
  {| cx := cx c; cy := cy c; active := active c; mode := m |}.

Definition setDbgLandmarks (l : list (Landmark num)) (d : DebugInfo num) : DebugInfo num :=
  {| rootPos := rootPos d; handScale := handScale d; roi := roi d;
     effectiveRoi := effectiveRoi d; dbgLandmarks := l; handedness := handedness d |}.

Definition setGestureState (g : GestureState num) (w : World num) : World num :=
  {| gestureState := g; positionBuffer := positionBuffer w; STATE := STATE w;
     config := config w; isCameraActive := isCameraActive w;
     isWorkerReady := isWorkerReady w; isBusyRef := isBusyRef w;
     requestRef := requestRef w; innerWidth := innerWidth w;
     innerHeight := innerHeight w; timers := timers w; nextTimer := nextTimer w |}.

Definition setSTATE (s : STATE_t num) (w : World num) : World num :=
  {| gestureState := gestureState w; positionBuffer := positionBuffer w; STATE := s;
     config := config w; isCameraActive := isCameraActive w;
     isWorkerReady := isWorkerReady w; isBusyRef := isBusyRef w;
     requestRef := requestRef w; innerWidth := innerWidth w;
     innerHeight := innerHeight w; timers := timers w; nextTimer := nextTimer w |}.

Definition setConfig (c : Config num) (w : World num) : World num :=
  {| gestureState := gestureState w; positionBuffer := positionBuffer w; STATE := STATE w;
     config := c; isCameraActive := isCameraActive w;
     isWorkerReady := isWorkerReady w; isBusyRef := isBusyRef w;
     requestRef := requestRef w; innerWidth := innerWidth w;
     innerHeight := innerHeight w; timers := timers w; nextTimer := nextTimer w |}.

Definition setIsBusyRef (b : bool) (w : World num) : World num :=
  {| gestureState := gestureState w; positionBuffer := positionBuffer w; STATE := STATE w;
     config := config w; isCameraActive := isCameraActive w;
     isWorkerReady := isWorkerReady w; isBusyRef := b;
     requestRef := requestRef w; innerWidth := innerWidth w;
     innerHeight := innerHeight w; timers := timers w; nextTimer := nextTimer w |}.

Definition setClickCount (n : nat) (s : STATE_t num) : STATE_t num :=
  {| lastPinchTime := lastPinchTime s; clickCount := n; clickTimer := clickTimer s;
     dragStartTime := dragStartTime s; isDragging := isDragging s;
     isMiddleDragging := isMiddleDragging s; lastPosition := lastPosition s |}.

Definition setClickTimer (t : option nat) (s : STATE_t num) : STATE_t num :=
  {| lastPinchTime := lastPinchTime s; clickCount := clickCount s; clickTimer := t;
     dragStartTime := dragStartTime s; isDragging := isDragging s;
     isMiddleDragging := isMiddleDragging s; lastPosition := lastPosition s |}.

Definition setDragStartTime (t : num) (s : STATE_t num) : STATE_t num :=
  {| lastPinchTime := lastPinchTime s; clickCount := clickCount s;
     clickTimer := clickTimer s; dragStartTime := t; isDragging := isDragging s;
     isMiddleDragging := isMiddleDragging s; lastPosition := lastPosition s |}.

Definition setIsDragging (b : bool) (s : STATE_t num) : STATE_t num :=
  {| lastPinchTime := lastPinchTime s; clickCount := clickCount s;
     clickTimer := clickTimer s; dragStartTime := dragStartTime s; isDragging := b;
     isMiddleDragging := isMiddleDragging s; lastPosition := lastPosition s |}.

Definition setIsMiddleDragging (b : bool) (s : STATE_t num) : STATE_t num :=
  {| lastPinchTime := lastPinchTime s; clickCount := clickCount s;
     clickTimer := clickTimer s; dragStartTime := dragStartTime s;
     isDragging := isDragging s; isMiddleDragging := b;
     lastPosition := lastPosition s |}.

(** *** Constants of the source *)

Definition BUFFER_SIZE_MAP (p : SmoothingProfile) : nat :=
  match p with Fast => 2 | Balanced => 5 | Smooth => 10 end.

Definition PINCH_THRESH : num := dec 5 100.
Definition refSize : num := dec 10 100.
Definition HOLD_MS : num := fromZ 200.
Definition DOUBLE_CLICK_MS : num := fromZ 300.

(** *** resetState *)

Definition resetState (g : GestureState num) : GestureState num :=
  {| cursor := setActive false (cursor g);
     gestureNames := [];
     events := {[ "IDLE" := true ]};
     debugInfo := setDbgLandmarks [] (debugInfo g) |}.

(** *** 1. Hand filtering and selection *)

(** [arr.findIndex(p)], [None] standing for [-1]. *)
Fixpoint findIndex {A} (p : A -> bool) (l : list A) : option nat :=
  match l with
  | [] => None
  | a :: l' => if p a then Some 0 else S <$> findIndex p l'
  end.

(** [h[0]?.categoryName] *)
Definition label (h : list (Category num)) : option string :=
  categoryName <$> head h.

(** The index the handler settles on, before it looks the hand up. *)
Definition targetHandIndex (c : Config num) (r : GestureResult num) : option nat :=
  match hand c with
  | PrefBoth => Some 0
  | pref =>
      findIndex (fun h => bool_decide (label h = Some (handName pref))) (handednesses r)
  end.

(** The hand that is tracked: [None] on every path that ends in
    [resetState(); return]. *)
Definition selectHand (c : Config num) (r : GestureResult num)
  : option (nat * list (Landmark num)) :=
  match landmarks r with
  | None | Some [] => None
  | Some hands =>
      match targetHandIndex c r with
      | None => None
      | Some i => match hands !! i with None => None | Some h => Some (i, h) end
      end
  end.

(** *** Dynamic region of interest *)

Definition wristToMiddle (root mcp : Landmark num) : num :=
  Math_sqrt (add (pow2 (sub (x root) (x mcp))) (pow2 (sub (y root) (y mcp)))).

(** [effRoi], from the base fraction and the hand-scale proxy. *)
Definition effRoi (base scale : num) : num :=
  let distFactor := div scale refSize in
  let e := mul base (Math_min (dec 12 10) (Math_max (dec 5 10) distFactor)) in
  if gt e (fromZ 1) then fromZ 1 else e.

(** *** 2. Cursor mapping *)

Definition clamp01 (v : num) : num := Math_max (fromZ 0) (Math_min (fromZ 1) v).

Definition mapPoint (e : num) (tip : Landmark num) : Point num :=
  let rawX := sub (fromZ 1) (x tip) in
  let rawY := y tip in
  let roiHalf := div e (fromZ 2) in
  let roiMinX := sub (dec 5 10) roiHalf in
  let roiMinY := sub (dec 5 10) roiHalf in
  {| px := clamp01 (div (sub rawX roiMinX) e);
     py := clamp01 (div (sub rawY roiMinY) e) |}.

(** *** Smoothing *)

(** [BUFFER_SIZE_MAP[config.smoothing] || 5] *)
Definition bufferSize (p : SmoothingProfile) : nat :=
  match BUFFER_SIZE_MAP p with 0 => 5 | n => n end.

(** [push], then at most one [shift]. *)
Definition pushPosition (size : nat) (p : Point num) (buf : list (Point num))
  : list (Point num) :=
  let buf' := buf ++ [p] in
  if decide (size < length buf') then tail buf' else buf'.

(** [buf.reduce((sum, p) => sum + f(p), 0) / buf.length] *)
Definition average (f : Point num -> num) (buf : list (Point num)) : num :=
  div (fold_left (fun sum p => add sum (f p)) buf (fromZ 0))
      (fromZ (Z.of_nat (length buf))).

(** *** 3. Gesture state machine *)

Definition calculateDistance (p1 p2 : option (Landmark num)) : num :=
  match p1, p2 with
  | Some a, Some b =>
      Math_sqrt (add (pow2 (sub (x a) (x b))) (pow2 (sub (y a) (y b))))
  | _, _ => fromZ 1
  end.

Definition isPinch (h : list (Landmark num)) : bool :=
  lt (calculateDistance (h !! 8) (h !! 4)) PINCH_THRESH.

Definition isMiddlePinch (h : list (Landmark num)) : bool :=
  lt (calculateDistance (h !! 12) (h !! 4)) PINCH_THRESH.

Definition emit (name : string) (ev : Events) : Events := <[ name := true ]> ev.

(** [clearTimeout(id)] *)
Definition clearTimeout (id : nat) (q : list (nat * num)) : list (nat * num) :=
  filter (fun e => e.1 ≠ id) q.

(** What the machine reads and writes: [STATE], [cursor.mode],
    [currentEvents] and the timer queue. *)
Record Machine := {
  mSTATE : STATE_t num;
  mMode : GestureMode;
  mEvents : Events;
  mTimers : list (nat * num);
  mNext : nat
}.

Definition onState (f : STATE_t num -> STATE_t num) (m : Machine) : Machine :=
  {| mSTATE := f (mSTATE m); mMode := mMode m; mEvents := mEvents m;
     mTimers := mTimers m; mNext := mNext m |}.

Definition withMode (g : GestureMode) (m : Machine) : Machine :=
  {| mSTATE := mSTATE m; mMode := g; mEvents := mEvents m;
     mTimers := mTimers m; mNext := mNext m |}.

Definition fire (name : string) (m : Machine) : Machine :=
  {| mSTATE := mSTATE m; mMode := mMode m; mEvents := emit name (mEvents m);
     mTimers := mTimers m; mNext := mNext m |}.

(** [STATE.clickTimer = setTimeout(..., 300)], called at time [now]. *)
Definition armClickTimer (now : num) (m : Machine) : Machine :=
  {| mSTATE := setClickTimer (Some (mNext m)) (mSTATE m); mMode := mMode m;
     mEvents := mEvents m;
     mTimers := mTimers m ++ [(mNext m, add now DOUBLE_CLICK_MS)];
     mNext := S (mNext m) |}.

(** [if (STATE.clickTimer) clearTimeout(STATE.clickTimer)] *)
Definition cancelClickTimer (m : Machine) : Machine :=
  match clickTimer (mSTATE m) with
  | Some id =>
      {| mSTATE := mSTATE m; mMode := mMode m; mEvents := mEvents m;
         mTimers := clearTimeout id (mTimers m); mNext := mNext m |}
  | None => m
  end.

(** The branch [if (isMiddlePinch) { ... }]. *)
Definition middlePinchBranch (m : Machine) : Machine :=
  withMode ModeRotate
    (if negb (isMiddleDragging (mSTATE m))
     then onState (setIsMiddleDragging true) (fire "DRAG_MIDDLE_START" m)
     else fire "DRAG_MIDDLE_MOVE" m).

(** [// End Rotate] *)
Definition endRotate (m : Machine) : Machine :=
  if isMiddleDragging (mSTATE m)
  then onState (setIsMiddleDragging false) (fire "DRAG_MIDDLE_END" m)
  else m.

(** The branch [if (isPinch) { ... }]: [// Index Pinch = Click / Drag]. *)
Definition indexPinchBranch (now : num) (m : Machine) : Machine :=
  if negb (isDragging (mSTATE m)) then
    let m1 :=
      if seq (dragStartTime (mSTATE m)) (fromZ 0)
      then onState (setDragStartTime now) m else m in
    if gt (sub now (dragStartTime (mSTATE m1))) HOLD_MS
    then fire "DRAG_START" (onState (setIsDragging true) m1)
    else m1
  else withMode ModeDrag (fire "DRAG_MOVE" m).

(** The branch [// Release]. *)
Definition releaseBranch (now : num) (m : Machine) : Machine :=
  withMode ModeNone
    (if isDragging (mSTATE m) then
       onState (setDragStartTime (fromZ 0))
         (onState (setIsDragging false) (fire "DRAG_END" m))
     else if gt (dragStartTime (mSTATE m)) (fromZ 0) then
       let m1 := onState (setDragStartTime (fromZ 0)) m in
       let m2 := onState (setClickCount (S (clickCount (mSTATE m1)))) m1 in
       if decide (clickCount (mSTATE m2) = 1)
       then fire "CLICK" (armClickTimer now m2)
       else fire "DOUBLE_CLICK" (onState (setClickCount 0) (cancelClickTimer m2))
     else m).

(** The closing test, reading [cursor.active] as the mapping left it. *)
Definition pointerOrIdle (pinch middle act : bool) (m : Machine) : Machine :=
  if negb pinch && negb middle && negb (isDragging (mSTATE m))
     && negb (isMiddleDragging (mSTATE m))
  then fire (if act then "POINTER_MOVE" else "IDLE") (withMode ModeNone m)
  else m.

Definition gestureMachine (now : num) (pinch middle act : bool) (m : Machine)
  : Machine :=
  pointerOrIdle pinch middle act
    (if middle then middlePinchBranch m
     else let m1 := endRotate m in
          if pinch then indexPinchBranch now m1 else releaseBranch now m1).

(** *** handleResult *)

(** [handednessObj && handednessObj[0] ? handednessObj[0].categoryName : 'Unknown'] *)
Definition handLabel (r : GestureResult num) (i : nat) : string :=
  match handednesses r !! i with
  | Some (c :: _) => categoryName c
  | _ => "Unknown"
  end.

(** [result.gestures?.[targetHandIndex]?.categories], then its first
    name or ['None']. *)
Definition gestureName (r : GestureResult num) (i : nat) : string :=
  match gestures r with
  | Some gs => match gs !! i with Some (c :: _) => categoryName c | _ => "None" end
  | None => "None"
  end.

(** Step 2 on the selected hand: the buffer and the cursor it leaves. *)
Definition mapCursor (e : num) (h : list (Landmark num)) (w : World num)
  : list (Point num) * Cursor num :=
  match h !! 8 with
  | Some indexTip =>
      let buf := pushPosition (bufferSize (smoothing (config w)))
                   (mapPoint e indexTip) (positionBuffer w) in
      (buf, {| cx := mul (average px buf) (innerWidth w);
               cy := mul (average py buf) (innerHeight w);
               active := true;
               mode := mode (cursor (gestureState w)) |})
  | None => (positionBuffer w, cursor (gestureState w))
  end.

(** The machine as a call finds it: [STATE], the mode the cursor has,
    [currentEvents = {}] and the timer queue. *)
Definition machineIn (w : World num) (c : Cursor num) : Machine :=
  {| mSTATE := STATE w; mMode := mode c; mEvents := ∅;
     mTimers := timers w; mNext := nextTimer w |}.

(** The call on a tracked hand [h] at index [i], once the wrist and the
    middle-finger MCP joint have been read. *)
Definition trackHand (now : num) (r : GestureResult num) (i : nat)
    (h : list (Landmark num)) (root mcp : Landmark num) (w : World num) : World num :=
  let scale := wristToMiddle root mcp in
  let e := effRoi (baseRoi (config w)) scale in
  let newDebugInfo :=
    {| rootPos := {| px := x root; py := y root |};
       handScale := scale;
       roi := baseRoi (config w);
       effectiveRoi := e;
       dbgLandmarks := h;
       handedness := handLabel r i |} in
  let bc := mapCursor e h w in
  let m := gestureMachine now (isPinch h) (isMiddlePinch h) (active bc.2)
             (machineIn w bc.2) in
  {| gestureState :=
       {| cursor := setMode (mMode m) bc.2;
          gestureNames := [gestureName r i];
          events := mEvents m;
          debugInfo := newDebugInfo |};
     positionBuffer := bc.1;
     STATE := mSTATE m;
     config := config w;
     isCameraActive := isCameraActive w;
     isWorkerReady := isWorkerReady w;
     isBusyRef := isBusyRef w;
     requestRef := requestRef w;
     innerWidth := innerWidth w;
     innerHeight := innerHeight w;
     timers := mTimers m;
     nextTimer := mNext m |}.

(** [handleResult(result)], run at [performance.now() = now].  Reading
    [.x] of a missing wrist or MCP landmark is the one place where it
    can throw; nothing has been written at that point. *)
Definition handleResult (now : num) (result : option (GestureResult num))
    (w : World num) : Outcome num :=
  match result with
  | None => Normal w
  | Some r =>
      match selectHand (config w) r with
      | None => Normal (setGestureState (resetState (gestureState w)) w)
      | Some (i, h) =>
          match h !! 0, h !! 9 with
          | Some root, Some mcp => Normal (trackHand now r i h root mcp w)
          | _, _ => TypeError w
          end
      end
  end.

(** *** The handlers around it *)

Inductive WorkerMessage :=
| InitSuccess
| InitError
| Result (result : option (GestureResult num)).

(** [worker.onmessage]; logs, the frame counter and the delegate name
    are outside this model. *)
Definition onmessage (now : num) (msg : WorkerMessage) (w : World num) : Outcome num :=
  match msg with
  | InitSuccess =>
      Normal {| gestureState := gestureState w; positionBuffer := positionBuffer w;
                STATE := STATE w; config := config w;
                isCameraActive := isCameraActive w; isWorkerReady := true;
                isBusyRef := false; requestRef := requestRef w;
                innerWidth := innerWidth w; innerHeight := innerHeight w;
                timers := timers w; nextTimer := nextTimer w |}
  | InitError => Normal (setIsBusyRef false w)
  | Result result =>
      match handleResult now result w with
      | Normal w' => Normal (setIsBusyRef false w')
      | TypeError w' => TypeError w'
      end
  end.

Definition stopCamera (w : World num) : World num :=
  {| gestureState :=
       {| cursor := setActive false (cursor (gestureState w));
          gestureNames := gestureNames (gestureState w);
          events := events (gestureState w);
          debugInfo := debugInfo (gestureState w) |};
     positionBuffer := positionBuffer w; STATE := STATE w; config := config w;
     isCameraActive := false; isWorkerReady := isWorkerReady w;
     isBusyRef := false; requestRef := None;
     innerWidth := innerWidth w; innerHeight := innerHeight w;
     timers := timers w; nextTimer := nextTimer w |}.

(** [videoRef.value.onloadedmetadata], set by [startCamera]: the camera is
    on and the prediction loop is started. *)
Definition cameraReady (w : World num) : World num :=
  {| gestureState := gestureState w; positionBuffer := positionBuffer w;
     STATE := STATE w; config := config w; isCameraActive := true;
     isWorkerReady := isWorkerReady w; isBusyRef := false;
     requestRef := requestRef w; innerWidth := innerWidth w;
     innerHeight := innerHeight w; timers := timers w; nextTimer := nextTimer w |}.

(** One turn of [loop] in [startPredictionLoop], the video and the worker
    being there: nothing when the camera is off; otherwise a frame is sent
    to the worker if it is ready and not busy, and the next turn is asked
    for (the handle in [requestRef] is only ever tested for presence). *)
Definition loopTick (w : World num) : World num :=
  if negb (isCameraActive w) then w
  else
    {| gestureState := gestureState w; positionBuffer := positionBuffer w;
       STATE := STATE w; config := config w; isCameraActive := isCameraActive w;
       isWorkerReady := isWorkerReady w;
       isBusyRef := if isWorkerReady w && negb (isBusyRef w) then true
                    else isBusyRef w;
       requestRef := Some 1; innerWidth := innerWidth w;
       innerHeight := innerHeight w; timers := timers w; nextTimer := nextTimer w |}.

(** [setSmoothing] *)
Definition setSmoothing (s : SmoothingProfile) (w : World num) : World num :=
  setConfig {| hand := hand (config w); smoothing := s;
               baseRoi := baseRoi (config w);
               videoSource := videoSource (config w) |} w.

(** The callback given to [setTimeout]: [STATE.clickCount = 0]. *)
Definition clickTimeout (w : World num) : World num :=
  setSTATE (setClickCount 0 (STATE w)) w.

Definition setTimers (q : list (nat * num)) (w : World num) : World num :=
  {| gestureState := gestureState w; positionBuffer := positionBuffer w;
     STATE := STATE w; config := config w; isCameraActive := isCameraActive w;
     isWorkerReady := isWorkerReady w; isBusyRef := isBusyRef w;
     requestRef := requestRef w; innerWidth := innerWidth w;
     innerHeight := innerHeight w; timers := q; nextTimer := nextTimer w |}.

(** *** The event loop *)

(** What the main thread is asked to run, one task at a time: a message
    from the worker, a timeout that has fallen due, the camera coming on, a
    turn of the prediction loop, a press on the stop button, a change of
    the smoothing profile. *)
Inductive Task :=
| TaskMessage (now : num) (msg : WorkerMessage)
| TaskTimeout (now : num) (id : nat)
| TaskCameraReady
| TaskTick
| TaskStopCamera
| TaskSetSmoothing (s : SmoothingProfile).

(** A timeout may run at [now] when it is pending and [now] is not
    before the time it was set for. *)
Definition isDue (now : num) (id : nat) (q : list (nat * num)) : bool :=
  existsb (fun e => bool_decide (e.1 = id) && negb (lt now e.2)) q.

(** [None]: the task cannot run in this world. *)
Definition runTask (t : Task) (w : World num) : option (Outcome num) :=
  match t with
  | TaskMessage now msg => Some (onmessage now msg w)
  | TaskTimeout now id =>
      if isDue now id (timers w)
      then Some (Normal (clickTimeout (setTimers (clearTimeout id (timers w)) w)))
      else None
  | TaskCameraReady => Some (Normal (cameraReady w))
  | TaskTick => Some (Normal (loopTick w))
  | TaskStopCamera => Some (Normal (stopCamera w))
  | TaskSetSmoothing s => Some (Normal (setSmoothing s w))
  end.

(** An uncaught exception ends its task, not the loop. *)
Fixpoint runTasks (ts : list Task) (w : World num) : option (World num) :=
  match ts with
  | [] => Some w
  | t :: ts' =>
      match runTask t w with
      | Some o => runTasks ts' (worldOf o)
      | None => None
      end
  end.

(** *** The state [useGesture] starts in *)

Definition initialWorld (width height : num) : World num :=
  {| gestureState :=
       {| cursor := {| cx := fromZ 0; cy := fromZ 0; active := false; mode := ModeNone |};
          gestureNames := [];
          events := ∅;
          debugInfo :=
            {| rootPos := {| px := fromZ 0; py := fromZ 0 |};
               handScale := fromZ 1;
               roi := dec 8 10;
               effectiveRoi := dec 8 10;
               dbgLandmarks := [];
               handedness := "Unknown" |} |};
     positionBuffer := [];
     STATE :=
       {| lastPinchTime := fromZ 0; clickCount := 0; clickTimer := None;
          dragStartTime := fromZ 0; isDragging := false;
          isMiddleDragging := false;
          lastPosition := {| px := fromZ 0; py := fromZ 0 |} |};
     config := {| hand := PrefBoth; smoothing := Balanced; baseRoi := dec 8 10;
                  videoSource := "" |};
     isCameraActive := false;
     isWorkerReady := false;
     isBusyRef := false;
     requestRef := None;
     innerWidth := width;
     innerHeight := height;
     timers := [];
     nextTimer := 1 |}.
End Interpreter.

Arguments Machine : clear implicits.
Arguments WorkerMessage : clear implicits.
Arguments Task : clear implicits.

(** ** Vocabulary of the specification *)

Section Vocabulary.
Context {num : Type} `{Number num} `{NumberSqrt num}.

(** The idle state the specification describes. *)
Definition isIdle (g : GestureState num) : Prop :=
  active (cursor g) = false
  /\ events g = {[ "IDLE" := true ]}
  /\ dbgLandmarks (debugInfo g) = [].

(** A detection result with zero hands. *)
Definition noHands (r : GestureResult num) : Prop :=
  landmarks r = None \/ landmarks r = Some [].

(** [r] carries a hand [h] that the configuration selects and whose wrist
    and middle-finger MCP landmarks are there. *)
Definition tracks (c : Config num) (r : GestureResult num) (h : list (Landmark num))
  : Prop :=
  exists i root mcp,
    selectHand c r = Some (i, h) /\ h !! 0 = Some root /\ h !! 9 = Some mcp.

(** An event flag is set. *)
Definition flag (ev : Events) (name : string) : bool :=
  bool_decide (ev !! name = Some true).

(** How many of [names] are set in [ev]. *)
Definition countFlags (names : list string) (ev : Events) : nat :=
  length (filter (fun n => flag ev n = true) names).

Definition middleFlags : list string :=
  ["DRAG_MIDDLE_START"; "DRAG_MIDDLE_MOVE"; "DRAG_MIDDLE_END"].
Definition indexFlags : list string :=
  ["CLICK"; "DOUBLE_CLICK"; "DRAG_START"; "DRAG_MOVE"; "DRAG_END"].
Definition pointerFlags : list string := ["IDLE"; "POINTER_MOVE"].
Definition allFlags : list string := indexFlags ++ middleFlags ++ pointerFlags.

(** A frame: the time it is handled at and the worker's result. *)
Definition frameTask (f : num * GestureResult num) : Task num :=
  TaskMessage f.1 (Result (Some f.2)).

(** The worlds a run goes through, one per task that ran. *)
Fixpoint runTrace (ts : list (Task num)) (w : World num) : list (World num) :=
  match ts with
  | [] => []
  | t :: ts' =>
      match runTask t w with
      | Some o => worldOf o :: runTrace ts' (worldOf o)
      | None => []
      end
  end.
(** A frame with a tracked hand on which the index pinch test comes out
    as [pinch] and the middle pinch test as [middle]. *)
Definition frameWith (c : Config num) (pinch middle : bool)
    (f : num * GestureResult num) : Prop :=
  exists h, tracks c f.2 h /\ isPinch h = pinch /\ isMiddlePinch h = middle.

(** At most one flag in each family of events: the middle drag, the index
    click and drag, the pointer. *)
Definition familyExclusive (ev : Events) : Prop :=
  countFlags middleFlags ev <= 1
  /\ countFlags indexFlags ev <= 1
  /\ countFlags pointerFlags ev <= 1.

(** The start the hold timer has once a pinched call at [now] has looked
    at it: [if (STATE.dragStartTime === 0) STATE.dragStartTime = now]. *)
Definition holdStart (now : num) (s : STATE_t num) : num :=
  if seq (dragStartTime s) (fromZ 0) then now else dragStartTime s.

(** The three kinds of world a held index pinch goes through: the hold
    timer running from [t0] with no click or drag event and the mode still
    [mo]; the step that starts the drag; the drag moving. *)
Definition holdingWorld (t0 : num) (mo : GestureMode) (w : World num) : Prop :=
  dragStartTime (STATE w) = t0
  /\ isDragging (STATE w) = false
  /\ mode (cursor (gestureState w)) = mo
  /\ countFlags indexFlags (events (gestureState w)) = 0.

Definition dragStartWorld (t0 : num) (w : World num) : Prop :=
  events (gestureState w) = {[ "DRAG_START" := true ]}
  /\ isDragging (STATE w) = true
  /\ dragStartTime (STATE w) = t0.

Definition dragMoveWorld (w : World num) : Prop :=
  events (gestureState w) = {[ "DRAG_MOVE" := true ]}
  /\ mode (cursor (gestureState w)) = ModeDrag
  /\ isDragging (STATE w) = true.

(** The worlds of a double click: the release that clicks; a step between
    the two releases, which sets no click flag and in which no timeout can
    run at time [t]; the release that double-clicks, with the counter back
    at zero and no timeout left. *)
Definition clickWorld (w : World num) : Prop :=
  flag (events (gestureState w)) "CLICK" = true
  /\ flag (events (gestureState w)) "DOUBLE_CLICK" = false.

Definition windowOpen (t : num) (w : World num) : Prop :=
  forall id, runTask (TaskTimeout t id) w = None.

Definition betweenClicks (t : num) (w : World num) : Prop :=
  flag (events (gestureState w)) "CLICK" = false
  /\ flag (events (gestureState w)) "DOUBLE_CLICK" = false
  /\ windowOpen t w.

Definition doubleClickWorld (w : World num) : Prop :=
  flag (events (gestureState w)) "DOUBLE_CLICK" = true
  /\ flag (events (gestureState w)) "CLICK" = false
  /\ clickCount (STATE w) = 0
  /\ timers w = [].

(** Between the two releases: one click counted, its timeout [n] pending
    and falling due at [due]. *)
Definition pendingClick (c : Config num) (n : nat) (due : num) (w : World num) : Prop :=
  config w = c
  /\ clickCount (STATE w) = 1
  /\ clickTimer (STATE w) = Some n
  /\ timers w = [(n, due)]
  /\ isDragging (STATE w) = false.

(** A sequence of mapped positions pushed one after the other. *)
Definition pushAll (size : nat) (ps buf : list (Point num)) : list (Point num) :=
  fold_left (fun b p => pushPosition size p b) ps buf.

End Vocabulary.

(** ** A scene at binary64 *)

Module Scene.
Local Open Scope float_scope.

Definition lm (a b : float) : Landmark float := {| x := a; y := b; z := 0 |}.

(** A hand of 21 landmarks: thumb tip (4), index tip (8), middle MCP (9)
    and middle tip (12) as given, the others at the wrist. *)
Definition mkHand (thumb index mcp middle : Landmark float) : list (Landmark float) :=
  let w := lm 0.5 0.9 in
  [w; w; w; w; thumb; w; w; w; index; mcp; w; w; middle; w; w; w; w; w; w; w; w].

Definition openHand := mkHand (lm 0.3 0.5) (lm 0.5 0.5) (lm 0.5 0.8) (lm 0.7 0.5).
Definition pinchHand := mkHand (lm 0.5 0.5) (lm 0.5 0.5) (lm 0.5 0.8) (lm 0.7 0.5).
Definition bothHand := mkHand (lm 0.5 0.5) (lm 0.5 0.5) (lm 0.5 0.8) (lm 0.5 0.5).
Definition sideHand := mkHand (lm 0.3 0.5) (lm 0.25 0.5) (lm 0.5 0.8) (lm 0.7 0.5).

(** The result the worker posts for one right hand. *)
Definition seen (h : list (Landmark float)) : GestureResult float :=
  {| landmarks := Some [h];
     gestures := Some [[{| score := 1; categoryName := "Open_Palm" |}]];
     handednesses := [[{| score := 1; categoryName := "Right" |}]] |}.

Definition nothing : GestureResult float :=
  {| landmarks := Some []; gestures := Some []; handednesses := [] |}.

Definition frame (t : float) (h : list (Landmark float)) : Task float :=
  frameTask (t, seen h).

Definition start : World float := initialWorld 1920 1080.

(** After one frame with an open hand. *)
Definition pointing : World float :=
  worldOf (handleResult 1000 (Some (seen openHand)) start).

(** In the middle of a drag: pinched at 1000 and still pinched at 1300. *)
Definition dragging : World float :=
  worldOf (handleResult 1300 (Some (seen pinchHand))
             (worldOf (handleResult 1000 (Some (seen pinchHand)) start))).

(** A short press under way: pinched at 1000. *)
Definition pressing : World float :=
  worldOf (handleResult 1000 (Some (seen pinchHand)) start).
(** A click: pinched at 1000, released at 1100. *)
Definition clicked : World float :=
  worldOf (handleResult 1100 (Some (seen openHand)) pressing).
End Scene.

(** ** The region of interest in the words of the specification *)




(** ** The smoothing in the words of the specification *)

Section SmoothingVocabulary.
Context {num : Type} `{Number num} `{NumberSqrt num}.

(** The arithmetic mean of [xs] as a program computes it: the sum, taken
    from the left and from 0, divided by the count. *)
Definition spec_mean (xs : list num) : num :=
  div (fold_left add xs (fromZ 0)) (fromZ (Z.of_nat (length xs))).

(** The most recent [n] entries of [l], oldest first. *)
Definition mostRecent {A} (n : nat) (l : list A) : list A :=
  drop (length l - n) l.

(** The frame [f] shows a hand that is tracked and has its index tip, and
    [p] is the position mapped from that tip. *)
Definition mapsTo (c : Config num) (f : num * GestureResult num) (p : Point num)
  : Prop :=
  exists i h root mcp tip,
    selectHand c f.2 = Some (i, h)
    /\ h !! 0 = Some root /\ h !! 9 = Some mcp /\ h !! 8 = Some tip
    /\ p = mapPoint (effRoi (baseRoi c) (wristToMiddle root mcp)) tip.
End SmoothingVocabulary.

(** ** The same formulas at binary64 *)




(** A number that is NaN or lies between [lo] and [hi]. *)
Definition nanOrWithin (lo hi v : float) : Prop :=
  PrimFloat.is_nan v = true
  \/ (PrimFloat.leb lo v = true /\ PrimFloat.leb v hi = true).

(** ** The rest of [useGesture.ts]: the log, the frame counter, the pump *)

(** [LogEntry['type']] *)
Inductive LogType := LogInfo | LogError | LogSuccess | LogWarning.

Record LogEntry := {
  timestamp : string;
  message : string;
  logType : LogType
}.

(** [addLog(message, type)], with the time string [new Date()] gives:
    [logs.value = [{ timestamp, message, type }, ...logs.value].slice(0, 50)] *)
Definition addLog (stamp msg : string) (type : LogType) (logs : list LogEntry)
  : list LogEntry :=
  take 50 ({| timestamp := stamp; message := msg; logType := type |} :: logs).

(** A run of [addLog], oldest call first. *)
Definition addLogs (calls : list LogEntry) (logs : list LogEntry) : list LogEntry :=
  fold_left (fun l e => addLog (timestamp e) (message e) (logType e) l) calls logs.

Section Housekeeping.
Context {num : Type} `{Number num} `{NumberSqrt num}.

(** [a >= b] *)
Definition ge (a b : num) : bool := lt b a || seq a b.

(** [fps], [frameCount] and [lastFpsTime]. *)
Record FpsState := {
  fps : nat;
  frameCount : nat;
  lastFpsTime : num
}.

(** [updateFps()], run at [performance.now() = now]. *)
Definition updateFps (now : num) (s : FpsState) : FpsState :=
  let count := S (frameCount s) in
  if ge (sub now (lastFpsTime s)) (fromZ 1000)
  then {| fps := count; frameCount := 0; lastFpsTime := now |}
  else {| fps := fps s; frameCount := count; lastFpsTime := lastFpsTime s |}.

(** The test under which a turn of [loop] posts a [detect] message (the
    video and the worker being there). *)
Definition submits (w : World num) : bool :=
  isCameraActive w && isWorkerReady w && negb (isBusyRef w).

(** The [detect] requests not yet answered after a run that starts with
    [k] of them: a turn of the loop that submits adds one, a [result]
    message answers one and cannot come when none is outstanding. *)
Fixpoint outstanding (ts : list (Task num)) (w : World num) (k : nat) : option nat :=
  match ts with
  | [] => Some k
  | t :: ts' =>
      match runTask t w with
      | None => None
      | Some o =>
          match t with
          | TaskTick => outstanding ts' (worldOf o) (if submits w then S k else k)
          | TaskMessage _ (Result _) =>
              match k with
              | 0 => None
              | S k' => outstanding ts' (worldOf o) k'
              end
          | _ => outstanding ts' (worldOf o) k
          end
      end
  end.

(** The tasks of a session in which the camera stays on and the worker
    stays the same: no stop, no restart, no init message. *)
Definition steadyTask (t : Task num) : bool :=
  match t with
  | TaskStopCamera | TaskCameraReady => false
  | TaskMessage _ InitSuccess | TaskMessage _ InitError => false
  | _ => true
  end.

(** At most one double-click timeout is pending, and the click counter
    says whether one is. *)
Definition timerInv (w : World num) : Prop :=
  (clickCount (STATE w) = 0 /\ timers w = [])
  \/ (clickCount (STATE w) = 1
      /\ exists id due, timers w = [(id, due)] /\ clickTimer (STATE w) = Some id).

(** The mode [drag] is shown only while the drag flag is set. *)
Definition dragModeInv (w : World num) : Prop :=
  mode (cursor (gestureState w)) = ModeDrag -> isDragging (STATE w) = true.
End Housekeeping.

Arguments FpsState : clear implicits.

(** ** The setters of the configuration *)

Section Setters.
Context {num : Type}.

(** [setHandPreference] *)
Definition setHandPreference (h : HandPreference) (w : World num) : World num :=
  {| gestureState := gestureState w; positionBuffer := positionBuffer w;
     STATE := STATE w;
     config := {| hand := h; smoothing := smoothing (config w);
                  baseRoi := baseRoi (config w);
                  videoSource := videoSource (config w) |};
     isCameraActive := isCameraActive w; isWorkerReady := isWorkerReady w;
     isBusyRef := isBusyRef w; requestRef := requestRef w;
     innerWidth := innerWidth w; innerHeight := innerHeight w;
     timers := timers w; nextTimer := nextTimer w |}.

(** [setRoi] *)
Definition setRoi (r : num) (w : World num) : World num :=
  {| gestureState := gestureState w; positionBuffer := positionBuffer w;
     STATE := STATE w;
     config := {| hand := hand (config w); smoothing := smoothing (config w);
                  baseRoi := r; videoSource := videoSource (config w) |};
     isCameraActive := isCameraActive w; isWorkerReady := isWorkerReady w;
     isBusyRef := isBusyRef w; requestRef := requestRef w;
     innerWidth := innerWidth w; innerHeight := innerHeight w;
     timers := timers w; nextTimer := nextTimer w |}.
End Setters.

(** ** Everything that runs on the main thread *)

Section Calls.
Context {num : Type} `{Number num} `{NumberSqrt num}.

(** The tasks of the event loop, and the two setters the settings panel
    calls besides [setSmoothing]. *)
Inductive Call :=
| CallTask (t : Task num)
| CallSetHandPreference (h : HandPreference)
| CallSetRoi (r : num).

Definition runCall (c : Call) (w : World num) : option (Outcome num) :=
  match c with
  | CallTask t => runTask t w
  | CallSetHandPreference h => Some (Normal (setHandPreference h w))
  | CallSetRoi r => Some (Normal (setRoi r w))
  end.

Fixpoint runCalls (cs : list Call) (w : World num) : option (World num) :=
  match cs with
  | [] => Some w
  | c :: cs' =>
      match runCall c w with
      | Some o => runCalls cs' (worldOf o)
      | None => None
      end
  end.
End Calls.

Arguments Call : clear implicits.

(** ** A turn of the prediction loop, step by step *)

Section AsyncTurn.
Context {num : Type}.

(** What [requestRef.value = requestAnimationFrame(loop)] leaves in the
    world; the world keeps the presence of the handle only. *)
Definition rearm (w : World num) : World num :=
  {| gestureState := gestureState w; positionBuffer := positionBuffer w;
     STATE := STATE w; config := config w; isCameraActive := isCameraActive w;
     isWorkerReady := isWorkerReady w; isBusyRef := isBusyRef w;
     requestRef := Some 1; innerWidth := innerWidth w;
     innerHeight := innerHeight w; timers := timers w; nextTimer := nextTimer w |}.

(** How a turn of [loop] goes on after its two tests. *)
Inductive TurnStart := Returns | Awaits | Continues.

(** The two tests of [loop]; [video] says that the video element and the
    worker are there and that [readyState >= 2]. *)
Definition loopBegin (video : bool) (w : World num) : TurnStart :=
  if negb (isCameraActive w) then Returns
  else if video && isWorkerReady w && negb (isBusyRef w) then Awaits
       else Continues.

(** The loop with what the browser holds for it: the callbacks given to
    [requestAnimationFrame] that have not run, by handle (a handle is a
    positive number); the handle that [requestRef.value] holds; the next
    handle; the turns suspended at [await createImageBitmap]; and the
    [detect] messages posted. *)
Record Loop := {
  world : World num;
  armed : option positive;
  callbacks : list positive;
  fresh : positive;
  awaiting : nat;
  posted : nat
}.

(** [requestRef.value = requestAnimationFrame(loop)] *)
Definition requestAnimationFrame (l : Loop) : Loop :=
  {| world := rearm (world l); armed := Some (fresh l);
     callbacks := callbacks l ++ [fresh l]; fresh := Pos.succ (fresh l);
     awaiting := awaiting l; posted := posted l |}.

(** [cancelAnimationFrame(requestRef.value)], under [if (requestRef.value)] *)
Definition cancelAnimationFrame (h : option positive) (cbs : list positive)
  : list positive :=
  match h with
  | Some h => List.filter (fun k => negb (Pos.eqb k h)) cbs
  | None => cbs
  end.

(** A turn of [loop] up to its [await], or to its end when it does not
    wait. *)
Definition loopStart (video : bool) (l : Loop) : Loop :=
  match loopBegin video (world l) with
  | Returns => l
  | Awaits =>
      {| world := setIsBusyRef true (world l); armed := armed l;
         callbacks := callbacks l; fresh := fresh l;
         awaiting := S (awaiting l); posted := posted l |}
  | Continues => requestAnimationFrame l
  end.

(** A turn from its [await] on: with the bitmap it posts one [detect]
    message; when [createImageBitmap] or [postMessage] threw, the [catch]
    clears the busy flag; then it asks for the next turn. *)
Definition loopResume (ok : bool) (l : Loop) : Loop :=
  requestAnimationFrame
    (if ok
     then {| world := world l; armed := armed l; callbacks := callbacks l;
             fresh := fresh l; awaiting := awaiting l; posted := S (posted l) |}
     else {| world := setIsBusyRef false (world l); armed := armed l;
             callbacks := callbacks l; fresh := fresh l;
             awaiting := awaiting l; posted := posted l |}).

(** What happens to the loop: the browser runs the callback of handle
    [h]; the bitmap of a suspended turn arrives ([ok]) or the turn throws;
    [stopCamera] is called. *)
Inductive LoopEvent :=
| FrameFires (h : positive) (video : bool)
| BitmapSettles (ok : bool)
| CameraStops.

(** The event finds its callback, or a suspended turn. *)
Definition runsTurn (e : LoopEvent) (l : Loop) : bool :=
  match e with
  | FrameFires h _ => existsb (Pos.eqb h) (callbacks l)
  | BitmapSettles _ => negb (Nat.eqb (awaiting l) 0)
  | CameraStops => false
  end.

Definition loopStep (e : LoopEvent) (l : Loop) : Loop :=
  match e with
  | FrameFires h video =>
      if existsb (Pos.eqb h) (callbacks l)
      then loopStart video
             {| world := world l; armed := armed l;
                callbacks := List.filter (fun k => negb (Pos.eqb k h)) (callbacks l);
                fresh := fresh l; awaiting := awaiting l; posted := posted l |}
      else l
  | BitmapSettles ok =>
      match awaiting l with
      | O => l
      | S n =>
          loopResume ok
            {| world := world l; armed := armed l; callbacks := callbacks l;
               fresh := fresh l; awaiting := n; posted := posted l |}
      end
  | CameraStops =>
      {| world := stopCamera (world l); armed := None;
         callbacks := cancelAnimationFrame (armed l) (callbacks l);
         fresh := fresh l; awaiting := awaiting l; posted := posted l |}
  end.

Definition loopRun (es : list LoopEvent) (l : Loop) : Loop :=
  fold_left (fun l e => loopStep e l) es l.

(** The number of events of the run that found their callback or a
    suspended turn. *)
Fixpoint turnsRun (es : list LoopEvent) (l : Loop) : nat :=
  match es with
  | [] => 0
  | e :: es => (if runsTurn e l then 1 else 0) + turnsRun es (loopStep e l)
  end.
End AsyncTurn.

(** ** The bridge to mouse events: [processGestureInteraction] *)

Section Bridge.
Context {num Element : Type} `{EqDecision Element}.

(** What [dispatchMouseEvent] builds and dispatches. *)
Record MouseEvent := {
  evType : string;
  clientX : num;
  clientY : num;
  evTarget : Element;
  buttons : Z;
  button : Z
}.

(** The two module variables. *)
Record Bridge := {
  dragTarget : option Element;
  middleDragTarget : option Element
}.

(** [dispatchMouseEvent(type, clientX, clientY, target, buttons, button)],
    appended to what was dispatched so far. *)
Definition dispatchMouseEvent (type : string) (x y : num) (target : Element)
    (bs b : Z) (out : list MouseEvent) : list MouseEvent :=
  out ++ [{| evType := type; clientX := x; clientY := y; evTarget := target;
             buttons := bs; button := b |}].

(** [currentButtons]: [|= 1] with a drag target, [|= 4] with a middle one. *)
Definition currentButtons (b : Bridge) : Z :=
  let c := 0%Z in
  let c := match dragTarget b with Some _ => Z.lor c 1 | None => c end in
  match middleDragTarget b with Some _ => Z.lor c 4 | None => c end.

(** [events[name]], as a condition. *)
Definition truthy (ev : Events) (name : string) : bool :=
  match ev !! name with Some v => v | None => false end.

(** [processGestureInteraction(state)]: [elementFromPoint] is the document's;
    the result is the two module variables and the events dispatched, in
    order. *)
Definition processGestureInteraction (elementFromPoint : num -> num -> option Element)
    (state : GestureState num) (b : Bridge) : Bridge * list MouseEvent :=
  if negb (active (cursor state)) then (b, [])
  else
    let x := cx (cursor state) in
    let y := cy (cursor state) in
    match elementFromPoint x y with
    | None => (b, [])
    | Some target =>
        let out := dispatchMouseEvent "mousemove" x y target (currentButtons b) 0 [] in
        let ev := events state in
        (* CLICK (Left) *)
        let out :=
          if truthy ev "CLICK"
          then dispatchMouseEvent "click" x y target 0 0
                 (dispatchMouseEvent "mouseup" x y target 0 0
                    (dispatchMouseEvent "mousedown" x y target 1 0 out))
          else out in
        (* DRAG START *)
        let '(drag, out) :=
          match dragTarget b with
          | None =>
              if truthy ev "DRAG_START"
              then (Some target, dispatchMouseEvent "mousedown" x y target 1 0 out)
              else (None, out)
          | Some t => (Some t, out)
          end in
        (* DRAG END *)
        let '(drag, out) :=
          match drag with
          | Some t =>
              if truthy ev "DRAG_END"
              then (None, dispatchMouseEvent "mouseup" x y t 0 0 out)
              else (Some t, out)
          | None => (None, out)
          end in
        (* DRAG MIDDLE START *)
        let '(middle, out) :=
          match middleDragTarget b with
          | None =>
              if truthy ev "DRAG_MIDDLE_START"
              then (Some target, dispatchMouseEvent "mousedown" x y target 4 1 out)
              else (None, out)
          | Some t => (Some t, out)
          end in
        (* DRAG MIDDLE END *)
        let '(middle, out) :=
          match middle with
          | Some t =>
              if truthy ev "DRAG_MIDDLE_END"
              then (None, dispatchMouseEvent "mouseup" x y t 0 1 out)
              else (Some t, out)
          | None => (None, out)
          end in
        (* DOUBLE CLICK *)
        let out :=
          if truthy ev "DOUBLE_CLICK"
          then dispatchMouseEvent "dblclick" x y target 0 0 out
          else out in
        ({| dragTarget := drag; middleDragTarget := middle |}, out)
    end.

(** The watcher of [App.vue] over a run of gesture states, each with the
    document's [elementFromPoint] of its moment: the bridge at the end and
    everything dispatched. *)
Fixpoint bridgeRun (states : list ((num -> num -> option Element) * GestureState num))
    (b : Bridge) : Bridge * list MouseEvent :=
  match states with
  | [] => (b, [])
  | g :: states' =>
      let r := processGestureInteraction g.1 g.2 b in
      let r' := bridgeRun states' r.1 in
      (r'.1, r.2 ++ r'.2)
  end.

(** Reading the presses and releases of button [k] off a list of events:
    a [mousedown] opens a press on its target, a [mouseup] must close the
    innermost open press and go to the same target.  The result is the
    presses left open, innermost first, or [None] when a release matches
    no press. *)
Fixpoint presses (k : Z) (evs : list MouseEvent) (open : list Element)
  : option (list Element) :=
  match evs with
  | [] => Some open
  | e :: evs' =>
      if bool_decide (button e = k) && bool_decide (evType e = "mousedown")
      then presses k evs' (evTarget e :: open)
      else if bool_decide (button e = k) && bool_decide (evType e = "mouseup")
      then match open with
           | t :: open' =>
               if bool_decide (t = evTarget e) then presses k evs' open' else None
           | [] => None
           end
      else presses k evs' open
  end.

(** The press a target variable stands for. *)
Definition held (t : option Element) : list Element :=
  match t with Some e => [e] | None => [] end.
End Bridge.

Arguments MouseEvent : clear implicits.
Arguments Bridge : clear implicits.

(** ** Drawing the landmarks: [drawLandmarks] *)

Section Drawing.
Context {num : Type} `{Number num}.

(** What reaches the canvas: the [clearRect] of the whole canvas; a
    segment, stroked ([beginPath], [moveTo], [lineTo], [stroke]); a dot of
    radius 4, filled ([beginPath], [arc], [fill]).  The line width and the
    two colours are left out. *)
Inductive CanvasOp :=
| ClearRect
| Segment (x1 y1 x2 y2 : num)
| Dot (x0 y0 : num).

Definition isSegment (op : CanvasOp) : bool :=
  match op with Segment _ _ _ _ => true | _ => false end.

Definition HAND_CONNECTIONS : list (nat * nat) :=
  [(0, 1); (1, 2); (2, 3); (3, 4);
   (0, 5); (5, 6); (6, 7); (7, 8);
   (5, 9); (9, 10); (10, 11); (11, 12);
   (9, 13); (13, 14); (14, 15); (15, 16);
   (13, 17); (0, 17); (17, 18); (18, 19); (19, 20)].

(** What has been drawn when the function returns, or when it throws. *)
Inductive Drawing :=
| Drawn (ops : list CanvasOp)
| DrawingThrew (ops : list CanvasOp).

(** [for (const [start, end] of HAND_CONNECTIONS) { ... }] on a canvas of
    [width] by [height]: reading [.x] of a missing landmark throws, before
    the segment is stroked. *)
Fixpoint drawConnections (width height : num) (hand : list (Landmark num))
    (cs : list (nat * nat)) (ops : list CanvasOp) : Drawing :=
  match cs with
  | [] => Drawn ops
  | c :: cs' =>
      match hand !! c.1, hand !! c.2 with
      | Some p1, Some p2 =>
          drawConnections width height hand cs'
            (ops ++ [Segment (mul (x p1) width) (mul (y p1) height)
                             (mul (x p2) width) (mul (y p2) height)])
      | _, _ => DrawingThrew ops
      end
  end.

(** The body of [landmarks.forEach(hand => { ... })]. *)
Definition drawHand (width height : num) (hand : list (Landmark num))
    (ops : list CanvasOp) : Drawing :=
  match drawConnections width height hand HAND_CONNECTIONS ops with
  | Drawn ops' =>
      Drawn (ops' ++ map (fun p => Dot (mul (x p) width) (mul (y p) height)) hand)
  | DrawingThrew ops' => DrawingThrew ops'
  end.

Fixpoint drawHands (width height : num) (hands : list (list (Landmark num)))
    (ops : list CanvasOp) : Drawing :=
  match hands with
  | [] => Drawn ops
  | hand :: hands' =>
      match drawHand width height hand ops with
      | Drawn ops' => drawHands width height hands' ops'
      | DrawingThrew ops' => DrawingThrew ops'
      end
  end.

(** In the words of the property: the segment of a connection, between
    the two landmarks it names, scaled to the canvas; and the dot of a
    landmark. *)
Definition segmentOf (width height : num) (hand : list (Landmark num))
    (c : nat * nat) : option CanvasOp :=
  match hand !! c.1, hand !! c.2 with
  | Some p1, Some p2 =>
      Some (Segment (mul (x p1) width) (mul (y p1) height)
                    (mul (x p2) width) (mul (y p2) height))
  | _, _ => None
  end.

Definition dotOf (width height : num) (p : Landmark num) : CanvasOp :=
  Dot (mul (x p) width) (mul (y p) height).

(** [ops] is the drawing of [hand]: one segment for each connection, in
    the order of [HAND_CONNECTIONS], then one dot for each landmark, in
    order. *)
Definition drawsHand (width height : num) (hand : list (Landmark num))
    (ops : list CanvasOp) : Prop :=
  exists segs,
    ops = segs ++ map (dotOf width height) hand
    /\ Forall2 (fun c op => segmentOf width height hand c = Some op)
         HAND_CONNECTIONS segs.

(** [drawLandmarks(ctx, landmarks)], [ctx.canvas] being [width] by
    [height]. *)
Definition drawLandmarks (width height : num) (hands : list (list (Landmark num)))
  : Drawing :=
  drawHands width height hands [ClearRect].
End Drawing.

Arguments CanvasOp : clear implicits.
Arguments Drawing : clear implicits.

(** ** The cursor of [GestureCursor.vue] *)

(** The classes [cursorClass] switches on, besides the constant one. *)
Record CursorClass := {
  clicking : bool;
  dragging : bool
}.

(** [cursorClass], from [props.mode]. *)
Definition cursorClass (m : GestureMode) : CursorClass :=
  {| clicking := match m with ModeClick | ModeDrag => true | _ => false end;
     dragging := match m with ModeDrag | ModeRotate => true | _ => false end |}.

(** ** The scrolling of [ScrollableText.vue] *)

(** [Math.abs] and unary minus. *)
Class NumberSign (num : Type) := {
  Math_abs : num -> num;
  neg : num -> num
}.

#[export] Instance float_NumberSign : NumberSign float := {|
  Math_abs := PrimFloat.abs;
  neg := PrimFloat.opp
|}.

Section Scrolling.
Context {num : Type} `{Number num} `{NumberSign num}.

(** [scrollTop], [maxScroll] and the physics state ([isDragging] of the
    component is [grabbed] here). *)
Record Scroll := {
  scrollTop : num;
  maxScroll : num;
  velocity : num;
  lastY : num;
  grabbed : bool
}.

(** [Math.max(0, Math.min(scrollTop.value, maxScroll.value))] *)
Definition clampScroll (top limit : num) : num :=
  Math_max (fromZ 0) (Math_min top limit).

(** [updateMaxScroll()], the two elements being there, with the content's
    [scrollHeight] and the container's [clientHeight]. *)
Definition updateMaxScroll (scrollHeight clientHeight : num) (s : Scroll) : Scroll :=
  {| scrollTop := scrollTop s;
     maxScroll := Math_max (fromZ 0) (sub scrollHeight clientHeight);
     velocity := velocity s; lastY := lastY s; grabbed := grabbed s |}.

(** [onStartDrag(e)], [e.clientY = y] *)
Definition onStartDrag (y : num) (s : Scroll) : Scroll :=
  {| scrollTop := scrollTop s; maxScroll := maxScroll s; velocity := fromZ 0;
     lastY := y; grabbed := true |}.

(** [onDragMove(e)] *)
Definition onDragMove (y : num) (s : Scroll) : Scroll :=
  if negb (grabbed s) then s
  else
    let dy := sub y (lastY s) in
    {| scrollTop := clampScroll (sub (scrollTop s) dy) (maxScroll s);
       maxScroll := maxScroll s; velocity := neg dy; lastY := y;
       grabbed := grabbed s |}.

(** [onStopDrag()]; the turn of [momentumLoop] it asks for comes as an
    event of its own. *)
Definition onStopDrag (s : Scroll) : Scroll :=
  if grabbed s
  then {| scrollTop := scrollTop s; maxScroll := maxScroll s;
          velocity := velocity s; lastY := lastY s; grabbed := false |}
  else s.

(** One turn of [momentumLoop]. *)
Definition momentumLoop (s : Scroll) : Scroll :=
  if grabbed s then s
  else if lt (Math_abs (velocity s)) (dec 1 10) then s
  else
    let top := add (scrollTop s) (velocity s) in
    let v := mul (velocity s) (dec 95 100) in
    if lt top (fromZ 0)
    then {| scrollTop := fromZ 0; maxScroll := maxScroll s; velocity := fromZ 0;
            lastY := lastY s; grabbed := grabbed s |}
    else if gt top (maxScroll s)
    then {| scrollTop := maxScroll s; maxScroll := maxScroll s; velocity := fromZ 0;
            lastY := lastY s; grabbed := grabbed s |}
    else {| scrollTop := top; maxScroll := maxScroll s; velocity := v;
            lastY := lastY s; grabbed := grabbed s |}.

(** [onWheel(e)], [e.deltaY = dy] *)
Definition onWheel (dy : num) (s : Scroll) : Scroll :=
  {| scrollTop := clampScroll (add (scrollTop s) dy) (maxScroll s);
     maxScroll := maxScroll s; velocity := fromZ 0; lastY := lastY s;
     grabbed := grabbed s |}.

(** What reaches the component. *)
Inductive ScrollEvent :=
| StartDrag (y : num)
| DragMove (y : num)
| StopDrag
| MomentumTurn
| Wheel (dy : num)
| Resize (scrollHeight clientHeight : num).

Definition scrollStep (s : Scroll) (e : ScrollEvent) : Scroll :=
  match e with
  | StartDrag y => onStartDrag y s
  | DragMove y => onDragMove y s
  | StopDrag => onStopDrag s
  | MomentumTurn => momentumLoop s
  | Wheel dy => onWheel dy s
  | Resize sh ch => updateMaxScroll sh ch s
  end.

(** An event other than a resize. *)
Definition keepsLimit (e : ScrollEvent) : bool :=
  match e with Resize _ _ => false | _ => true end.

Definition scrollRun (es : list ScrollEvent) (s : Scroll) : Scroll :=
  fold_left scrollStep es s.
End Scrolling.

Arguments Scroll : clear implicits.
Arguments ScrollEvent : clear implicits.

(** ** More vocabulary, at binary64 *)

(** A number that is NaN or at least [lo]. *)
Definition nanOrAbove (lo v : float) : Prop :=
  PrimFloat.is_nan v = true \/ PrimFloat.leb lo v = true.

(** A mapped position with each coordinate in [0, 1], or NaN. *)
Definition unitOrNaN (p : Point float) : Prop :=
  nanOrWithin 0 1 (px p) /\ nanOrWithin 0 1 (py p).

(** The scroll offset within its bounds, or NaN. *)
Definition scrollWithin (s : Scroll float) : Prop :=
  nanOrWithin 0 (maxScroll s) (scrollTop s).

(** ** More of the scene *)

Module Scene2.
Local Open Scope float_scope.

(** Two hands in sight, the first labelled [Left], the second [Right]. *)
Definition twoHands : GestureResult float :=
  {| landmarks := Some [Scene.pinchHand; Scene.openHand];
     gestures := Some [[{| score := 1; categoryName := "Closed_Fist" |}];
                       [{| score := 1; categoryName := "Open_Palm" |}]];
     handednesses := [[{| score := 1; categoryName := "Left" |}];
                      [{| score := 1; categoryName := "Right" |}]] |}.

(** The start, with the right hand asked for, and with the left one. *)
Definition rightOnly : World float := setHandPreference PrefRight Scene.start.
Definition leftOnly : World float := setHandPreference PrefLeft Scene.start.

(** A session under way: worker ready, camera on. *)
Definition running : World float :=
  cameraReady (worldOf (onmessage 900 InitSuccess Scene.start)).
End Scene2.

(** A frame of the scene with one 21-landmark hand [h]: the hand is
    tracked, and the two pinch tests are evaluated. *)
Ltac scene_frame h :=
  exists h; split;
  [ eexists 0, _, _; repeat split; reflexivity
  | split; vm_compute; reflexivity ].

(** The literals of the source, as [dec] and [fromZ] read them at
    binary64. *)
Remark literals_at_binary64 :
  PINCH_THRESH = 0.05%float
  /\ refSize = 0.10%float
  /\ dec 5 10 = 0.5%float
  /\ dec 12 10 = 1.2%float
  /\ dec 8 10 = 0.8%float
  /\ HOLD_MS = 200%float
  /\ DOUBLE_CLICK_MS = 300%float.
Proof. repeat split; vm_compute; reflexivity. Qed.

(** ** The order of binary64

    The comparisons of binary64 through their specification on
    [spec_float]: on numbers that are not NaN, [<=] is a total preorder
    (the two zeros are equal), and [Math.max] and [Math.min] pick the
    larger and the smaller argument. *)

Lemma SFcompare_fin (s1 s2 : bool) (m1 m2 : positive) (e1 e2 : Z) :
  SFcompare (S754_finite s1 m1 e1) (S754_finite s2 m2 e2)
  = Some match s1, s2 with
      | true, false => Lt
      | false, true => Gt
      | false, false =>
        match Z.compare e1 e2 with
        | Lt => Lt
        | Gt => Gt
        | Eq => Pos.compare m1 m2
        end
      | true, true =>
        match Z.compare e1 e2 with
        | Lt => Gt
        | Gt => Lt
        | Eq => CompOpp (Pos.compare m1 m2)
        end
      end.
Proof. reflexivity. Qed.

Ltac sf_cases :=
  repeat match goal with
    | s : bool |- _ => destruct s
    end;
  repeat match goal with
    | |- context [Z.compare ?a ?b] => destruct (Z.compare_spec a b)
    | H : context [Z.compare ?a ?b] |- _ => destruct (Z.compare_spec a b)
    | |- context [Pos.compare ?a ?b] => destruct (Pos.compare_spec a b)
    | H : context [Pos.compare ?a ?b] |- _ => destruct (Pos.compare_spec a b)
    end;
  cbn in *; try congruence; try lia.

Ltac sf_open :=
  unfold SFleb, SFltb, SFeqb;
  repeat match goal with
    | x : spec_float |- _ => destruct x as [?|?| |? ? ?]
    end;
  rewrite ?SFcompare_fin; cbn [SFcompare]; try discriminate; try reflexivity.

Section SpecOrder.
Implicit Types x y z : spec_float.


Lemma SFltb_leb x y : SFltb x y = true -> SFleb x y = true.
Proof. sf_open; intros H1; sf_cases. Qed.

Lemma SFleb_total x y :
  x <> S754_nan -> y <> S754_nan -> SFltb x y = false -> SFleb y x = true.
Proof. sf_open; intros Hx Hy H1; try congruence; sf_cases. Qed.

Lemma SFleb_refl x : x <> S754_nan -> SFleb x x = true.
Proof. sf_open; intros Hx; try congruence; sf_cases. Qed.


Lemma SFleb_nan x y : SFleb x y = true -> x <> S754_nan /\ y <> S754_nan.
Proof. sf_open; intros H1; split; congruence. Qed.


Lemma SFeqb_self x : SFeqb x x = match x with S754_nan => false | _ => true end.
Proof. sf_open; sf_cases. Qed.

End SpecOrder.

Section Binary64.
Implicit Types a b c : float.
Local Open Scope float_scope.

Lemma b64_is_nan_spec a :
  PrimFloat.is_nan a = match Prim2SF a with S754_nan => true | _ => false end.
Proof.
  unfold PrimFloat.is_nan. rewrite FloatAxioms.eqb_spec, SFeqb_self.
  destruct (Prim2SF a); reflexivity.
Qed.

Lemma b64_not_nan a : PrimFloat.is_nan a = false -> Prim2SF a <> S754_nan.
Proof. rewrite b64_is_nan_spec. destruct (Prim2SF a); congruence. Qed.

Lemma b64_not_nan_inv a : Prim2SF a <> S754_nan -> PrimFloat.is_nan a = false.
Proof. rewrite b64_is_nan_spec. destruct (Prim2SF a); congruence. Qed.


Lemma b64_ltb_leb a b : (a <? b) = true -> (a <=? b) = true.
Proof. rewrite FloatAxioms.ltb_spec, FloatAxioms.leb_spec. apply SFltb_leb. Qed.

Lemma b64_leb_total a b :
  PrimFloat.is_nan a = false -> PrimFloat.is_nan b = false ->
  (a <? b) = false -> (b <=? a) = true.
Proof.
  intros Ha Hb. rewrite FloatAxioms.ltb_spec, FloatAxioms.leb_spec.
  apply SFleb_total; apply b64_not_nan; assumption.
Qed.

Lemma b64_leb_refl a : PrimFloat.is_nan a = false -> (a <=? a) = true.
Proof. intros Ha. rewrite FloatAxioms.leb_spec. apply SFleb_refl, b64_not_nan, Ha. Qed.


Lemma b64_leb_not_nan a b :
  (a <=? b) = true -> PrimFloat.is_nan a = false /\ PrimFloat.is_nan b = false.
Proof.
  rewrite FloatAxioms.leb_spec. intros H. apply SFleb_nan in H as [Ha Hb].
  split; apply b64_not_nan_inv; assumption.
Qed.





Lemma b64_zeros_leb a b :
  PrimFloat.is_zero a = true -> PrimFloat.is_zero b = true -> (a <=? b) = true.
Proof.
  unfold PrimFloat.is_zero. rewrite !FloatAxioms.eqb_spec, FloatAxioms.leb_spec.
  change (Prim2SF zero) with (S754_zero false).
  generalize (Prim2SF a) (Prim2SF b). intros x y. sf_open; intros; sf_cases.
Qed.

(** [Math.max] and [Math.min] *)
Lemma Fmax_nan a b :
  PrimFloat.is_nan a = true \/ PrimFloat.is_nan b = true ->
  PrimFloat.is_nan (F.max a b) = true.
Proof.
  unfold F.max. intros [Ha|Hb].
  - rewrite Ha. exact Ha.
  - destruct (PrimFloat.is_nan a) eqn:Ha; [exact Ha|]. rewrite Hb. exact Hb.
Qed.

Lemma Fmin_nan a b :
  PrimFloat.is_nan a = true \/ PrimFloat.is_nan b = true ->
  PrimFloat.is_nan (F.min a b) = true.
Proof.
  unfold F.min. intros [Ha|Hb].
  - rewrite Ha. exact Ha.
  - destruct (PrimFloat.is_nan a) eqn:Ha; [exact Ha|]. rewrite Hb. exact Hb.
Qed.

Lemma Fmax_sel a b : F.max a b = a \/ F.max a b = b.
Proof.
  unfold F.max.
  destruct (PrimFloat.is_nan a); [auto|]. destruct (PrimFloat.is_nan b); [auto|].
  destruct (_ && _); [destruct (PrimFloat.get_sign a); auto|].
  destruct (a <? b); auto.
Qed.

Lemma Fmin_sel a b : F.min a b = a \/ F.min a b = b.
Proof.
  unfold F.min.
  destruct (PrimFloat.is_nan a); [auto|]. destruct (PrimFloat.is_nan b); [auto|].
  destruct (_ && _); [destruct (PrimFloat.get_sign a); auto|].
  destruct (b <? a); auto.
Qed.

Lemma Fmax_ub a b :
  PrimFloat.is_nan a = false -> PrimFloat.is_nan b = false ->
  (a <=? F.max a b) = true /\ (b <=? F.max a b) = true.
Proof.
  intros Ha Hb. unfold F.max. rewrite Ha, Hb.
  destruct (PrimFloat.is_zero a && PrimFloat.is_zero b) eqn:Ez.
  - apply andb_prop in Ez as [Eza Ezb].
    destruct (PrimFloat.get_sign a); split;
      first [apply b64_leb_refl; assumption | apply b64_zeros_leb; assumption].
  - destruct (a <? b) eqn:E; split;
      first [apply b64_leb_refl; assumption | apply b64_ltb_leb; assumption
            | apply b64_leb_total; assumption].
Qed.

Lemma Fmin_lb a b :
  PrimFloat.is_nan a = false -> PrimFloat.is_nan b = false ->
  (F.min a b <=? a) = true /\ (F.min a b <=? b) = true.
Proof.
  intros Ha Hb. unfold F.min. rewrite Ha, Hb.
  destruct (PrimFloat.is_zero a && PrimFloat.is_zero b) eqn:Ez.
  - apply andb_prop in Ez as [Eza Ezb].
    destruct (PrimFloat.get_sign a); split;
      first [apply b64_leb_refl; assumption | apply b64_zeros_leb; assumption].
  - destruct (b <? a) eqn:E; split;
      first [apply b64_leb_refl; assumption | apply b64_ltb_leb; assumption
            | apply b64_leb_total; assumption].
Qed.

Lemma Fmax_not_nan a b :
  PrimFloat.is_nan a = false -> PrimFloat.is_nan b = false ->
  PrimFloat.is_nan (F.max a b) = false.
Proof. intros Ha Hb. destruct (Fmax_sel a b) as [-> | ->]; assumption. Qed.

Lemma Fmin_not_nan a b :
  PrimFloat.is_nan a = false -> PrimFloat.is_nan b = false ->
  PrimFloat.is_nan (F.min a b) = false.
Proof. intros Ha Hb. destruct (Fmin_sel a b) as [-> | ->]; assumption. Qed.
End Binary64.

(** ** Basic facts about [handleResult] *)

Section Basics.
Context {num : Type} `{Number num} `{NumberSqrt num}.

Lemma selectHand_noHands (c : Config num) (r : GestureResult num) :
  noHands r -> selectHand c r = None.
Proof.
  unfold selectHand; intros [E | E]; rewrite E; reflexivity.
Qed.

Lemma handleResult_reset (now : num) (r : GestureResult num) (w : World num) :
  selectHand (config w) r = None ->
  handleResult now (Some r) w = Normal (setGestureState (resetState (gestureState w)) w).
Proof.
  intros E; unfold handleResult; rewrite E; reflexivity.
Qed.

Lemma resetState_isIdle (g : GestureState num) : isIdle (resetState g).
Proof. repeat split. Qed.

Lemma handleResult_tracks (now : num) (r : GestureResult num) (w : World num)
    (h : list (Landmark num)) :
  tracks (config w) r h ->
  exists i root mcp,
    selectHand (config w) r = Some (i, h) /\ h !! 0 = Some root /\ h !! 9 = Some mcp
    /\ handleResult now (Some r) w = Normal (trackHand now r i h root mcp w).
Proof.
  intros (i & root & mcp & E & E0 & E9).
  exists i, root, mcp; repeat split; try assumption.
  unfold handleResult; rewrite E, E0, E9; reflexivity.
Qed.

Lemma handleResult_config (now : num) (result : option (GestureResult num))
    (w : World num) :
  config (worldOf (handleResult now result w)) = config w.
Proof.
  unfold handleResult.
  destruct result as [r|]; [|reflexivity].
  destruct (selectHand (config w) r) as [[i h]|]; [|reflexivity].
  destruct (h !! 0); [|reflexivity].
  destruct (h !! 9); reflexivity.
Qed.
End Basics.

(** ** C1: the reset path *)

Section ResetPath.
Context {num : Type} `{Number num} `{NumberSqrt num}.

(** C1 (as amended): a result that is not null and carries zero hands
    (its [landmarks] missing or empty) makes [handleResult] return normally
    with the idle state: [cursor.active = false], [events = {IDLE: true}],
    no gesture names and no debug landmarks, everything else of the world
    kept.  A null result does not reset anything: [handleResult] returns at
    once and the world, [GestureState] included, is what it was. *)
Theorem C1_zero_hands_reset_null_ignored
    (now : num) (r : GestureResult num) (w : World num) :
  noHands r ->
  (exists w',
      handleResult now (Some r) w = Normal w'
      /\ isIdle (gestureState w')
      /\ gestureNames (gestureState w') = []
      /\ w' = setGestureState (resetState (gestureState w)) w)
  /\ handleResult now None w = Normal w.
Proof.
  intros Hr; split; [|reflexivity].
  eexists; split; [apply handleResult_reset, selectHand_noHands, Hr|].
  repeat split.
Qed.
End ResetPath.

(** The theorem at work: no hand in sight after an open hand was tracked. *)
Lemma C1_zero_hands_reset_witness :
  noHands Scene.nothing
  /\ ((exists w',
          handleResult 1100%float (Some Scene.nothing) Scene.pointing = Normal w'
          /\ isIdle (gestureState w')
          /\ gestureNames (gestureState w') = []
          /\ w' = setGestureState (resetState (gestureState Scene.pointing)) Scene.pointing)
      /\ handleResult 1100%float None Scene.pointing = Normal Scene.pointing).
Proof.
  split; [right; reflexivity|].
  apply (C1_zero_hands_reset_null_ignored 1100%float Scene.nothing Scene.pointing).
  right; reflexivity.
Defined.

(** C1 as stated fails on a null result: after an open hand was tracked the
    cursor is active and [POINTER_MOVE] is set, and a null result leaves it
    so instead of resetting to idle. *)
Lemma C1_null_result_counterexample :
  active (cursor (gestureState Scene.pointing)) = true
  /\ handleResult 1100%float None Scene.pointing = Normal Scene.pointing
  /\ ~ isIdle (gestureState (worldOf (handleResult 1100%float None Scene.pointing))).
Proof.
  split; [vm_compute; reflexivity|].
  split; [reflexivity|].
  intros (Hact & _); vm_compute in Hact; discriminate.
Qed.

(** ** C2: hands with missing landmarks *)

Section PartialHands.
Context {num : Type} `{Number num} `{NumberSqrt num}.

Lemma calculateDistance_missing_l (p : option (Landmark num)) :
  calculateDistance None p = fromZ 1.
Proof. reflexivity. Qed.

Lemma calculateDistance_missing_r (p : option (Landmark num)) :
  calculateDistance p None = fromZ 1.
Proof. destruct p; reflexivity. Qed.

Lemma lookup_below {A} (l : list A) (i : nat) : i < length l -> exists a, l !! i = Some a.
Proof.
  intros Hi. destruct (l !! i) as [a|] eqn:E; [eauto|].
  apply lookup_ge_None in E; lia.
Qed.

Lemma tracks_of_length (c : Config num) (r : GestureResult num) (i : nat)
    (h : list (Landmark num)) :
  selectHand c r = Some (i, h) -> 9 < length h -> tracks c r h.
Proof.
  intros E Hl.
  destruct (lookup_below h 0) as [root E0]; [lia|].
  destruct (lookup_below h 9) as [mcp E9]; [lia|].
  exists i, root, mcp; auto.
Qed.

(** The wrist or the MCP joint missing: the read of [.x] throws, and the
    world is as it was. *)
Lemma handleResult_throws (now : num) (r : GestureResult num) (w : World num)
    (i : nat) (h : list (Landmark num)) :
  selectHand (config w) r = Some (i, h) ->
  h !! 0 = None \/ h !! 9 = None ->
  handleResult now (Some r) w = TypeError w.
Proof.
  intros E Hm; unfold handleResult; rewrite E.
  destruct Hm as [E0 | E9]; [rewrite E0; reflexivity|].
  rewrite E9; destruct (h !! 0); reflexivity.
Qed.

Lemma mapCursor_active (e : num) (h : list (Landmark num)) (w : World num)
    (tip : Landmark num) :
  h !! 8 = Some tip -> active (mapCursor e h w).2 = true.
Proof. intros E; unfold mapCursor; rewrite E; reflexivity. Qed.

End PartialHands.



(** ** C3: what the reset path leaves alone *)

Section HandLoss.
Context {num : Type} `{Number num} `{NumberSqrt num}.

Lemma bufferSize_pos (p : SmoothingProfile) : 2 <= bufferSize p.
Proof. destruct p; cbn; lia. Qed.

Lemma pushPosition_cases (size : nat) (p : Point num) (buf : list (Point num)) :
  pushPosition size p buf = buf ++ [p] \/ pushPosition size p buf = tail (buf ++ [p]).
Proof. unfold pushPosition; destruct (decide _); auto. Qed.


End HandLoss.



(** ** One frame with a tracked hand *)

Section Frames.
Context {num : Type} `{Number num} `{NumberSqrt num}.

Lemma mapCursor_mode (e : num) (h : list (Landmark num)) (w : World num) :
  mode (mapCursor e h w).2 = mode (cursor (gestureState w)).
Proof. unfold mapCursor; destruct (h !! 8); reflexivity. Qed.

Lemma machineIn_mapCursor (e : num) (h : list (Landmark num)) (w : World num) :
  machineIn w (mapCursor e h w).2 = machineIn w (cursor (gestureState w)).
Proof. unfold machineIn; rewrite mapCursor_mode; reflexivity. Qed.

(** What a call on a tracked hand does, as far as the state machine is
    concerned: the machine runs once, from [STATE] and the cursor's mode,
    on the two pinch tests of the hand. *)
Lemma handle_step (now : num) (r : GestureResult num) (w : World num)
    (h : list (Landmark num)) :
  tracks (config w) r h ->
  exists (w' : World num) (act : bool),
    handleResult now (Some r) w = Normal w'
    /\ STATE w' = mSTATE (gestureMachine now (isPinch h) (isMiddlePinch h) act
                           (machineIn w (cursor (gestureState w))))
    /\ mode (cursor (gestureState w'))
       = mMode (gestureMachine now (isPinch h) (isMiddlePinch h) act
                  (machineIn w (cursor (gestureState w))))
    /\ events (gestureState w')
       = mEvents (gestureMachine now (isPinch h) (isMiddlePinch h) act
                    (machineIn w (cursor (gestureState w))))
    /\ timers w'
       = mTimers (gestureMachine now (isPinch h) (isMiddlePinch h) act
                    (machineIn w (cursor (gestureState w))))
    /\ config w' = config w
    /\ active (cursor (gestureState w')) = act.
Proof.
  intros Ht.
  destruct (handleResult_tracks now r w h Ht) as (i & root & mcp & _ & _ & _ & Hr).
  eexists; eexists; split; [exact Hr|].
  cbn [trackHand STATE gestureState cursor events timers config setMode mode active].
  rewrite machineIn_mapCursor. repeat split; reflexivity.
Qed.

(** The same for the task that delivers the frame: [onmessage] hands the
    result to [handleResult] and clears the busy flag. *)
Lemma frame_step (now : num) (r : GestureResult num) (w : World num)
    (h : list (Landmark num)) :
  tracks (config w) r h ->
  exists (w' : World num) (act : bool),
    runTask (frameTask (now, r)) w = Some (Normal w')
    /\ STATE w' = mSTATE (gestureMachine now (isPinch h) (isMiddlePinch h) act
                           (machineIn w (cursor (gestureState w))))
    /\ mode (cursor (gestureState w'))
       = mMode (gestureMachine now (isPinch h) (isMiddlePinch h) act
                  (machineIn w (cursor (gestureState w))))
    /\ events (gestureState w')
       = mEvents (gestureMachine now (isPinch h) (isMiddlePinch h) act
                    (machineIn w (cursor (gestureState w))))
    /\ timers w'
       = mTimers (gestureMachine now (isPinch h) (isMiddlePinch h) act
                    (machineIn w (cursor (gestureState w))))
    /\ config w' = config w
    /\ active (cursor (gestureState w')) = act.
Proof.
  intros Ht.
  destruct (handle_step now r w h Ht) as (w' & act & Hr & HS & Hm & He & Hq & Hc & Ha).
  exists (setIsBusyRef false w'), act; split.
  - cbn [runTask frameTask fst snd onmessage]. rewrite Hr. reflexivity.
  - cbn [setIsBusyRef STATE gestureState timers config]. auto 10.
Qed.
End Frames.

(** ** The state machine, branch by branch *)

(** Reduce the record updates of the machine and nothing else. *)
Ltac machine_simpl :=
  cbn [mSTATE mMode mEvents mTimers mNext onState withMode fire
       lastPinchTime clickCount clickTimer dragStartTime isDragging
       isMiddleDragging lastPosition setClickCount setClickTimer
       setDragStartTime setIsDragging setIsMiddleDragging negb andb].

Section MachineBranches.
Context {num : Type} `{Number num}.

(** Middle pinch: the machine takes the rotate branch whatever the index
    finger does, and leaves the index drag flag and hold timer alone. *)
Lemma machine_middle (now : num) (pinch act : bool) (m : Machine num) :
  mMode (gestureMachine now pinch true act m) = ModeRotate
  /\ mEvents (gestureMachine now pinch true act m)
     = emit (if isMiddleDragging (mSTATE m) then "DRAG_MIDDLE_MOVE"
             else "DRAG_MIDDLE_START") (mEvents m)
  /\ isMiddleDragging (mSTATE (gestureMachine now pinch true act m)) = true
  /\ isDragging (mSTATE (gestureMachine now pinch true act m)) = isDragging (mSTATE m)
  /\ dragStartTime (mSTATE (gestureMachine now pinch true act m))
     = dragStartTime (mSTATE m)
  /\ clickCount (mSTATE (gestureMachine now pinch true act m)) = clickCount (mSTATE m)
  /\ mTimers (gestureMachine now pinch true act m) = mTimers m.
Proof.
  unfold gestureMachine, pointerOrIdle, middlePinchBranch.
  destruct pinch; destruct (isMiddleDragging (mSTATE m)) eqn:E; cbn; rewrite ?E; auto 10.
Qed.

(** Index pinch without middle pinch, no drag under way: the hold timer is
    started if it was idle, and the drag begins when [now] is more than
    200 past its start. *)
Lemma machine_index_hold (now : num) (act : bool) (m : Machine num) :
  isDragging (mSTATE m) = false ->
  mMode (gestureMachine now true false act m) = mMode m
  /\ dragStartTime (mSTATE (gestureMachine now true false act m))
     = holdStart now (mSTATE m)
  /\ isDragging (mSTATE (gestureMachine now true false act m))
     = gt (sub now (holdStart now (mSTATE m))) HOLD_MS
  /\ isMiddleDragging (mSTATE (gestureMachine now true false act m)) = false
  /\ clickCount (mSTATE (gestureMachine now true false act m)) = clickCount (mSTATE m)
  /\ clickTimer (mSTATE (gestureMachine now true false act m)) = clickTimer (mSTATE m)
  /\ mTimers (gestureMachine now true false act m) = mTimers m
  /\ mEvents (gestureMachine now true false act m)
     = (if gt (sub now (holdStart now (mSTATE m))) HOLD_MS
        then emit "DRAG_START" else id)
         ((if isMiddleDragging (mSTATE m) then emit "DRAG_MIDDLE_END" else id)
            (mEvents m)).
Proof.
  intros Hd.
  unfold gestureMachine, pointerOrIdle, endRotate, indexPinchBranch, holdStart.
  destruct (isMiddleDragging (mSTATE m)) eqn:Em; cbn; rewrite Hd; cbn;
    destruct (seq (dragStartTime (mSTATE m)) (fromZ 0)); cbn;
    match goal with |- context [gt ?a ?b] => destruct (gt a b) eqn:Eg end;
    cbn; rewrite ?Hd, ?Em, ?Eg; auto 10.
Qed.

(** Index pinch without middle pinch, drag under way. *)
Lemma machine_index_drag (now : num) (act : bool) (m : Machine num) :
  isDragging (mSTATE m) = true ->
  mMode (gestureMachine now true false act m) = ModeDrag
  /\ dragStartTime (mSTATE (gestureMachine now true false act m))
     = dragStartTime (mSTATE m)
  /\ isDragging (mSTATE (gestureMachine now true false act m)) = true
  /\ isMiddleDragging (mSTATE (gestureMachine now true false act m)) = false
  /\ mEvents (gestureMachine now true false act m)
     = emit "DRAG_MOVE"
         ((if isMiddleDragging (mSTATE m) then emit "DRAG_MIDDLE_END" else id)
            (mEvents m)).
Proof.
  intros Hd.
  unfold gestureMachine, pointerOrIdle, endRotate, indexPinchBranch.
  destruct (isMiddleDragging (mSTATE m)) eqn:Em; cbn; rewrite Hd; cbn;
    rewrite ?Hd, ?Em; auto 10.
Qed.

(** Neither pinch, no drag under way, hold timer idle: nothing but the
    pointer event. *)
Lemma machine_open_idle (now : num) (act : bool) (m : Machine num) :
  isDragging (mSTATE m) = false ->
  gt (dragStartTime (mSTATE m)) (fromZ 0) = false ->
  mEvents m = ∅ ->
  flag (mEvents (gestureMachine now false false act m)) "CLICK" = false
  /\ flag (mEvents (gestureMachine now false false act m)) "DOUBLE_CLICK" = false
  /\ dragStartTime (mSTATE (gestureMachine now false false act m))
    = dragStartTime (mSTATE m)
  /\ isDragging (mSTATE (gestureMachine now false false act m)) = false
  /\ isMiddleDragging (mSTATE (gestureMachine now false false act m)) = false
  /\ clickCount (mSTATE (gestureMachine now false false act m)) = clickCount (mSTATE m)
  /\ clickTimer (mSTATE (gestureMachine now false false act m)) = clickTimer (mSTATE m)
  /\ mTimers (gestureMachine now false false act m) = mTimers m.
Proof.
  destruct m as [[lp cc ct ds dr md lpos] mo ev tq nx]; machine_simpl.
  intros -> Hg ->.
  unfold gestureMachine, pointerOrIdle, endRotate, releaseBranch.
  destruct md; machine_simpl; rewrite Hg; machine_simpl;
    (split; [destruct act; vm_compute; reflexivity|]);
    (split; [destruct act; vm_compute; reflexivity|]); auto 10.
Qed.

(** Neither pinch, no drag under way, hold timer running, click counter at
    zero: the first short press of a pair. *)
Lemma machine_release_first (now : num) (act : bool) (m : Machine num) :
  isDragging (mSTATE m) = false ->
  gt (dragStartTime (mSTATE m)) (fromZ 0) = true ->
  clickCount (mSTATE m) = 0 ->
  mEvents m = ∅ ->
  dragStartTime (mSTATE (gestureMachine now false false act m)) = fromZ 0
  /\ isDragging (mSTATE (gestureMachine now false false act m)) = false
  /\ isMiddleDragging (mSTATE (gestureMachine now false false act m)) = false
  /\ clickCount (mSTATE (gestureMachine now false false act m)) = 1
  /\ clickTimer (mSTATE (gestureMachine now false false act m)) = Some (mNext m)
  /\ mTimers (gestureMachine now false false act m)
     = mTimers m ++ [(mNext m, add now DOUBLE_CLICK_MS)]
  /\ flag (mEvents (gestureMachine now false false act m)) "CLICK" = true
  /\ flag (mEvents (gestureMachine now false false act m)) "DOUBLE_CLICK" = false.
Proof.
  destruct m as [[lp cc ct ds dr md lpos] mo ev tq nx]; machine_simpl.
  intros -> Hg -> ->.
  unfold gestureMachine, pointerOrIdle, endRotate, releaseBranch, armClickTimer.
  destruct md; machine_simpl; rewrite Hg; machine_simpl;
    destruct act; repeat split; vm_compute; reflexivity.
Qed.

(** Neither pinch, no drag under way, hold timer running, click counter at
    one with its timeout pending: the second short press of a pair. *)
Lemma machine_release_second (now : num) (act : bool) (m : Machine num) (id : nat) :
  isDragging (mSTATE m) = false ->
  gt (dragStartTime (mSTATE m)) (fromZ 0) = true ->
  clickCount (mSTATE m) = 1 ->
  clickTimer (mSTATE m) = Some id ->
  mEvents m = ∅ ->
  dragStartTime (mSTATE (gestureMachine now false false act m)) = fromZ 0
  /\ isDragging (mSTATE (gestureMachine now false false act m)) = false
  /\ clickCount (mSTATE (gestureMachine now false false act m)) = 0
  /\ mTimers (gestureMachine now false false act m) = clearTimeout id (mTimers m)
  /\ flag (mEvents (gestureMachine now false false act m)) "DOUBLE_CLICK" = true
  /\ flag (mEvents (gestureMachine now false false act m)) "CLICK" = false.
Proof.
  destruct m as [[lp cc ct ds dr md lpos] mo ev tq nx]; machine_simpl.
  intros -> Hg -> -> ->.
  unfold gestureMachine, pointerOrIdle, endRotate, releaseBranch, cancelClickTimer.
  destruct md; machine_simpl; rewrite Hg; machine_simpl;
    destruct act; repeat split; vm_compute; reflexivity.
Qed.
End MachineBranches.

(** ** C4: from a held index pinch to a drag *)

Section HoldToDrag.
Context {num : Type} `{Number num} `{NumberSqrt num}.
Variable c : Config num.
Variable t0 : num.
Hypothesis t0_not_zero : seq t0 (fromZ 0) = false.

(** The drag once started: every further held frame moves it. *)
Lemma drag_run (post : list (num * GestureResult num)) :
  Forall (frameWith c true false) post ->
  forall w : World num,
    config w = c -> isDragging (STATE w) = true ->
    isMiddleDragging (STATE w) = false ->
    length (runTrace (map frameTask post) w) = length post
    /\ Forall dragMoveWorld (runTrace (map frameTask post) w).
Proof.
  induction 1 as [|f post (h & Ht & Hp & Hm) _ IH]; intros w Hc Hd Hmd.
  - split; [reflexivity|constructor].
  - destruct f as [now r]. rewrite <- Hc in Ht.
    destruct (frame_step now r w h Ht) as (w' & act & Hr & HS & Hmo & He & _ & Hc' & _).
    rewrite Hp, Hm in HS, Hmo, He.
    destruct (machine_index_drag now act (machineIn w (cursor (gestureState w))) Hd)
      as (Emode & _ & Edrag & Emid & Eev).
    cbn [machineIn mSTATE mEvents] in Eev. rewrite Hmd in Eev.
    cbn [map runTrace]. rewrite Hr. cbn [worldOf].
    destruct (IH w') as [IHl IHf];
      [congruence | rewrite HS; exact Edrag | rewrite HS; exact Emid |].
    split; [cbn [length]; rewrite IHl; reflexivity|].
    constructor; [|exact IHf].
    repeat split; [rewrite He, Eev; reflexivity | congruence | rewrite HS; exact Edrag].
Qed.

(** The hold timer running from [t0]: frames that are not yet more than
    200 past [t0] keep it running; the first frame that is starts the drag. *)
Lemma hold_run (mo : GestureMode) (trig : num * GestureResult num)
    (post hold : list (num * GestureResult num)) :
  frameWith c true false trig ->
  gt (sub trig.1 t0) HOLD_MS = true ->
  Forall (frameWith c true false) post ->
  Forall (frameWith c true false) hold ->
  Forall (fun f => gt (sub f.1 t0) HOLD_MS = false) hold ->
  forall w : World num,
    config w = c -> isDragging (STATE w) = false -> dragStartTime (STATE w) = t0 ->
    isMiddleDragging (STATE w) = false -> mode (cursor (gestureState w)) = mo ->
    exists (Wh : list (World num)) (wT : World num) (Wp : list (World num)),
      runTrace (map frameTask (hold ++ trig :: post)) w = Wh ++ wT :: Wp
      /\ length Wh = length hold
      /\ length Wp = length post
      /\ Forall (holdingWorld t0 mo) Wh
      /\ dragStartWorld t0 wT
      /\ Forall dragMoveWorld Wp.
Proof.
  intros (hT & HtT & HpT & HmT) HgT Hpost Hhold.
  induction Hhold as [|f hold (h & Ht & Hp & Hm) _ IH]; intros Hle w Hc Hd Hs Hmd Hmo.
  - destruct trig as [now r]. cbn [fst snd] in *. rewrite <- Hc in HtT.
    destruct (frame_step now r w hT HtT) as (w' & act & Hr & HS & _ & He & _ & Hc' & _).
    rewrite HpT, HmT in HS, He.
    destruct (machine_index_hold now act (machineIn w (cursor (gestureState w))) Hd)
      as (_ & Estart & Edrag & Emid & _ & _ & _ & Eev).
    cbn [machineIn mSTATE mEvents] in Estart, Edrag, Eev.
    unfold holdStart in *. rewrite Hs, t0_not_zero, HgT in *. rewrite Hmd in Eev.
    destruct (drag_run post Hpost w') as [Hl Hf];
      [congruence | rewrite HS; exact Edrag | rewrite HS; exact Emid |].
    exists [], w', (runTrace (map frameTask post) w').
    cbn [app map runTrace]. rewrite Hr. cbn [worldOf].
    split; [reflexivity|].
    split; [reflexivity|].
    split; [exact Hl|].
    split; [constructor|].
    split; [|exact Hf].
    split; [rewrite He, Eev; reflexivity|].
    split; [rewrite HS; exact Edrag | rewrite HS; exact Estart].
  - destruct f as [now r]. cbn [fst snd] in *. rewrite <- Hc in Ht.
    apply Forall_cons in Hle as [Hnow Hle']. cbn [fst] in Hnow.
    destruct (frame_step now r w h Ht) as (w' & act & Hr & HS & Hmo' & He & _ & Hc' & _).
    rewrite Hp, Hm in HS, Hmo', He.
    destruct (machine_index_hold now act (machineIn w (cursor (gestureState w))) Hd)
      as (Emode & Estart & Edrag & Emid & _ & _ & _ & Eev).
    cbn [machineIn mSTATE mEvents mMode] in Emode, Estart, Edrag, Eev.
    unfold holdStart in *. rewrite Hs, t0_not_zero, Hnow in *. rewrite Hmd in Eev.
    destruct (IH Hle' w') as (Wh & wT & Wp & Hrun & Hlh & Hlp & Hfh & HT & Hfp);
      [congruence | rewrite HS; exact Edrag | rewrite HS; exact Estart
      | rewrite HS; exact Emid | congruence |].
    exists (w' :: Wh), wT, Wp.
    cbn [app map runTrace]. rewrite Hr. cbn [worldOf]. rewrite Hrun.
    split; [reflexivity|].
    split; [cbn [length]; congruence|].
    split; [exact Hlp|].
    split; [|split; assumption].
    constructor; [|exact Hfh].
    split; [rewrite HS; exact Estart|].
    split; [rewrite HS; exact Edrag|].
    split; [congruence|].
    rewrite He, Eev; reflexivity.
Qed.
End HoldToDrag.

Section HoldTimer.
Context {num : Type} `{Number num} `{NumberSqrt num}.

(** C4 (as amended): take calls on a tracked hand with the index pinch true
    and the middle pinch false, starting with the drag flag unset and the
    hold timer idle ([dragStartTime = 0]), the clock being away from zero.
    The first call starts the hold timer at its own time.  As long as the
    test [now - dragStartTime > 200] fails (200 itself included), every call
    keeps the timer's start, leaves the drag flag unset and the mode as it
    was, and sets no click or drag event.  The first call for which the test
    holds sets the drag flag and emits [DRAG_START] as its only event.  Every
    held call after that emits [DRAG_MOVE] as its only event and has
    [mode = drag]: so does [DRAG_START] appear exactly once. *)
Theorem C4_hold_then_drag
    (w : World num) (first trig : num * GestureResult num)
    (hold post : list (num * GestureResult num)) :
  isDragging (STATE w) = false ->
  seq (dragStartTime (STATE w)) (fromZ 0) = true ->
  seq first.1 (fromZ 0) = false ->
  Forall (frameWith (config w) true false) (first :: hold ++ trig :: post) ->
  Forall (fun f => gt (sub f.1 first.1) HOLD_MS = false) (first :: hold) ->
  gt (sub trig.1 first.1) HOLD_MS = true ->
  exists (Wh : list (World num)) (wT : World num) (Wp : list (World num)),
    runTrace (map frameTask (first :: hold ++ trig :: post)) w = Wh ++ wT :: Wp
    /\ length Wh = S (length hold)
    /\ length Wp = length post
    /\ Forall (holdingWorld first.1 (mode (cursor (gestureState w)))) Wh
    /\ dragStartWorld first.1 wT
    /\ Forall dragMoveWorld Wp.
Proof.
  intros Hd Hidle Hclock Hall Hle HgT.
  apply Forall_cons in Hall as [(h & Ht & Hp & Hm) Hrest].
  apply Forall_cons in Hle as [Hnow Hle'].
  apply Forall_app in Hrest as [Hhold HtrigPost].
  apply Forall_cons in HtrigPost as [Htrig Hpost].
  destruct first as [t0 r0]. cbn [fst snd] in *.
  destruct (frame_step t0 r0 w h Ht) as (w' & act & Hr & HS & Hmo & He & _ & Hc' & _).
  rewrite Hp, Hm in HS, Hmo, He.
  destruct (machine_index_hold t0 act (machineIn w (cursor (gestureState w))) Hd)
    as (Emode & Estart & Edrag & Emid & _ & _ & _ & Eev).
  cbn [machineIn mSTATE mEvents mMode] in Emode, Estart, Edrag, Eev.
  unfold holdStart in *. rewrite Hidle, Hnow in *.
  destruct (hold_run (config w) t0 Hclock (mode (cursor (gestureState w)))
              trig post hold Htrig HgT Hpost Hhold Hle' w')
    as (Wh & wT & Wp & Hrun & Hlh & Hlp & Hfh & HT & Hfp);
    [congruence | rewrite HS; exact Edrag | rewrite HS; exact Estart
    | rewrite HS; exact Emid | congruence |].
  exists (w' :: Wh), wT, Wp.
  cbn [app map runTrace]. rewrite Hr. cbn [worldOf]. rewrite Hrun.
  split; [reflexivity|].
  split; [cbn [length]; congruence|].
  split; [exact Hlp|].
  split; [|split; assumption].
  constructor; [|exact Hfh].
  split; [rewrite HS; exact Estart|].
  split; [rewrite HS; exact Edrag|].
  split; [congruence|].
  rewrite He, Eev. destruct (isMiddleDragging (STATE w)); vm_compute; reflexivity.
Qed.
End HoldTimer.

(** The theorem at work: pinched at 1000, 1100 and 1200, then at 1300 and
    1400. *)
Lemma C4_hold_then_drag_witness :
  exists (Wh : list (World float)) (wT : World float) (Wp : list (World float)),
    runTrace (map frameTask
                ((1000%float, Scene.seen Scene.pinchHand)
                   :: [(1100%float, Scene.seen Scene.pinchHand);
                       (1200%float, Scene.seen Scene.pinchHand)]
                   ++ (1300%float, Scene.seen Scene.pinchHand)
                   :: [(1400%float, Scene.seen Scene.pinchHand)]))
      Scene.start = Wh ++ wT :: Wp
    /\ length Wh = 3
    /\ length Wp = 1
    /\ Forall (holdingWorld 1000%float ModeNone) Wh
    /\ dragStartWorld 1000%float wT
    /\ Forall dragMoveWorld Wp.
Proof.
  apply (C4_hold_then_drag Scene.start
           (1000%float, Scene.seen Scene.pinchHand)
           (1300%float, Scene.seen Scene.pinchHand)
           [(1100%float, Scene.seen Scene.pinchHand);
            (1200%float, Scene.seen Scene.pinchHand)]
           [(1400%float, Scene.seen Scene.pinchHand)]).
  - reflexivity.
  - reflexivity.
  - reflexivity.
  - repeat (apply Forall_cons; split; [scene_frame Scene.pinchHand|]). constructor.
  - repeat (apply Forall_cons; split; [vm_compute; reflexivity|]). constructor.
  - vm_compute; reflexivity.
Defined.

(** C4 as stated fails: with the pinch held from 1000, the call at 1200 sees
    the pinch held for 200 and does not start the drag; the call at 1300
    emits [DRAG_START] and sets the drag flag, and the mode it leaves is
    [none], not [drag]. *)
Lemma C4_hold_counterexample :
  exists w1 w2 w3 : World float,
    runTrace [Scene.frame 1000 Scene.pinchHand; Scene.frame 1200 Scene.pinchHand;
              Scene.frame 1300 Scene.pinchHand] Scene.start = [w1; w2; w3]
    /\ PrimFloat.sub 1200 (dragStartTime (STATE w1)) = 200%float
    /\ isDragging (STATE w2) = false
    /\ events (gestureState w2) = ∅
    /\ events (gestureState w3) = {[ "DRAG_START" := true ]}
    /\ isDragging (STATE w3) = true
    /\ mode (cursor (gestureState w3)) = ModeNone.
Proof.
  do 3 eexists; split; [vm_compute; reflexivity|].
  repeat split; vm_compute; reflexivity.
Qed.

(** ** C5: click, then double click *)

Section DoubleClick.
Context {num : Type} `{Number num} `{NumberSqrt num}.
Hypothesis zero_is_zero : seq (fromZ 0) (fromZ 0) = true.
Hypothesis zero_not_above_zero : gt (fromZ 0) (fromZ 0) = false.
Variable c : Config num.
Variables t2 due : num.
Hypothesis in_window : lt t2 due = true.
Variable n : nat.

Lemma pendingClick_windowOpen (w : World num) :
  pendingClick c n due w -> windowOpen t2 w.
Proof.
  intros (_ & _ & _ & Hq & _) id.
  cbn [runTask]. rewrite Hq. cbn [isDue existsb snd]. rewrite in_window.
  rewrite andb_false_r. reflexivity.
Qed.

Lemma clearTimeout_only (q : num) : clearTimeout n [(n, q)] = [].
Proof.
  unfold clearTimeout. rewrite filter_cons, filter_nil.
  destruct (decide _) as [Hne|_]; [cbn in Hne; congruence|reflexivity].
Qed.

(** The second press, from its second frame on, and the release that ends it. *)
Lemma press_run (tp : num) (rel2 : GestureResult num)
    (press : list (num * GestureResult num)) :
  seq tp (fromZ 0) = false ->
  gt tp (fromZ 0) = true ->
  frameWith c false false (t2, rel2) ->
  Forall (frameWith c true false) press ->
  Forall (fun f => gt (sub f.1 tp) HOLD_MS = false) press ->
  forall w : World num,
    pendingClick c n due w -> dragStartTime (STATE w) = tp ->
    exists (ws : list (World num)) (w2 : World num),
      runTrace (map frameTask (press ++ [(t2, rel2)])) w = ws ++ [w2]
      /\ length ws = length press
      /\ Forall (fun v => betweenClicks t2 v /\ pendingClick c n due v) ws
      /\ doubleClickWorld w2.
Proof.
  intros Hclock Hpos (h2 & Ht2 & Hp2 & Hm2) Hpress.
  induction Hpress as [|f press (h & Ht & Hp & Hm) _ IH];
    intros Hle w (Hc & Hcc & Hct & Hq & Hd) Hs.
  - cbn [fst snd] in *. rewrite <- Hc in Ht2.
    destruct (frame_step t2 rel2 w h2 Ht2) as (w' & act & Hr & HS & _ & He & Hq' & _).
    rewrite Hp2, Hm2 in HS, He, Hq'.
    destruct (machine_release_second t2 act (machineIn w (cursor (gestureState w))) n)
      as (_ & _ & Ecc & Eq & Edc & Ecl); cbn [machineIn mSTATE mEvents];
      try assumption; [rewrite Hs; exact Hpos | reflexivity |].
    cbn [machineIn mTimers] in Eq. rewrite Hq, clearTimeout_only in Eq.
    exists [], w'. cbn [app map runTrace]. rewrite Hr. cbn [worldOf].
    split; [reflexivity|]. split; [reflexivity|]. split; [constructor|].
    split; [rewrite He; exact Edc|]. split; [rewrite He; exact Ecl|].
    split; [rewrite HS; exact Ecc | rewrite Hq'; exact Eq].
  - destruct f as [now r]. cbn [fst snd] in *. rewrite <- Hc in Ht.
    apply Forall_cons in Hle as [Hnow Hle']. cbn [fst] in Hnow.
    destruct (frame_step now r w h Ht) as (w' & act & Hr & HS & _ & He & Hq' & Hc' & _).
    rewrite Hp, Hm in HS, He, Hq'.
    destruct (machine_index_hold now act (machineIn w (cursor (gestureState w))) Hd)
      as (_ & Estart & Edrag & _ & Ecc & Ect & Eq & Eev).
    cbn [machineIn mSTATE mEvents mTimers] in Estart, Edrag, Ecc, Ect, Eq, Eev.
    unfold holdStart in *. rewrite Hs, Hclock, Hnow in *.
    assert (Hpend : pendingClick c n due w').
    { repeat split; [congruence | rewrite HS; congruence | rewrite HS; congruence
                    | congruence | rewrite HS; exact Edrag]. }
    destruct (IH Hle' w' Hpend) as (ws & w2 & Hrun & Hl & Hf & H2);
      [rewrite HS; exact Estart|].
    exists (w' :: ws), w2. cbn [app map runTrace]. rewrite Hr. cbn [worldOf]. rewrite Hrun.
    split; [reflexivity|]. split; [cbn [length]; congruence|].
    split; [|exact H2].
    constructor; [|exact Hf].
    split; [|exact Hpend].
    split; [|split; [|apply pendingClick_windowOpen, Hpend]];
      rewrite He, Eev; destruct (isMiddleDragging (STATE w)); vm_compute; reflexivity.
Qed.

(** The open-hand frames after the first release, then the second press. *)
Lemma idle_run (press1 : num * GestureResult num) (rel2 : GestureResult num)
    (press idle : list (num * GestureResult num)) :
  seq press1.1 (fromZ 0) = false ->
  gt press1.1 (fromZ 0) = true ->
  frameWith c false false (t2, rel2) ->
  Forall (frameWith c true false) (press1 :: press) ->
  Forall (fun f => gt (sub f.1 press1.1) HOLD_MS = false) (press1 :: press) ->
  Forall (frameWith c false false) idle ->
  forall w : World num,
    pendingClick c n due w -> dragStartTime (STATE w) = fromZ 0 ->
    exists (ws : list (World num)) (w2 : World num),
      runTrace (map frameTask (idle ++ press1 :: press ++ [(t2, rel2)])) w = ws ++ [w2]
      /\ length ws = length idle + S (length press)
      /\ Forall (fun v => betweenClicks t2 v /\ pendingClick c n due v) ws
      /\ doubleClickWorld w2.
Proof.
  intros Hclock Hpos Hrel2 Hpress Hle Hidle.
  induction Hidle as [|f idle (h & Ht & Hp & Hm) _ IH];
    intros w (Hc & Hcc & Hct & Hq & Hd) Hs.
  - (* the first frame of the press finds the timer idle and starts it *)
    destruct press1 as [tp rp]. cbn [fst snd app] in *.
    apply Forall_cons in Hpress as [(h & Ht & Hp & Hm) Hpress].
    apply Forall_cons in Hle as [Hnow Hle]. cbn [fst] in Hnow.
    rewrite <- Hc in Ht.
    destruct (frame_step tp rp w h Ht) as (w' & act & Hr & HS & _ & He & Hq' & Hc' & _).
    rewrite Hp, Hm in HS, He, Hq'.
    destruct (machine_index_hold tp act (machineIn w (cursor (gestureState w))) Hd)
      as (_ & Estart & Edrag & _ & Ecc & Ect & Eq & Eev).
    cbn [machineIn mSTATE mEvents mTimers] in Estart, Edrag, Ecc, Ect, Eq, Eev.
    unfold holdStart in *. rewrite Hs, zero_is_zero, Hnow in *.
    assert (Hpend : pendingClick c n due w').
    { repeat split; [congruence | rewrite HS; congruence | rewrite HS; congruence
                    | congruence | rewrite HS; exact Edrag]. }
    destruct (press_run tp rel2 press Hclock Hpos Hrel2 Hpress Hle w' Hpend)
      as (ws & w2 & Hrun & Hl & Hf & H2); [rewrite HS; exact Estart|].
    exists (w' :: ws), w2. cbn [map runTrace]. rewrite Hr. cbn [worldOf]. rewrite Hrun.
    split; [reflexivity|]. split; [cbn [length]; lia|].
    split; [|exact H2].
    constructor; [|exact Hf].
    split; [|exact Hpend].
    split; [|split; [|apply pendingClick_windowOpen, Hpend]];
      rewrite He, Eev; destruct (isMiddleDragging (STATE w)); vm_compute; reflexivity.
  - destruct f as [now r]. cbn [fst snd] in *. rewrite <- Hc in Ht.
    destruct (frame_step now r w h Ht) as (w' & act & Hr & HS & _ & He & Hq' & Hc' & _).
    rewrite Hp, Hm in HS, He, Hq'.
    destruct (machine_open_idle now act (machineIn w (cursor (gestureState w))))
      as (Ecl & Edc & Estart & Edrag & _ & Ecc & Ect & Eq);
      cbn [machineIn mSTATE mEvents]; try assumption;
      [rewrite Hs; exact zero_not_above_zero | reflexivity |].
    cbn [machineIn mSTATE mTimers] in Estart, Ecc, Ect, Eq.
    assert (Hpend : pendingClick c n due w').
    { repeat split; [congruence | rewrite HS; congruence | rewrite HS; congruence
                    | congruence | rewrite HS; exact Edrag]. }
    destruct (IH w' Hpend) as (ws & w2 & Hrun & Hl & Hf & H2);
      [rewrite HS; congruence|].
    exists (w' :: ws), w2. cbn [app map runTrace]. rewrite Hr. cbn [worldOf]. rewrite Hrun.
    split; [reflexivity|]. split; [cbn [length]; lia|].
    split; [|exact H2].
    constructor; [|exact Hf].
    split; [|exact Hpend].
    split; [rewrite He; exact Ecl|].
    split; [rewrite He; exact Edc | apply pendingClick_windowOpen, Hpend].
Qed.
End DoubleClick.

Section ClickPairs.
Context {num : Type} `{Number num} `{NumberSqrt num}.

(** C5 (as amended): take a short press under way (hold timer running,
    no drag) that finds the click counter at zero and no timeout pending,
    its release, any number of open-hand frames, a second short press
    (index pinch frames, none of them more than 200 past the first) and its
    release, the middle pinch test being false throughout and the second
    release coming before the first one's time plus 300.  Then the first
    release sets [CLICK] and not [DOUBLE_CLICK], counts one click and
    queues one timeout, named by [STATE.clickTimer] and due 300 after the
    release; that timeout, should it run, from its due time on, puts the
    counter back to zero.  Up to the second release the counter, the
    timeout and its due time stay as they are, no step sets either flag,
    and the timeout cannot run by the time of the second release.  The
    second release sets [DOUBLE_CLICK] and not [CLICK], puts the counter
    back to zero and takes the timeout off the queue.  (Zero is taken to
    equal zero and not to exceed it, as it does at binary64 and in exact
    arithmetic.) *)
Theorem C5_click_then_double_click
    (w : World num) (rel1 press1 rel2 : num * GestureResult num)
    (idle press : list (num * GestureResult num)) :
  seq (fromZ 0) (fromZ 0) = true ->
  gt (fromZ 0) (fromZ 0) = false ->
  clickCount (STATE w) = 0 ->
  timers w = [] ->
  isDragging (STATE w) = false ->
  gt (dragStartTime (STATE w)) (fromZ 0) = true ->
  frameWith (config w) false false rel1 ->
  Forall (frameWith (config w) false false) idle ->
  Forall (frameWith (config w) true false) (press1 :: press) ->
  seq press1.1 (fromZ 0) = false ->
  gt press1.1 (fromZ 0) = true ->
  Forall (fun f => gt (sub f.1 press1.1) HOLD_MS = false) (press1 :: press) ->
  frameWith (config w) false false rel2 ->
  lt rel2.1 (add rel1.1 DOUBLE_CLICK_MS) = true ->
  exists (w1 : World num) (ws : list (World num)) (w2 : World num),
    runTrace (map frameTask (rel1 :: idle ++ press1 :: press ++ [rel2])) w
      = w1 :: ws ++ [w2]
    /\ length ws = length idle + S (length press)
    /\ clickWorld w1
    /\ pendingClick (config w) (nextTimer w) (add rel1.1 DOUBLE_CLICK_MS) w1
    /\ (forall t, lt t (add rel1.1 DOUBLE_CLICK_MS) = false ->
        exists v, runTask (TaskTimeout t (nextTimer w)) w1 = Some (Normal v)
                  /\ clickCount (STATE v) = 0 /\ timers v = [])
    /\ windowOpen rel2.1 w1
    /\ Forall (fun v =>
                betweenClicks rel2.1 v
                /\ pendingClick (config w) (nextTimer w) (add rel1.1 DOUBLE_CLICK_MS) v)
         ws
    /\ doubleClickWorld w2.
Proof.
  intros Hz Hnz Hcc Hq Hd Hpos (h & Ht & Hp & Hm) Hidle Hpress Hclock Hpos1 Hle
    Hrel2 Hwin.
  destruct rel1 as [t1 r1], rel2 as [t2 r2]. cbn [fst snd] in *.
  destruct (frame_step t1 r1 w h Ht) as (w1 & act & Hr & HS & _ & He & Hq' & Hc' & _).
  rewrite Hp, Hm in HS, He, Hq'.
  destruct (machine_release_first t1 act (machineIn w (cursor (gestureState w))))
    as (Estart & Edrag & _ & Ecc & Ect & Eq & Ecl & Edc);
    cbn [machineIn mSTATE mEvents]; try assumption; [reflexivity|].
  cbn [machineIn mTimers mNext] in Ect, Eq. rewrite Hq in Eq. cbn [app] in Eq.
  assert (Hpend : pendingClick (config w) (nextTimer w) (add t1 DOUBLE_CLICK_MS) w1).
  { repeat split; [exact Hc' | rewrite HS; exact Ecc | rewrite HS; exact Ect
                  | congruence | rewrite HS; exact Edrag]. }
  destruct (idle_run Hz Hnz (config w) t2 (add t1 DOUBLE_CLICK_MS) Hwin (nextTimer w)
              press1 r2 press idle Hclock Hpos1 Hrel2 Hpress Hle Hidle w1 Hpend)
    as (ws & w2 & Hrun & Hl & Hf & H2); [rewrite HS; exact Estart|].
  exists w1, ws, w2. cbn [map runTrace]. rewrite Hr. cbn [worldOf]. rewrite Hrun.
  split; [reflexivity|]. split; [exact Hl|].
  split; [split; rewrite He; assumption|].
  split; [exact Hpend|].
  split.
  { intros t Hdue. destruct Hpend as (_ & _ & _ & Hq1 & _).
    cbn [runTask]. rewrite Hq1. cbn [isDue existsb fst snd].
    rewrite bool_decide_eq_true_2 by reflexivity. rewrite Hdue. cbn [negb andb orb].
    eexists. split; [reflexivity|].
    cbn [clickTimeout setSTATE setTimers setClickCount STATE clickCount timers].
    split; [reflexivity|]. apply clearTimeout_only. }
  split; [exact (pendingClick_windowOpen _ _ _ Hwin _ _ Hpend)|].
  split; assumption.
Qed.
End ClickPairs.

(** The theorem at work: pinched at 1000, released at 1100, hand open at
    1150, pinched at 1200 and 1250, released at 1300. *)
Lemma C5_click_then_double_click_witness :
  let w := Scene.pressing in
  let t1 := 1100%float in
  let t2 := 1300%float in
  exists (w1 : World float) (ws : list (World float)) (w2 : World float),
    runTrace (map frameTask
                ((t1, Scene.seen Scene.openHand)
                   :: [(1150%float, Scene.seen Scene.openHand)]
                   ++ (1200%float, Scene.seen Scene.pinchHand)
                   :: [(1250%float, Scene.seen Scene.pinchHand)]
                   ++ [(t2, Scene.seen Scene.openHand)]))
      w = w1 :: ws ++ [w2]
    /\ length ws = 1 + 2
    /\ clickWorld w1
    /\ pendingClick (config w) (nextTimer w) (add t1 DOUBLE_CLICK_MS) w1
    /\ (forall t, lt t (add t1 DOUBLE_CLICK_MS) = false ->
        exists v, runTask (TaskTimeout t (nextTimer w)) w1 = Some (Normal v)
                  /\ clickCount (STATE v) = 0 /\ timers v = [])
    /\ windowOpen t2 w1
    /\ Forall (fun v =>
                betweenClicks t2 v
                /\ pendingClick (config w) (nextTimer w) (add t1 DOUBLE_CLICK_MS) v)
         ws
    /\ doubleClickWorld w2.
Proof.
  apply (C5_click_then_double_click Scene.pressing
           (1100%float, Scene.seen Scene.openHand)
           (1200%float, Scene.seen Scene.pinchHand)
           (1300%float, Scene.seen Scene.openHand)
           [(1150%float, Scene.seen Scene.openHand)]
           [(1250%float, Scene.seen Scene.pinchHand)]).
  - reflexivity.
  - reflexivity.
  - reflexivity.
  - reflexivity.
  - reflexivity.
  - vm_compute; reflexivity.
  - scene_frame Scene.openHand.
  - apply Forall_cons; split; [scene_frame Scene.openHand | constructor].
  - apply Forall_cons; split; [scene_frame Scene.pinchHand|].
    apply Forall_cons; split; [scene_frame Scene.pinchHand | constructor].
  - reflexivity.
  - reflexivity.
  - apply Forall_cons; split; [vm_compute; reflexivity|].
    apply Forall_cons; split; [vm_compute; reflexivity | constructor].
  - scene_frame Scene.openHand.
  - vm_compute; reflexivity.
Defined.

(** C5 as stated fails on the second and the third press of a triple
    click: three short presses released at 1100, 1200 and 1300.  The
    releases of the last two are 100 apart, and the events across them are
    [DOUBLE_CLICK] then [CLICK]: the second release ends the pair the
    first one opened, and the third opens a new one. *)
Lemma C5_triple_click_counterexample :
  exists w1 w2 w3 w4 w5 : World float,
    runTrace [Scene.frame 1100 Scene.openHand;
              Scene.frame 1150 Scene.pinchHand; Scene.frame 1200 Scene.openHand;
              Scene.frame 1250 Scene.pinchHand; Scene.frame 1300 Scene.openHand]
      Scene.pressing = [w1; w2; w3; w4; w5]
    /\ clickWorld w1
    /\ flag (events (gestureState w3)) "DOUBLE_CLICK" = true
    /\ flag (events (gestureState w3)) "CLICK" = false
    /\ flag (events (gestureState w5)) "CLICK" = true
    /\ flag (events (gestureState w5)) "DOUBLE_CLICK" = false
    /\ lt 1300%float (add 1200%float DOUBLE_CLICK_MS) = true
    /\ gt (sub 1200%float 1150%float) HOLD_MS = false
    /\ gt (sub 1300%float 1250%float) HOLD_MS = false.
Proof.
  do 5 eexists. split; [vm_compute; reflexivity|].
  repeat split; vm_compute; reflexivity.
Qed.

(** A second press that comes too late: the timeout has run at 1400, the
    counter is back at zero, and the release at 1450 is a [CLICK] again. *)
Remark late_second_press_clicks_again :
  exists w' : World float,
    runTasks [Scene.frame 1100 Scene.openHand; Scene.frame 1200 Scene.pinchHand;
              TaskTimeout 1400%float 1; Scene.frame 1450 Scene.openHand]
      Scene.pressing = Some w'
    /\ flag (events (gestureState w')) "CLICK" = true
    /\ flag (events (gestureState w')) "DOUBLE_CLICK" = false.
Proof.
  eexists; split; [vm_compute; reflexivity|].
  split; vm_compute; reflexivity.
Qed.

(** ** C6: the middle pinch comes first *)

Section MiddleFirst.
Context {num : Type} `{Number num} `{NumberSqrt num}.

Lemma both_pinched_run (c : Config num) (d : bool) (t : num)
    (fs : list (num * GestureResult num)) :
  Forall (frameWith c true true) fs ->
  forall w : World num,
    config w = c -> isDragging (STATE w) = d -> dragStartTime (STATE w) = t ->
    length (runTrace (map frameTask fs) w) = length fs
    /\ Forall (fun w' =>
         mode (cursor (gestureState w')) = ModeRotate
         /\ (events (gestureState w') = {[ "DRAG_MIDDLE_START" := true ]}
             \/ events (gestureState w') = {[ "DRAG_MIDDLE_MOVE" := true ]})
         /\ countFlags ["DRAG_START"; "DRAG_MOVE"; "DRAG_END"]
              (events (gestureState w')) = 0
         /\ isDragging (STATE w') = d
         /\ dragStartTime (STATE w') = t)
       (runTrace (map frameTask fs) w).
Proof.
  induction 1 as [|f fs (h & Ht & Hp & Hm) _ IH]; intros w Hc Hd Hs.
  - split; [reflexivity|constructor].
  - destruct f as [now r]. rewrite <- Hc in Ht.
    destruct (frame_step now r w h Ht) as (w' & act & Hr & HS & Hmo & He & _ & Hc' & _).
    rewrite Hp, Hm in HS, Hmo, He.
    destruct (machine_middle now true act (machineIn w (cursor (gestureState w))))
      as (Emode & Eev & _ & Edrag & Estart & _).
    cbn [map runTrace]. rewrite Hr. cbn [worldOf].
    assert (Hd' : isDragging (STATE w') = d) by (rewrite HS, Edrag; exact Hd).
    assert (Hs' : dragStartTime (STATE w') = t) by (rewrite HS, Estart; exact Hs).
    destruct (IH w' (eq_trans Hc' Hc) Hd' Hs') as [IHl IHf].
    split; [cbn [length]; rewrite IHl; reflexivity|].
    constructor; [|exact IHf].
    rewrite Hmo, He, Emode, Eev. cbn [machineIn mEvents mSTATE].
    split; [reflexivity|].
    destruct (isMiddleDragging (STATE w)); (split; [auto|]); split; auto.
Qed.

(** After a run of calls with both pinches, a call with the index pinch
    only decides on the drag from the start the hold timer had before the
    run. *)
Lemma both_pinched_then (c : Config num) (next : num * GestureResult num)
    (fs : list (num * GestureResult num)) :
  frameWith c true false next ->
  Forall (frameWith c true true) fs ->
  forall w : World num,
    config w = c -> isDragging (STATE w) = false ->
    exists w' : World num,
      runTrace (map frameTask (fs ++ [next])) w = runTrace (map frameTask fs) w ++ [w']
      /\ isDragging (STATE w') = gt (sub next.1 (holdStart next.1 (STATE w))) HOLD_MS
      /\ flag (events (gestureState w')) "DRAG_START"
         = gt (sub next.1 (holdStart next.1 (STATE w))) HOLD_MS
      /\ dragStartTime (STATE w') = holdStart next.1 (STATE w).
Proof.
  intros (hn & Htn & Hpn & Hmn) Hfs.
  induction Hfs as [|f fs (h & Ht & Hp & Hm) _ IH]; intros w Hc Hd.
  - destruct next as [now r]. cbn [fst snd app map] in *. rewrite <- Hc in Htn.
    destruct (frame_step now r w hn Htn) as (w' & act & Hr & HS & _ & He & _).
    rewrite Hpn, Hmn in HS, He.
    destruct (machine_index_hold now act (machineIn w (cursor (gestureState w))) Hd)
      as (_ & Estart & Edrag & _ & _ & _ & _ & Eev).
    cbn [machineIn mSTATE mEvents] in Estart, Edrag, Eev.
    exists w'. cbn [runTrace]. rewrite Hr. cbn [worldOf runTrace app].
    split; [reflexivity|]. rewrite HS, He, Eev.
    split; [exact Edrag|]. split; [|exact Estart].
    destruct (gt _ _); destruct (isMiddleDragging (STATE w)); reflexivity.
  - destruct f as [now r]. cbn [fst snd] in *. rewrite <- Hc in Ht.
    destruct (frame_step now r w h Ht) as (w1 & act & Hr & HS & _ & _ & _ & Hc' & _).
    rewrite Hp, Hm in HS.
    destruct (machine_middle now true act (machineIn w (cursor (gestureState w))))
      as (_ & _ & _ & Edrag & Estart & _).
    cbn [machineIn mSTATE] in Edrag, Estart.
    destruct (IH w1) as (w' & Hrun & Hd' & Hf' & Hs').
    { congruence. }
    { rewrite HS, Edrag. exact Hd. }
    assert (Eh : holdStart next.1 (STATE w1) = holdStart next.1 (STATE w)).
    { unfold holdStart. rewrite HS, Estart. reflexivity. }
    exists w'. cbn [app map runTrace]. rewrite Hr. cbn [worldOf].
    rewrite Hrun, <- Eh. auto.
Qed.

(** C6 (as amended): in every run of calls on a tracked hand with both the
    index pinch and the middle pinch true, each call returns with
    [mode = rotate] and with [DRAG_MIDDLE_START] or [DRAG_MIDDLE_MOVE] as
    its only event; none of [DRAG_START], [DRAG_MOVE], [DRAG_END] is set;
    and the index drag flag and the start of the hold timer stay what they
    were before the run: under the middle pinch the timer is neither
    started nor tested.  It is not held back either: the timer is a start
    time, and the first call after the run with the index pinch only
    starts the drag when its time is more than 200 past the start the
    timer had before the run (its own time if it had none), the time
    spent under the middle pinch counting in full. *)
Theorem C6_middle_pinch_precedence
    (w : World num) (fs : list (num * GestureResult num)) :
  Forall (frameWith (config w) true true) fs ->
  length (runTrace (map frameTask fs) w) = length fs
  /\ Forall (fun w' =>
       mode (cursor (gestureState w')) = ModeRotate
       /\ (events (gestureState w') = {[ "DRAG_MIDDLE_START" := true ]}
           \/ events (gestureState w') = {[ "DRAG_MIDDLE_MOVE" := true ]})
       /\ countFlags ["DRAG_START"; "DRAG_MOVE"; "DRAG_END"]
            (events (gestureState w')) = 0
       /\ isDragging (STATE w') = isDragging (STATE w)
       /\ dragStartTime (STATE w') = dragStartTime (STATE w))
     (runTrace (map frameTask fs) w)
  /\ forall next : num * GestureResult num,
       frameWith (config w) true false next ->
       isDragging (STATE w) = false ->
       exists w' : World num,
         runTrace (map frameTask (fs ++ [next])) w
           = runTrace (map frameTask fs) w ++ [w']
         /\ isDragging (STATE w') = gt (sub next.1 (holdStart next.1 (STATE w))) HOLD_MS
         /\ flag (events (gestureState w')) "DRAG_START"
            = gt (sub next.1 (holdStart next.1 (STATE w))) HOLD_MS
         /\ dragStartTime (STATE w') = holdStart next.1 (STATE w).
Proof.
  intros Hfs.
  destruct (both_pinched_run (config w) (isDragging (STATE w)) (dragStartTime (STATE w))
              fs Hfs w eq_refl eq_refl eq_refl) as [Hl Hall].
  split; [exact Hl|]. split; [exact Hall|].
  intros next Hnext Hd.
  exact (both_pinched_then (config w) next fs Hnext Hfs w eq_refl Hd).
Qed.
End MiddleFirst.

(** The theorem at work: a press under way, then both pinches at 1050 and
    at 1100. *)
Lemma C6_middle_pinch_precedence_witness :
  let w := Scene.pressing in
  let fs := [(1050%float, Scene.seen Scene.bothHand);
             (1100%float, Scene.seen Scene.bothHand)] in
  length (runTrace (map frameTask fs) w) = length fs
  /\ Forall (fun w' =>
       mode (cursor (gestureState w')) = ModeRotate
       /\ (events (gestureState w') = {[ "DRAG_MIDDLE_START" := true ]}
           \/ events (gestureState w') = {[ "DRAG_MIDDLE_MOVE" := true ]})
       /\ countFlags ["DRAG_START"; "DRAG_MOVE"; "DRAG_END"]
            (events (gestureState w')) = 0
       /\ isDragging (STATE w') = isDragging (STATE w)
       /\ dragStartTime (STATE w') = dragStartTime (STATE w))
     (runTrace (map frameTask fs) w)
  /\ forall next : float * GestureResult float,
       frameWith (config w) true false next ->
       isDragging (STATE w) = false ->
       exists w' : World float,
         runTrace (map frameTask (fs ++ [next])) w
           = runTrace (map frameTask fs) w ++ [w']
         /\ isDragging (STATE w') = gt (sub next.1 (holdStart next.1 (STATE w))) HOLD_MS
         /\ flag (events (gestureState w')) "DRAG_START"
            = gt (sub next.1 (holdStart next.1 (STATE w))) HOLD_MS
         /\ dragStartTime (STATE w') = holdStart next.1 (STATE w).
Proof.
  apply (C6_middle_pinch_precedence Scene.pressing
           [(1050%float, Scene.seen Scene.bothHand);
            (1100%float, Scene.seen Scene.bothHand)]).
  apply Forall_cons; split; [scene_frame Scene.bothHand|].
  apply Forall_cons; split; [scene_frame Scene.bothHand | constructor].
Defined.

(** C6 as stated fails in its last clause: the hold timer goes on under
    the middle pinch.  An index pinch is seen at 1000; both pinches are
    held at 1100 and at 1250, in mode [rotate]; at 1260 the middle finger
    has let go and the index pinch alone is seen for the first time in 250
    milliseconds: the drag starts at once, 1260 being more than 200 past
    1000.  Without the pinch at 1000 the same three calls start no drag. *)
Lemma C6_hold_timer_counterexample :
  (exists w1 w2 w3 : World float,
      runTrace [Scene.frame 1100 Scene.bothHand; Scene.frame 1250 Scene.bothHand;
                Scene.frame 1260 Scene.pinchHand] Scene.pressing = [w1; w2; w3]
      /\ dragStartTime (STATE Scene.pressing) = 1000%float
      /\ isDragging (STATE Scene.pressing) = false
      /\ mode (cursor (gestureState w1)) = ModeRotate
      /\ mode (cursor (gestureState w2)) = ModeRotate
      /\ flag (events (gestureState w3)) "DRAG_START" = true
      /\ isDragging (STATE w3) = true)
  /\ (exists v1 v2 v3 : World float,
        runTrace [Scene.frame 1100 Scene.bothHand; Scene.frame 1250 Scene.bothHand;
                  Scene.frame 1260 Scene.pinchHand] Scene.start = [v1; v2; v3]
        /\ flag (events (gestureState v3)) "DRAG_START" = false
        /\ isDragging (STATE v3) = false).
Proof.
  split.
  - do 3 eexists. split; [vm_compute; reflexivity|].
    repeat split; vm_compute; reflexivity.
  - do 3 eexists. split; [vm_compute; reflexivity|].
    repeat split; vm_compute; reflexivity.
Qed.

(** ** C7: which events go together *)

Section EventFamilies.
Context {num : Type} `{Number num} `{NumberSqrt num}.

(** Whatever the inputs, a run of the machine from [currentEvents = {}]
    sets at most one flag of each family. *)
Lemma machine_families (now : num) (pinch middle act : bool) (m : Machine num) :
  mEvents m = ∅ ->
  familyExclusive (mEvents (gestureMachine now pinch middle act m)).
Proof.
  destruct m as [[lp cc ct ds dr md lpos] mo ev tq nx]; machine_simpl; intros ->.
  unfold gestureMachine, pointerOrIdle, middlePinchBranch, endRotate,
    indexPinchBranch, releaseBranch, cancelClickTimer, armClickTimer.
  destruct middle, pinch, md, dr; machine_simpl;
    repeat (match goal with
            | |- context [if ?b then _ else _] => destruct b
            | |- context [match ?o with Some _ => _ | None => _ end] => destruct o
            end; machine_simpl);
    vm_compute; repeat split; lia.
Qed.

(** C7 (as amended): in every [GestureState] a call of [handleResult]
    returns for a result that is not null, at most one flag is set in each
    of three families of events: the middle drag ([DRAG_MIDDLE_START],
    [DRAG_MIDDLE_MOVE], [DRAG_MIDDLE_END]), the index click and drag
    ([CLICK], [DOUBLE_CLICK], [DRAG_START], [DRAG_MOVE], [DRAG_END]) and the
    pointer ([IDLE], [POINTER_MOVE]).  Flags of different families are set
    together, so up to three of the ten flags are set in one step. *)
Theorem C7_one_flag_per_family
    (now : num) (r : GestureResult num) (w w' : World num) :
  handleResult now (Some r) w = Normal w' ->
  familyExclusive (events (gestureState w'))
  /\ countFlags allFlags (events (gestureState w')) <= 3.
Proof.
  intros Hr.
  assert (Hf : familyExclusive (events (gestureState w'))).
  { unfold handleResult in Hr.
    destruct (selectHand (config w) r) as [[i h]|].
    - destruct (h !! 0) as [root|]; [|discriminate].
      destruct (h !! 9) as [mcp|]; [|discriminate].
      injection Hr as <-.
      cbn [trackHand gestureState events]. apply machine_families. reflexivity.
    - injection Hr as <-. vm_compute. repeat split; lia. }
  split; [exact Hf|].
  destruct Hf as (Hm & Hi & Hp).
  unfold allFlags, countFlags in *.
  rewrite !filter_app, !length_app. lia.
Qed.
End EventFamilies.

(** The theorem at work: the release that ends a short press. *)
Lemma C7_one_flag_per_family_witness :
  familyExclusive (events (gestureState Scene.clicked))
  /\ countFlags allFlags (events (gestureState Scene.clicked)) <= 3.
Proof.
  apply (C7_one_flag_per_family 1100%float (Scene.seen Scene.openHand)
           Scene.pressing Scene.clicked).
  reflexivity.
Defined.

(** C7 as stated fails: the release that ends a short press sets [CLICK]
    and, the cursor being active, [POINTER_MOVE] in the same step. *)
Lemma C7_click_with_pointer_move_counterexample :
  handleResult 1100%float (Some (Scene.seen Scene.openHand)) Scene.pressing
    = Normal Scene.clicked
  /\ events (gestureState Scene.clicked)
     = <[ "CLICK" := true ]> {[ "POINTER_MOVE" := true ]}
  /\ countFlags allFlags (events (gestureState Scene.clicked)) = 2.
Proof.
  split; [reflexivity|].
  split; vm_compute; reflexivity.
Qed.

(** ** C8: the effective region of interest *)

Section PublishedRoi.
Context {num : Type} `{Number num} `{NumberSqrt num}.

End PublishedRoi.

Section EffectiveRoi.
Local Open Scope Q_scope.






End EffectiveRoi.

Section EffectiveRoi64.
Local Open Scope float_scope.








End EffectiveRoi64.


(** The same function at binary64, at the default base fraction: below the
    range, inside it, above it, and capped. *)
Remark effRoi_at_binary64 :
  effRoi 0.8%float 0.03%float = 0.4%float
  /\ effRoi 0.8%float 0.08%float = 0.64%float
  /\ effRoi 0.8%float 0.2%float = 0.96%float
  /\ effRoi 1%float 0.2%float = 1%float.
Proof. repeat split; vm_compute; reflexivity. Qed.

(** ** C9: the smoothing buffer *)

Section SmoothingBuffer.
Context {num : Type} `{Number num}.

Lemma pushPosition_length_le (size : nat) (p : Point num) (buf : list (Point num)) :
  length buf <= size -> length (pushPosition size p buf) <= size.
Proof.
  intros Hl. unfold pushPosition. destruct (decide _) as [Hlt|Hge]; [|lia].
  destruct buf as [|q buf]; cbn [app tail length] in *; [lia|].
  rewrite length_app in *. cbn [length] in *. lia.
Qed.

(** One push into a buffer that ends in [k] copies of [p]: one more copy,
    unless the buffer is nothing but [size] copies already. *)
Lemma pushPosition_copies (size : nat) (p : Point num) (l : list (Point num)) (k : nat) :
  1 <= size -> length l + k <= size ->
  exists l' k',
    pushPosition size p (l ++ replicate k p) = l' ++ replicate k' p
    /\ length l' + k' <= size
    /\ (k = size -> k' = size)
    /\ (k < size -> k' = S k).
Proof.
  intros Hs Hl. unfold pushPosition.
  rewrite <- (assoc_L (++)), <- replicate_S_end, length_app, length_replicate.
  destruct (decide _) as [Hlt|Hge].
  - destruct l as [|q l]; cbn [app tail length] in *.
    + exists [], k. cbn [app length]. repeat split; lia.
    + exists l, (S k). repeat split; lia.
  - exists l, (S k). repeat split; lia.
Qed.

Lemma pushAll_constant (size : nat) (p : Point num) :
  1 <= size ->
  forall n l k, length l + k <= size -> size - k <= n ->
    pushAll size (replicate n p) (l ++ replicate k p) = replicate size p.
Proof.
  intros Hs. induction n as [|n IH]; intros l k Hl Hn.
  - cbn. assert (k = size) by lia. assert (length l = 0) by lia.
    destruct l; [subst; reflexivity | cbn in *; lia].
  - cbn [replicate pushAll fold_left].
    destruct (pushPosition_copies size p l k Hs Hl) as (l' & k' & -> & Hl' & Hk1 & Hk2).
    apply IH; [exact Hl'|].
    destruct (decide (k = size)) as [->|Hne]; [rewrite Hk1 by reflexivity; lia|].
    rewrite Hk2 by lia. lia.
Qed.
End SmoothingBuffer.

Section ExactSpecMean.
Local Open Scope Q_scope.

Lemma sum_replicate_Q (x : Q) (k : nat) (acc : Q) :
  fold_left add (replicate k x) acc == acc + inject_Z (Z.of_nat k) * x.
Proof.
  revert acc. induction k as [|k IH]; intros acc.
  - cbn [replicate fold_left]. change (inject_Z (Z.of_nat 0)) with 0. lra.
  - cbn [replicate fold_left]. rewrite IH. cbn [add Q_Number].
    rewrite Nat2Z.inj_succ, <- Z.add_1_r, inject_Z_plus.
    change (inject_Z 1) with 1. ring.
Qed.

Lemma spec_mean_replicate (x : Q) (k : nat) :
  (1 <= k)%nat -> spec_mean (replicate k x) == x.
Proof.
  intros Hk. unfold spec_mean. rewrite length_replicate, sum_replicate_Q.
  cbn [div fromZ Q_Number].
  assert (Hpos : 0 < inject_Z (Z.of_nat k)).
  { change 0 with (inject_Z 0). rewrite <- Zlt_Qlt. lia. }
  field. lra.
Qed.
End ExactSpecMean.

Section SmoothedCursor.
Context {num : Type} `{Number num} `{NumberSqrt num}.

Lemma average_spec_mean (f : Point num -> num) (buf : list (Point num)) :
  average f buf = spec_mean (map f buf).
Proof.
  unfold average, spec_mean. rewrite length_map. f_equal.
  generalize (fromZ 0 : num). induction buf as [|q buf IH]; intros acc; [reflexivity|].
  cbn [fold_left map]. apply IH.
Qed.

Lemma pushAll_mostRecent (size : nat) (ps buf : list (Point num)) :
  1 <= size -> length buf <= size ->
  pushAll size ps buf = mostRecent size (buf ++ ps).
Proof.
  intros Hs. revert buf. induction ps as [|p ps IH]; intros buf Hl.
  - cbn [pushAll fold_left]. unfold mostRecent. rewrite app_nil_r.
    replace (length buf - size) with 0 by lia. reflexivity.
  - cbn [pushAll fold_left]. fold (pushAll size ps (pushPosition size p buf)).
    rewrite IH by (apply pushPosition_length_le; exact Hl).
    unfold pushPosition, mostRecent.
    destruct (decide (size < length (buf ++ [p]))) as [Hlt|Hge].
    + rewrite length_app in Hlt. cbn [length] in Hlt.
      destruct buf as [|q b]; [cbn [length] in *; lia|].
      cbn [app tail]. rewrite <- !app_assoc. cbn [app].
      rewrite !length_app. cbn [length]. rewrite !length_app. cbn [length] in *.
      replace (S (length b + S (length ps)) - size) with (S (length b + S (length ps) - size))
        by lia.
      reflexivity.
    + rewrite <- !app_assoc. reflexivity.
Qed.

(** One call on a frame that maps the cursor. *)
Lemma track_step (f : num * GestureResult num) (p : Point num) (w : World num) :
  mapsTo (config w) f p ->
  exists w1 : World num,
    runTask (frameTask f) w = Some (Normal w1)
    /\ positionBuffer w1
       = pushPosition (bufferSize (smoothing (config w))) p (positionBuffer w)
    /\ config w1 = config w
    /\ innerWidth w1 = innerWidth w /\ innerHeight w1 = innerHeight w
    /\ cx (cursor (gestureState w1)) = mul (average px (positionBuffer w1)) (innerWidth w)
    /\ cy (cursor (gestureState w1)) = mul (average py (positionBuffer w1)) (innerHeight w).
Proof.
  intros (i & h & root & mcp & tip & E & E0 & E9 & E8 & ->).
  unfold frameTask. cbn [runTask onmessage]. unfold handleResult.
  rewrite E, E0, E9. eexists. split; [reflexivity|].
  cbn [setIsBusyRef trackHand positionBuffer config innerWidth innerHeight
       gestureState cursor setMode cx cy].
  unfold mapCursor. rewrite E8. cbn [fst snd cx cy]. auto 10.
Qed.

Lemma track_run (fs : list (num * GestureResult num)) (ps : list (Point num))
    (w : World num) :
  Forall2 (mapsTo (config w)) fs ps ->
  exists w' : World num,
    runTasks (map frameTask fs) w = Some w'
    /\ positionBuffer w'
       = pushAll (bufferSize (smoothing (config w))) ps (positionBuffer w)
    /\ config w' = config w
    /\ innerWidth w' = innerWidth w /\ innerHeight w' = innerHeight w
    /\ (fs <> [] ->
        cx (cursor (gestureState w')) = mul (average px (positionBuffer w')) (innerWidth w)
        /\ cy (cursor (gestureState w'))
           = mul (average py (positionBuffer w')) (innerHeight w)).
Proof.
  intros Hall. revert ps w Hall.
  induction fs as [|f fs IH]; intros ps w Hall.
  - apply Forall2_nil_inv_l in Hall as ->. exists w. cbn.
    repeat (split; [reflexivity|]). intros Hne. congruence.
  - apply Forall2_cons_inv_l in Hall as (p & ps' & Hp & Hps & ->).
    destruct (track_step f p w Hp) as (w1 & Hr & Hb & Hc & Hw & Hh & Hx & Hy).
    destruct (IH ps' w1) as (w' & Hrun & Hb' & Hc' & Hw' & Hh' & Hcur).
    { rewrite Hc. exact Hps. }
    exists w'. cbn [map runTasks]. rewrite Hr. cbn [worldOf].
    split; [exact Hrun|].
    split; [cbn [pushAll fold_left]; rewrite Hb', Hc, Hb; reflexivity|].
    split; [congruence|]. split; [congruence|]. split; [congruence|].
    intros _. destruct fs as [|f' fs'].
    + apply Forall2_nil_inv_l in Hps as ->. cbn in Hrun. injection Hrun as <-.
      split; assumption.
    + rewrite <- Hw, <- Hh. apply Hcur. discriminate.
Qed.

(** C9 (as amended): take any run of calls each with a tracked hand that
    has its index tip, from a buffer within the size of the profile
    ([Fast] 2, [Balanced] 5, [Smooth] 10) and with the profile left as it
    is.  After the run the buffer holds the most recent mapped positions,
    at most size of them, oldest first: the most recent size entries of
    the old buffer followed by the positions mapped during the run.  The
    normalized cursor is the mean of the buffer as the program computes
    it, the coordinates summed from the left from 0 and divided by the
    count, and the cursor is that mean scaled by the viewport.  When all
    positions of the run are one position [p] and there are at least size
    of them, the buffer is size copies of [p] and the cursor is the mean of
    size copies of its coordinates, whatever the length of the run: the
    output no longer moves.  In exact arithmetic the mean of copies of a
    number is that number. *)
Theorem C9_cursor_is_buffer_mean
    (w : World num) (fs : list (num * GestureResult num)) (ps : list (Point num)) :
  Forall2 (mapsTo (config w)) fs ps ->
  fs <> [] ->
  length (positionBuffer w) <= bufferSize (smoothing (config w)) ->
  (bufferSize Fast = 2 /\ bufferSize Balanced = 5 /\ bufferSize Smooth = 10)
  /\ (exists w' : World num,
        runTasks (map frameTask fs) w = Some w'
        /\ positionBuffer w'
           = mostRecent (bufferSize (smoothing (config w))) (positionBuffer w ++ ps)
        /\ length (positionBuffer w') <= bufferSize (smoothing (config w))
        /\ cx (cursor (gestureState w'))
           = mul (spec_mean (map px (positionBuffer w'))) (innerWidth w)
        /\ cy (cursor (gestureState w'))
           = mul (spec_mean (map py (positionBuffer w'))) (innerHeight w)
        /\ (forall p : Point num,
              ps = replicate (length ps) p ->
              bufferSize (smoothing (config w)) <= length ps ->
              positionBuffer w' = replicate (bufferSize (smoothing (config w))) p
              /\ cx (cursor (gestureState w'))
                 = mul (spec_mean (replicate (bufferSize (smoothing (config w))) (px p)))
                     (innerWidth w)
              /\ cy (cursor (gestureState w'))
                 = mul (spec_mean (replicate (bufferSize (smoothing (config w))) (py p)))
                     (innerHeight w)))
  /\ (forall (x : Q) (k : nat), 1 <= k -> (spec_mean (replicate k x) == x)%Q).
Proof.
  intros Hall Hne Hlen.
  split; [repeat split|].
  split; [|exact spec_mean_replicate].
  pose proof (bufferSize_pos (smoothing (config w))) as Hs.
  destruct (track_run fs ps w Hall) as (w' & Hrun & Hb & _ & _ & _ & Hcur).
  destruct (Hcur Hne) as [Hx Hy].
  assert (Hrecent : positionBuffer w'
                    = mostRecent (bufferSize (smoothing (config w))) (positionBuffer w ++ ps)).
  { rewrite Hb. apply pushAll_mostRecent; [lia | exact Hlen]. }
  exists w'. split; [exact Hrun|]. split; [exact Hrecent|].
  split.
  { rewrite Hrecent. unfold mostRecent. rewrite length_drop. lia. }
  rewrite !average_spec_mean in *.
  split; [exact Hx|]. split; [exact Hy|].
  intros p Hps Hn.
  assert (Hrep : positionBuffer w' = replicate (bufferSize (smoothing (config w))) p).
  { rewrite Hb, Hps.
    rewrite <- (app_nil_r (positionBuffer w)).
    change (@nil (Point num)) with (replicate 0 p).
    apply pushAll_constant; lia. }
  split; [exact Hrep|].
  rewrite Hx, Hy, Hrep, !fmap_replicate. split; reflexivity.
Qed.
End SmoothedCursor.

(** The theorem at work: from the start, five frames with the same hand
    under the profile [Balanced]. *)
Lemma C9_cursor_is_buffer_mean_witness :
  let w := Scene.start in
  let fs := replicate 5 (1000%float, Scene.seen Scene.sideHand) in
  let ps := replicate 5 (mapPoint (effRoi (baseRoi (config w))
                                     (wristToMiddle (Scene.lm 0.5 0.9) (Scene.lm 0.5 0.8)))
                           (Scene.lm 0.25 0.5)) in
  (bufferSize Fast = 2 /\ bufferSize Balanced = 5 /\ bufferSize Smooth = 10)
  /\ (exists w' : World float,
        runTasks (map frameTask fs) w = Some w'
        /\ positionBuffer w'
           = mostRecent (bufferSize (smoothing (config w))) (positionBuffer w ++ ps)
        /\ length (positionBuffer w') <= bufferSize (smoothing (config w))
        /\ cx (cursor (gestureState w'))
           = mul (spec_mean (map px (positionBuffer w'))) (innerWidth w)
        /\ cy (cursor (gestureState w'))
           = mul (spec_mean (map py (positionBuffer w'))) (innerHeight w)
        /\ (forall p : Point float,
              ps = replicate (length ps) p ->
              bufferSize (smoothing (config w)) <= length ps ->
              positionBuffer w' = replicate (bufferSize (smoothing (config w))) p
              /\ cx (cursor (gestureState w'))
                 = mul (spec_mean (replicate (bufferSize (smoothing (config w))) (px p)))
                     (innerWidth w)
              /\ cy (cursor (gestureState w'))
                 = mul (spec_mean (replicate (bufferSize (smoothing (config w))) (py p)))
                     (innerHeight w)))
  /\ (forall (x : Q) (k : nat), 1 <= k -> (spec_mean (replicate k x) == x)%Q).
Proof.
  apply (C9_cursor_is_buffer_mean Scene.start
           (replicate 5 (1000%float, Scene.seen Scene.sideHand))
           (replicate 5 (mapPoint (effRoi (baseRoi (config Scene.start))
                                     (wristToMiddle (Scene.lm 0.5 0.9) (Scene.lm 0.5 0.8)))
                           (Scene.lm 0.25 0.5)))).
  - repeat (apply Forall2_cons; split;
            [exists 0, Scene.sideHand, (Scene.lm 0.5 0.9), (Scene.lm 0.5 0.8),
               (Scene.lm 0.25 0.5); repeat split; reflexivity|]).
    apply Forall2_nil_2.
  - discriminate.
  - vm_compute; lia.
Defined.

(** C9 as stated fails at binary64, where the mean is rounded: five
    frames with the same hand under [Balanced] leave five copies of one
    mapped position in the buffer, within the profile's size, and the
    smoothed output is not that position: the sum of five times
    0.8125000000000001 divided by five is 0.8125000000000002. *)
Lemma C9_rounded_mean_counterexample :
  exists (w' : World float) (p : Point float),
    runTasks (replicate 5 (Scene.frame 1000 Scene.sideHand)) Scene.start = Some w'
    /\ bufferSize (smoothing (config w')) = 5
    /\ positionBuffer w' = replicate 5 p
    /\ px p = 0.8125000000000001%float
    /\ average px (positionBuffer w') = 0.8125000000000002%float
    /\ PrimFloat.eqb (average px (positionBuffer w')) (px p) = false
    /\ PrimFloat.eqb (cx (cursor (gestureState w'))) (mul (px p) (innerWidth w')) = false.
Proof.
  do 2 eexists; split; [vm_compute; reflexivity|].
  repeat split; vm_compute; reflexivity.
Qed.

(** What the amended claim leaves out: after a switch to a smaller
    profile the buffer is not cut down.  Five frames under [Balanced] fill
    it with five positions; under [Fast] two frames with the index tip
    elsewhere push the same new position twice, and afterwards the buffer
    still holds five positions, more than the profile's two. *)
Remark profile_switch_leaves_buffer_oversize :
  exists (w' : World float) (q : Point float),
    runTasks [Scene.frame 1000 Scene.openHand; Scene.frame 1033 Scene.openHand;
              Scene.frame 1066 Scene.openHand; Scene.frame 1100 Scene.openHand;
              Scene.frame 1133 Scene.openHand; TaskSetSmoothing Fast;
              Scene.frame 1166 Scene.sideHand; Scene.frame 1200 Scene.sideHand]
      Scene.start = Some w'
    /\ bufferSize (smoothing (config w')) = 2
    /\ length (positionBuffer w') = 5
    /\ drop 3 (positionBuffer w') = [q; q].
Proof.
  do 2 eexists; split; [vm_compute; reflexivity|].
  repeat split; vm_compute; reflexivity.
Qed.

(** ** C10: replies that arrive after the camera was stopped *)

Section LateReplies.
Context {num : Type} `{Number num} `{NumberSqrt num}.

(** C10 (as amended): [stopCamera] clears [cursor.active], the camera flag
    and the busy flag.  [worker.onmessage] tests no camera flag: a result
    that arrives afterwards is handed to [handleResult] like any other.  A
    late null reply changes nothing and a late reply in which no hand is
    selected resets [GestureState] to idle, so [cursor.active] stays false
    after these; a late reply with a tracked hand (ten landmarks or more) is
    applied: [cursor.active] becomes true and the hand's landmarks and
    gesture name are published, the camera flag still being off. *)
Theorem C10_late_reply_is_applied
    (now : num) (lost seen : GestureResult num) (w : World num)
    (i : nat) (h : list (Landmark num)) :
  selectHand (config w) lost = None ->
  selectHand (config w) seen = Some (i, h) ->
  9 < length h ->
  (active (cursor (gestureState (stopCamera w))) = false
   /\ isCameraActive (stopCamera w) = false
   /\ isBusyRef (stopCamera w) = false)
  /\ onmessage now (Result None) (stopCamera w) = Normal (stopCamera w)
  /\ (exists w',
        onmessage now (Result (Some lost)) (stopCamera w) = Normal w'
        /\ isCameraActive w' = false
        /\ active (cursor (gestureState w')) = false
        /\ isIdle (gestureState w'))
  /\ (exists w',
        onmessage now (Result (Some seen)) (stopCamera w) = Normal w'
        /\ isCameraActive w' = false
        /\ active (cursor (gestureState w')) = true
        /\ dbgLandmarks (debugInfo (gestureState w')) = h
        /\ gestureNames (gestureState w') = [gestureName seen i]).
Proof.
  intros Elost Eseen Hl.
  split; [repeat split|]. split; [reflexivity|]. split.
  - eexists; split.
    + cbn [onmessage]. rewrite handleResult_reset by exact Elost. reflexivity.
    + repeat split.
  - assert (Ht : tracks (config (stopCamera w)) seen h)
      by (apply (tracks_of_length _ _ i); assumption).
    destruct (handleResult_tracks now seen (stopCamera w) h Ht)
      as (i' & root & mcp & E' & _ & _ & Hr).
    assert (i' = i) as -> by (cbn [config stopCamera] in E'; congruence).
    destruct (lookup_below h 8) as [tip E8]; [lia|].
    eexists; split; [cbn [onmessage]; rewrite Hr; reflexivity|].
    split; [reflexivity|].
    split; [cbn; apply (mapCursor_active _ _ _ _ E8)|].
    split; reflexivity.
Qed.
End LateReplies.

(** The theorem at work: the camera is stopped while an open hand is
    tracked. *)
Lemma C10_late_reply_is_applied_witness :
  (active (cursor (gestureState (stopCamera Scene.pointing))) = false
   /\ isCameraActive (stopCamera Scene.pointing) = false
   /\ isBusyRef (stopCamera Scene.pointing) = false)
  /\ onmessage 1100%float (Result None) (stopCamera Scene.pointing)
     = Normal (stopCamera Scene.pointing)
  /\ (exists w',
        onmessage 1100%float (Result (Some Scene.nothing)) (stopCamera Scene.pointing)
          = Normal w'
        /\ isCameraActive w' = false
        /\ active (cursor (gestureState w')) = false
        /\ isIdle (gestureState w'))
  /\ (exists w',
        onmessage 1100%float (Result (Some (Scene.seen Scene.sideHand)))
          (stopCamera Scene.pointing) = Normal w'
        /\ isCameraActive w' = false
        /\ active (cursor (gestureState w')) = true
        /\ dbgLandmarks (debugInfo (gestureState w')) = Scene.sideHand
        /\ gestureNames (gestureState w')
           = [gestureName (Scene.seen Scene.sideHand) 0]).
Proof.
  apply (C10_late_reply_is_applied 1100%float Scene.nothing
           (Scene.seen Scene.sideHand) Scene.pointing 0 Scene.sideHand).
  - reflexivity.
  - reflexivity.
  - vm_compute; lia.
Defined.

(** C10 as stated fails: the worker is ready, the camera comes on, a frame
    is sent, the camera is stopped, and the reply to that frame arrives with
    a hand in it.  Afterwards the camera flag is off and the cursor is
    active, with the hand's [POINTER_MOVE] and landmarks in [GestureState]. *)
Lemma C10_late_reply_counterexample :
  exists stopped w' : World float,
    runTasks [TaskMessage 900%float InitSuccess; TaskCameraReady; TaskTick;
              TaskStopCamera] Scene.start = Some stopped
    /\ active (cursor (gestureState stopped)) = false
    /\ runTask (Scene.frame 1000 Scene.openHand) stopped = Some (Normal w')
    /\ isCameraActive w' = false
    /\ active (cursor (gestureState w')) = true
    /\ events (gestureState w') = {[ "POINTER_MOVE" := true ]}
    /\ dbgLandmarks (debugInfo (gestureState w')) = Scene.openHand.
Proof.
  do 2 eexists; split; [vm_compute; reflexivity|].
  split; [reflexivity|].
  split; [vm_compute; reflexivity|].
  repeat split; vm_compute; reflexivity.
Qed.

(** ** The hand preference *)

Section HandPreferences.
Context {num : Type} `{Number num} `{NumberSqrt num}.

Lemma findIndex_None {A} (p : A -> bool) (l : list A) :
  Forall (fun a => p a = false) l -> findIndex p l = None.
Proof.
  induction 1 as [|a l Ha _ IH]; [reflexivity|].
  cbn [findIndex]. rewrite Ha, IH. reflexivity.
Qed.

Lemma findIndex_Some {A} (p : A -> bool) (l : list A) (i : nat) :
  findIndex p l = Some i ->
  (exists a, l !! i = Some a /\ p a = true)
  /\ forall j b, j < i -> l !! j = Some b -> p b = false.
Proof.
  revert i. induction l as [|a l IH]; intros i; [discriminate|].
  cbn [findIndex]. destruct (p a) eqn:Ea.
  - intros [= <-]. split; [exists a; auto|]. intros j b Hj; lia.
  - destruct (findIndex p l) as [k|] eqn:Ek; [|discriminate].
    cbn. intros [= <-]. destruct (IH k eq_refl) as [(b & Hb & Hp) Hfirst].
    split; [exists b; auto|].
    intros [|j] c Hj Hc; [cbn in Hc; congruence|].
    apply (Hfirst j); [lia | exact Hc].
Qed.

(** With [Left] or [Right] asked for and no hand whose first handedness
    label is that word, the call resets to idle whatever the landmarks are:
    the filter is strict, no other hand is taken instead. *)
Theorem strict_preference_without_match
    (now : num) (r : GestureResult num) (w : World num) :
  hand (config w) <> PrefBoth ->
  Forall (fun h => label h <> Some (handName (hand (config w)))) (handednesses r) ->
  handleResult now (Some r) w = Normal (setGestureState (resetState (gestureState w)) w)
  /\ isIdle (gestureState (worldOf (handleResult now (Some r) w))).
Proof.
  intros Hb Hno.
  assert (E : selectHand (config w) r = None).
  { unfold selectHand, targetHandIndex.
    destruct (landmarks r) as [[|h0 hs]|]; try reflexivity.
    assert (Ef : findIndex (fun h => bool_decide (label h = Some (handName (hand (config w)))))
                   (handednesses r) = None).
    { apply findIndex_None. eapply Forall_impl; [exact Hno|].
      intros h Hh. apply bool_decide_eq_false_2, Hh. }
    destruct (hand (config w)); try congruence; rewrite Ef; reflexivity. }
  rewrite (handleResult_reset now r w E). split; [reflexivity|apply resetState_isIdle].
Qed.

(** With [Left] or [Right] asked for, the hand that is tracked is the first
    one whose first handedness label is that word: its index is the index
    of that label, no earlier label matches, and the handedness published
    in the debug information is the word asked for. *)
Theorem strict_preference_tracks_first_match
    (now : num) (r : GestureResult num) (w : World num)
    (i : nat) (h : list (Landmark num)) :
  hand (config w) <> PrefBoth ->
  selectHand (config w) r = Some (i, h) ->
  9 < length h ->
  (exists hd, handednesses r !! i = Some hd
              /\ label hd = Some (handName (hand (config w))))
  /\ (forall j hd, j < i -> handednesses r !! j = Some hd ->
      label hd <> Some (handName (hand (config w))))
  /\ (exists hands, landmarks r = Some hands /\ hands !! i = Some h)
  /\ exists w', handleResult now (Some r) w = Normal w'
       /\ handedness (debugInfo (gestureState w')) = handName (hand (config w))
       /\ dbgLandmarks (debugInfo (gestureState w')) = h.
Proof.
  intros Hb E Hl.
  assert (Hsel := E). unfold selectHand in Hsel.
  destruct (landmarks r) as [[|h0 hs]|] eqn:El; try discriminate.
  destruct (targetHandIndex (config w) r) as [k|] eqn:Ek; [|discriminate].
  destruct ((h0 :: hs) !! k) as [hk|] eqn:Ehk; [|discriminate].
  injection Hsel as -> ->.
  assert (Ef : findIndex (fun h => bool_decide (label h = Some (handName (hand (config w)))))
                 (handednesses r) = Some i).
  { unfold targetHandIndex in Ek. destruct (hand (config w)); congruence. }
  destruct (findIndex_Some _ _ _ Ef) as [(hd & Hhd & Hp) Hfirst].
  apply bool_decide_eq_true_1 in Hp.
  split; [exists hd; auto|].
  split.
  { intros j hd' Hj Hhd'. apply (bool_decide_eq_false_1 _), (Hfirst j); assumption. }
  split; [exists (h0 :: hs); auto|].
  destruct (handleResult_tracks now r w h (tracks_of_length _ _ _ _ E Hl))
    as (i' & root & mcp & E' & _ & _ & Hr).
  assert (i' = i) as -> by congruence.
  eexists; split; [exact Hr|].
  split; [|reflexivity].
  cbn [trackHand gestureState debugInfo handedness]. unfold handLabel. rewrite Hhd.
  unfold label in Hp. destruct hd as [|c0 hd]; cbn in Hp; congruence.
Qed.
End HandPreferences.

(** The theorem at work: [Left] asked for, one right hand in sight. *)
Lemma strict_preference_without_match_witness :
  handleResult 1000%float (Some (Scene.seen Scene.openHand)) Scene2.leftOnly
    = Normal (setGestureState (resetState (gestureState Scene2.leftOnly)) Scene2.leftOnly)
  /\ isIdle (gestureState (worldOf
       (handleResult 1000%float (Some (Scene.seen Scene.openHand)) Scene2.leftOnly))).
Proof.
  apply (strict_preference_without_match 1000%float (Scene.seen Scene.openHand)
           Scene2.leftOnly).
  - discriminate.
  - apply Forall_cons; split; [discriminate | constructor].
Defined.

(** The theorem at work: [Right] asked for, a left and a right hand in
    sight; the second hand is the one tracked. *)
Lemma strict_preference_tracks_first_match_witness :
  (exists hd, handednesses Scene2.twoHands !! 1 = Some hd
              /\ label hd = Some (handName (hand (config Scene2.rightOnly))))
  /\ (forall j hd, j < 1 -> handednesses Scene2.twoHands !! j = Some hd ->
      label hd <> Some (handName (hand (config Scene2.rightOnly))))
  /\ (exists hands, landmarks Scene2.twoHands = Some hands
                    /\ hands !! 1 = Some Scene.openHand)
  /\ exists w', handleResult 1000%float (Some Scene2.twoHands) Scene2.rightOnly
                  = Normal w'
       /\ handedness (debugInfo (gestureState w'))
          = handName (hand (config Scene2.rightOnly))
       /\ dbgLandmarks (debugInfo (gestureState w')) = Scene.openHand.
Proof.
  apply (strict_preference_tracks_first_match 1000%float Scene2.twoHands
           Scene2.rightOnly 1 Scene.openHand).
  - discriminate.
  - reflexivity.
  - vm_compute; lia.
Defined.

(** ** What holds in every world the program reaches *)

Section Reachable.
Context {num : Type} `{Number num} `{NumberSqrt num}.

Lemma runCalls_invariant (P : World num -> Prop) :
  (forall c w o, P w -> runCall c w = Some o -> P (worldOf o)) ->
  forall cs w w', P w -> runCalls cs w = Some w' -> P w'.
Proof.
  intros Hstep cs. induction cs as [|c cs IH]; intros w w' Hw Hrun.
  - cbn in Hrun. congruence.
  - cbn [runCalls] in Hrun. destruct (runCall c w) as [o|] eqn:Ec; [|discriminate].
    eapply IH; [|exact Hrun]. eapply Hstep; eassumption.
Qed.

(** A property of [STATE], the cursor's mode and the timer queue that the
    state machine keeps is kept by [handleResult], whatever the result. *)
Lemma handleResult_keeps
    (Q : STATE_t num -> GestureMode -> list (nat * num) -> Prop)
    (now : num) (result : option (GestureResult num)) (w : World num) :
  (forall pinch middle act (m : Machine num),
      mEvents m = ∅ ->
      Q (mSTATE m) (mMode m) (mTimers m) ->
      Q (mSTATE (gestureMachine now pinch middle act m))
        (mMode (gestureMachine now pinch middle act m))
        (mTimers (gestureMachine now pinch middle act m))) ->
  Q (STATE w) (mode (cursor (gestureState w))) (timers w) ->
  Q (STATE (worldOf (handleResult now result w)))
    (mode (cursor (gestureState (worldOf (handleResult now result w)))))
    (timers (worldOf (handleResult now result w))).
Proof.
  intros Hm Hw. unfold handleResult.
  destruct result as [r|]; [|exact Hw].
  destruct (selectHand (config w) r) as [[i h]|]; [|exact Hw].
  destruct (h !! 0) as [root|]; [|exact Hw].
  destruct (h !! 9) as [mcp|]; [|exact Hw].
  cbn [worldOf trackHand STATE gestureState cursor timers setMode mode].
  rewrite machineIn_mapCursor. apply Hm; [reflexivity | exact Hw].
Qed.

(** The same for every call on the main thread, given that the property
    is also kept when the timeout of the double click runs. *)
Lemma runCall_keeps
    (Q : STATE_t num -> GestureMode -> list (nat * num) -> Prop)
    (c : Call num) (w : World num) (o : Outcome num) :
  (forall now pinch middle act (m : Machine num),
      mEvents m = ∅ ->
      Q (mSTATE m) (mMode m) (mTimers m) ->
      Q (mSTATE (gestureMachine now pinch middle act m))
        (mMode (gestureMachine now pinch middle act m))
        (mTimers (gestureMachine now pinch middle act m))) ->
  (forall now id st mo tq,
      isDue now id tq = true -> Q st mo tq ->
      Q (setClickCount 0 st) mo (clearTimeout id tq)) ->
  Q (STATE w) (mode (cursor (gestureState w))) (timers w) ->
  runCall c w = Some o ->
  Q (STATE (worldOf o)) (mode (cursor (gestureState (worldOf o)))) (timers (worldOf o)).
Proof.
  intros Hm Ht Hw Hrun.
  destruct c as [[now msg|now id| | | |s]|hp|r]; cbn [runCall runTask] in Hrun.
  - injection Hrun as <-. destruct msg as [| |result]; cbn [onmessage]; try exact Hw.
    pose proof (handleResult_keeps Q now result w (Hm now) Hw) as Hk.
    destruct (handleResult now result w); exact Hk.
  - destruct (isDue now id (timers w)) eqn:Ed; [|discriminate].
    injection Hrun as <-. apply (Ht now); assumption.
  - injection Hrun as <-. exact Hw.
  - injection Hrun as <-. cbn [worldOf]. unfold loopTick.
    destruct (negb (isCameraActive w)); exact Hw.
  - injection Hrun as <-. exact Hw.
  - injection Hrun as <-. exact Hw.
  - injection Hrun as <-. exact Hw.
  - injection Hrun as <-. exact Hw.
Qed.

Lemma clearTimeout_single (id : nat) (due : num) : clearTimeout id [(id, due)] = [].
Proof.
  unfold clearTimeout. rewrite filter_cons, filter_nil.
  destruct (decide _) as [Hne|_]; [cbn in Hne; congruence | reflexivity].
Qed.

Lemma machine_timers (now : num) (pinch middle act : bool) (m : Machine num) :
  (clickCount (mSTATE m) = 0 /\ mTimers m = [])
  \/ (clickCount (mSTATE m) = 1
      /\ exists id due, mTimers m = [(id, due)] /\ clickTimer (mSTATE m) = Some id) ->
  (clickCount (mSTATE (gestureMachine now pinch middle act m)) = 0
   /\ mTimers (gestureMachine now pinch middle act m) = [])
  \/ (clickCount (mSTATE (gestureMachine now pinch middle act m)) = 1
      /\ exists id due,
           mTimers (gestureMachine now pinch middle act m) = [(id, due)]
           /\ clickTimer (mSTATE (gestureMachine now pinch middle act m)) = Some id).
Proof.
  destruct m as [[lp cc ct ds dr md lpos] mo ev tq nx]; machine_simpl.
  intros [[-> ->] | (-> & id & due & -> & ->)];
    unfold gestureMachine, pointerOrIdle, middlePinchBranch, endRotate,
      indexPinchBranch, releaseBranch, cancelClickTimer, armClickTimer;
    destruct middle, pinch, md, dr; machine_simpl;
    repeat (match goal with
            | |- context [if ?b then _ else _] => destruct b
            | |- context [match ?o with Some _ => _ | None => _ end] => destruct o
            end; machine_simpl);
    rewrite ?clearTimeout_single; cbn [app];
    try lia;
    first [ left; split; reflexivity
          | right; split; [reflexivity | eexists; eexists; split; reflexivity] ].
Qed.
End Reachable.

Section ReachableWorlds.
Context {num : Type} `{Number num} `{NumberSqrt num}.

Lemma machine_dragMode (now : num) (pinch middle act : bool) (m : Machine num) :
  (mMode m = ModeDrag -> isDragging (mSTATE m) = true) ->
  mMode (gestureMachine now pinch middle act m) = ModeDrag ->
  isDragging (mSTATE (gestureMachine now pinch middle act m)) = true.
Proof.
  destruct m as [[lp cc ct ds dr md lpos] mo ev tq nx]; machine_simpl.
  unfold gestureMachine, pointerOrIdle, middlePinchBranch, endRotate,
    indexPinchBranch, releaseBranch, cancelClickTimer, armClickTimer.
  destruct middle, pinch, md, dr; machine_simpl;
    repeat (match goal with
            | |- context [if ?b then _ else _] => destruct b
            | |- context [match ?o with Some _ => _ | None => _ end] => destruct o
            end; machine_simpl);
    intros Hinv Hmode; solve [reflexivity | discriminate | exact (Hinv Hmode)].
Qed.

Lemma machine_mode_range (now : num) (pinch middle act : bool) (m : Machine num) :
  mMode m = ModeNone \/ mMode m = ModeDrag \/ mMode m = ModeRotate ->
  mMode (gestureMachine now pinch middle act m) = ModeNone
  \/ mMode (gestureMachine now pinch middle act m) = ModeDrag
  \/ mMode (gestureMachine now pinch middle act m) = ModeRotate.
Proof.
  destruct m as [[lp cc ct ds dr md lpos] mo ev tq nx]; machine_simpl.
  unfold gestureMachine, pointerOrIdle, middlePinchBranch, endRotate,
    indexPinchBranch, releaseBranch, cancelClickTimer, armClickTimer.
  destruct middle, pinch, md, dr; machine_simpl;
    repeat (match goal with
            | |- context [if ?b then _ else _] => destruct b
            | |- context [match ?o with Some _ => _ | None => _ end] => destruct o
            end; machine_simpl);
    intros Hr; first [exact Hr | left; reflexivity | right; left; reflexivity
                     | right; right; reflexivity].
Qed.

Lemma machine_edges (now : num) (pinch middle act : bool) (m : Machine num) :
  mEvents m = ∅ ->
  flag (mEvents (gestureMachine now pinch middle act m)) "DRAG_START"
    = negb (isDragging (mSTATE m))
      && isDragging (mSTATE (gestureMachine now pinch middle act m))
  /\ flag (mEvents (gestureMachine now pinch middle act m)) "DRAG_END"
    = isDragging (mSTATE m)
      && negb (isDragging (mSTATE (gestureMachine now pinch middle act m)))
  /\ flag (mEvents (gestureMachine now pinch middle act m)) "DRAG_MIDDLE_START"
    = negb (isMiddleDragging (mSTATE m))
      && isMiddleDragging (mSTATE (gestureMachine now pinch middle act m))
  /\ flag (mEvents (gestureMachine now pinch middle act m)) "DRAG_MIDDLE_END"
    = isMiddleDragging (mSTATE m)
      && negb (isMiddleDragging (mSTATE (gestureMachine now pinch middle act m))).
Proof.
  destruct m as [[lp cc ct ds dr md lpos] mo ev tq nx]; machine_simpl; intros ->.
  unfold gestureMachine, pointerOrIdle, middlePinchBranch, endRotate,
    indexPinchBranch, releaseBranch, cancelClickTimer, armClickTimer.
  destruct middle, pinch, md, dr; machine_simpl;
    repeat (match goal with
            | |- context [if ?b then _ else _] => destruct b
            | |- context [match ?o with Some _ => _ | None => _ end] => destruct o
            end; machine_simpl);
    vm_compute; repeat split; reflexivity.
Qed.

(** In every world the program reaches from its start, by any sequence of
    worker messages, timeouts, loop turns, camera starts and stops and
    setter calls, at most one double-click timeout is pending: either the
    click counter is 0 and none is, or it is 1 and the one pending is the
    one [STATE.clickTimer] names.  So the counter never passes 1 between
    two calls. *)
Theorem one_click_timeout_pending
    (width height : num) (cs : list (Call num)) (w : World num) :
  runCalls cs (initialWorld width height) = Some w ->
  timerInv w /\ clickCount (STATE w) <= 1 /\ length (timers w) <= 1.
Proof.
  intros Hrun.
  assert (Hinv : timerInv w).
  { revert Hrun. apply runCalls_invariant; [|left; split; reflexivity].
    intros c w0 o Hw0 Hc.
    apply (runCall_keeps
             (fun st _ tq =>
                (clickCount st = 0 /\ tq = [])
                \/ (clickCount st = 1
                    /\ exists id due, tq = [(id, due)] /\ clickTimer st = Some id))
             c w0 o); [| |exact Hw0|exact Hc].
    - intros now pinch middle act m _. apply machine_timers.
    - intros now id st mo tq Hdue [[_ ->] | (_ & id0 & due & -> & _)].
      + discriminate.
      + cbn [isDue existsb] in Hdue. rewrite orb_false_r in Hdue.
        apply andb_prop in Hdue as [Hid _]. apply bool_decide_eq_true_1 in Hid.
        cbn in Hid. subst id0. rewrite clearTimeout_single.
        left. destruct st; split; reflexivity. }
  split; [exact Hinv|].
  destruct Hinv as [[-> ->] | (-> & id & due & -> & _)]; cbn [length]; lia.
Qed.

(** In every world the program reaches from its start, the cursor shows
    the mode [drag] only while the drag flag of [STATE] is set, and its
    mode is [none], [drag] or [rotate]: the modes [click] and [scroll] are
    never set.  So the cursor component shows its class [clicking] only
    during a drag, together with the class [dragging]. *)
Theorem drag_mode_only_while_dragging
    (width height : num) (cs : list (Call num)) (w : World num) :
  runCalls cs (initialWorld width height) = Some w ->
  dragModeInv w
  /\ (mode (cursor (gestureState w)) = ModeNone
      \/ mode (cursor (gestureState w)) = ModeDrag
      \/ mode (cursor (gestureState w)) = ModeRotate)
  /\ (clicking (cursorClass (mode (cursor (gestureState w)))) = true ->
      isDragging (STATE w) = true
      /\ dragging (cursorClass (mode (cursor (gestureState w)))) = true).
Proof.
  intros Hrun.
  assert (Hinv : dragModeInv w
                 /\ (mode (cursor (gestureState w)) = ModeNone
                     \/ mode (cursor (gestureState w)) = ModeDrag
                     \/ mode (cursor (gestureState w)) = ModeRotate)).
  { revert Hrun.
    apply (runCalls_invariant
             (fun v => dragModeInv v
                       /\ (mode (cursor (gestureState v)) = ModeNone
                           \/ mode (cursor (gestureState v)) = ModeDrag
                           \/ mode (cursor (gestureState v)) = ModeRotate)));
      [|split; [discriminate | left; reflexivity]].
    intros c w0 o Hw0 Hc. unfold dragModeInv in *.
    refine (runCall_keeps
             (fun st mo _ => (mo = ModeDrag -> isDragging st = true)
                             /\ (mo = ModeNone \/ mo = ModeDrag \/ mo = ModeRotate))
             c w0 o _ _ Hw0 Hc).
    - intros now pinch middle act m _ [Hd Hr].
      split; [apply machine_dragMode; exact Hd | apply machine_mode_range; exact Hr].
    - intros now id st mo tq _ [Hd Hr]. split; [|exact Hr].
      intros Hmo. destruct st; exact (Hd Hmo). }
  destruct Hinv as [Hd Hr]. split; [exact Hd|]. split; [exact Hr|].
  intros Hc.
  destruct Hr as [E | [E | E]]; rewrite E in Hc |- *;
    try discriminate Hc.
  split; [exact (Hd E) | reflexivity].
Qed.

(** The four start and end events of the two drags mark the edges of the
    two drag flags: on every call of [handleResult] that returns, for a
    result that is not null, [DRAG_START] is set exactly when [isDragging]
    goes from false to true in that call, [DRAG_END] exactly when it goes
    from true to false, and the same for [DRAG_MIDDLE_START],
    [DRAG_MIDDLE_END] and [isMiddleDragging]. *)
Theorem drag_events_mark_flag_edges
    (now : num) (r : GestureResult num) (w w' : World num) :
  handleResult now (Some r) w = Normal w' ->
  flag (events (gestureState w')) "DRAG_START"
    = negb (isDragging (STATE w)) && isDragging (STATE w')
  /\ flag (events (gestureState w')) "DRAG_END"
    = isDragging (STATE w) && negb (isDragging (STATE w'))
  /\ flag (events (gestureState w')) "DRAG_MIDDLE_START"
    = negb (isMiddleDragging (STATE w)) && isMiddleDragging (STATE w')
  /\ flag (events (gestureState w')) "DRAG_MIDDLE_END"
    = isMiddleDragging (STATE w) && negb (isMiddleDragging (STATE w')).
Proof.
  intros Hr. unfold handleResult in Hr.
  destruct (selectHand (config w) r) as [[i h]|].
  - destruct (h !! 0) as [root|]; [|discriminate].
    destruct (h !! 9) as [mcp|]; [|discriminate].
    injection Hr as <-.
    cbn [trackHand gestureState events STATE].
    apply (machine_edges now (isPinch h) (isMiddlePinch h)). reflexivity.
  - injection Hr as <-.
    cbn [setGestureState resetState gestureState events STATE].
    destruct (isDragging (STATE w)), (isMiddleDragging (STATE w));
      vm_compute; repeat split; reflexivity.
Qed.
End ReachableWorlds.

(** The theorems at work: a short press and its release, from the start;
    and the call that starts a drag. *)
Lemma one_click_timeout_pending_witness :
  timerInv Scene.clicked
  /\ clickCount (STATE Scene.clicked) <= 1
  /\ length (timers Scene.clicked) <= 1.
Proof.
  apply (one_click_timeout_pending 1920%float 1080%float
           [CallTask (Scene.frame 1000%float Scene.pinchHand);
            CallTask (Scene.frame 1100%float Scene.openHand)]
           Scene.clicked).
  reflexivity.
Defined.

Lemma drag_mode_only_while_dragging_witness :
  let w := setRoi 0.5%float Scene.dragging in
  dragModeInv w
  /\ (mode (cursor (gestureState w)) = ModeNone
      \/ mode (cursor (gestureState w)) = ModeDrag
      \/ mode (cursor (gestureState w)) = ModeRotate)
  /\ (clicking (cursorClass (mode (cursor (gestureState w)))) = true ->
      isDragging (STATE w) = true
      /\ dragging (cursorClass (mode (cursor (gestureState w)))) = true).
Proof.
  apply (drag_mode_only_while_dragging 1920%float 1080%float
           [CallTask (Scene.frame 1000%float Scene.pinchHand);
            CallTask (Scene.frame 1300%float Scene.pinchHand);
            CallSetRoi 0.5%float]
           (setRoi 0.5%float Scene.dragging)).
  reflexivity.
Defined.

Lemma drag_events_mark_flag_edges_witness :
  flag (events (gestureState Scene.dragging)) "DRAG_START"
    = negb (isDragging (STATE Scene.pressing)) && isDragging (STATE Scene.dragging)
  /\ flag (events (gestureState Scene.dragging)) "DRAG_END"
    = isDragging (STATE Scene.pressing) && negb (isDragging (STATE Scene.dragging))
  /\ flag (events (gestureState Scene.dragging)) "DRAG_MIDDLE_START"
    = negb (isMiddleDragging (STATE Scene.pressing))
      && isMiddleDragging (STATE Scene.dragging)
  /\ flag (events (gestureState Scene.dragging)) "DRAG_MIDDLE_END"
    = isMiddleDragging (STATE Scene.pressing)
      && negb (isMiddleDragging (STATE Scene.dragging)).
Proof.
  apply (drag_events_mark_flag_edges 1300%float (Scene.seen Scene.pinchHand)
           Scene.pressing Scene.dragging).
  reflexivity.
Defined.

(** ** The cursor mapping at binary64 *)

Section CursorMapping64.
Local Open Scope float_scope.

(** [Math.max(0, Math.min(1, v))] *)
Lemma clamp01_64 (v : float) :
  PrimFloat.is_nan (clamp01 v) = PrimFloat.is_nan v /\ nanOrWithin 0 1 (clamp01 v).
Proof.
  unfold clamp01, nanOrWithin. change (fromZ 0) with 0. change (fromZ 1) with 1.
  cbn [Math_max Math_min float_Number].
  destruct (PrimFloat.is_nan v) eqn:Hn.
  - assert (Hm : PrimFloat.is_nan (F.min 1 v) = true) by (apply Fmin_nan; auto).
    assert (Hx : PrimFloat.is_nan (F.max 0 (F.min 1 v)) = true) by (apply Fmax_nan; auto).
    split; [exact Hx | left; exact Hx].
  - pose proof (Fmin_not_nan 1 v eq_refl Hn) as Hm.
    pose proof (Fmax_not_nan 0 _ eq_refl Hm) as Hx.
    split; [exact Hx|]. right.
    destruct (Fmax_ub 0 (F.min 1 v) eq_refl Hm) as [H0 _].
    split; [exact H0|].
    destruct (Fmax_sel 0 (F.min 1 v)) as [-> | ->]; [reflexivity|].
    apply (Fmin_lb 1 v eq_refl Hn).
Qed.

(** At binary64, whatever the landmark and the region of interest, each
    coordinate of the position mapped from the index tip lies between 0
    and 1 or is NaN, and it is NaN exactly when the quotient that is
    clamped is: [(1 - x - (0.5 - e / 2)) / e] across, [(y - (0.5 - e / 2)) / e]
    down. *)
Theorem mapPoint_unit_square_or_nan (e : float) (tip : Landmark float) :
  unitOrNaN (mapPoint e tip)
  /\ PrimFloat.is_nan (px (mapPoint e tip))
     = PrimFloat.is_nan ((1 - x tip - (0.5 - e / 2)) / e)
  /\ PrimFloat.is_nan (py (mapPoint e tip))
     = PrimFloat.is_nan ((y tip - (0.5 - e / 2)) / e).
Proof.
  unfold unitOrNaN, mapPoint. cbn [px py].
  change (dec 5 10) with 0.5. change (fromZ 1) with 1. change (fromZ 2) with 2.
  cbn [sub div float_Number].
  destruct (clamp01_64 ((1 - x tip - (0.5 - e / 2)) / e)) as [Hx1 Hx2].
  destruct (clamp01_64 ((y tip - (0.5 - e / 2)) / e)) as [Hy1 Hy2].
  auto.
Qed.

Lemma pushPosition_Forall (P : Point float -> Prop) (size : nat) (p : Point float)
    (buf : list (Point float)) :
  P p -> Forall P buf -> Forall P (pushPosition size p buf).
Proof.
  intros Hp Hb.
  assert (Hall : Forall P (buf ++ [p])).
  { apply Forall_app; split; [exact Hb | apply Forall_cons; split; [exact Hp | constructor]]. }
  destruct (pushPosition_cases size p buf) as [-> | ->]; [exact Hall|].
  destruct (buf ++ [p]) as [|q l]; [constructor|].
  apply Forall_cons in Hall as [_ Hl]. exact Hl.
Qed.

Lemma handleResult_buffer (now : float) (result : option (GestureResult float))
    (w : World float) :
  Forall unitOrNaN (positionBuffer w) ->
  Forall unitOrNaN (positionBuffer (worldOf (handleResult now result w))).
Proof.
  intros Hw. unfold handleResult.
  destruct result as [r|]; [|exact Hw].
  destruct (selectHand (config w) r) as [[i h]|]; [|exact Hw].
  destruct (h !! 0%nat) as [root|]; [|exact Hw].
  destruct (h !! 9%nat) as [mcp|]; [|exact Hw].
  cbn [worldOf trackHand positionBuffer]. unfold mapCursor.
  destruct (h !! 8%nat) as [tip|]; cbn [fst]; [|exact Hw].
  apply pushPosition_Forall; [|exact Hw].
  apply mapPoint_unit_square_or_nan.
Qed.

(** At binary64, in every world the program reaches from its start, each
    position in the smoothing buffer has both coordinates between 0 and 1,
    or NaN. *)
Theorem buffer_positions_unit_or_nan
    (width height : float) (cs : list (Call float)) (w : World float) :
  runCalls cs (initialWorld width height) = Some w ->
  Forall unitOrNaN (positionBuffer w).
Proof.
  apply (runCalls_invariant (fun v => Forall unitOrNaN (positionBuffer v)));
    [|constructor].
  intros c w0 o Hw0 Hc.
  destruct c as [[now msg|now id| | | |s]|hp|r]; cbn [runCall runTask] in Hc.
  - injection Hc as <-. destruct msg as [| |result]; cbn [onmessage]; try exact Hw0.
    pose proof (handleResult_buffer now result w0 Hw0) as Hk.
    destruct (handleResult now result w0); exact Hk.
  - destruct (isDue now id (timers w0)); [|discriminate]. injection Hc as <-. exact Hw0.
  - injection Hc as <-. exact Hw0.
  - injection Hc as <-. cbn [worldOf]. unfold loopTick.
    destruct (negb (isCameraActive w0)); exact Hw0.
  - injection Hc as <-. exact Hw0.
  - injection Hc as <-. exact Hw0.
  - injection Hc as <-. exact Hw0.
  - injection Hc as <-. exact Hw0.
Qed.
End CursorMapping64.

(** The theorem at work: one frame with an open hand, from the start. *)
Lemma buffer_positions_unit_or_nan_witness :
  Forall unitOrNaN (positionBuffer Scene.pointing).
Proof.
  apply (buffer_positions_unit_or_nan 1920%float 1080%float
           [CallTask (Scene.frame 1000%float Scene.openHand)] Scene.pointing).
  reflexivity.
Defined.

(** ** A drag across the loss of the hand *)

Section HandLoss.
Context {num : Type} `{Number num} `{NumberSqrt num}.

Lemma machine_release_drag (now : num) (act : bool) (m : Machine num) :
  mEvents m = ∅ ->
  isDragging (mSTATE m) = true ->
  flag (mEvents (gestureMachine now false false act m)) "DRAG_END" = true
  /\ isDragging (mSTATE (gestureMachine now false false act m)) = false
  /\ mMode (gestureMachine now false false act m) = ModeNone
  /\ dragStartTime (mSTATE (gestureMachine now false false act m)) = fromZ 0
  /\ flag (mEvents (gestureMachine now false false act m)) "CLICK" = false
  /\ flag (mEvents (gestureMachine now false false act m)) "DOUBLE_CLICK" = false
  /\ clickCount (mSTATE (gestureMachine now false false act m)) = clickCount (mSTATE m).
Proof.
  destruct m as [[lp cc ct ds dr md lpos] mo ev tq nx]; machine_simpl.
  intros -> ->.
  unfold gestureMachine, pointerOrIdle, endRotate, releaseBranch.
  destruct md, act; machine_simpl; repeat split; vm_compute; reflexivity.
Qed.

Lemma lost_frame_step (f : num * GestureResult num) (w : World num) :
  selectHand (config w) f.2 = None ->
  runTask (frameTask f) w
  = Some (Normal (setIsBusyRef false (setGestureState (resetState (gestureState w)) w))).
Proof.
  intros E. unfold frameTask. cbn [runTask onmessage].
  rewrite (handleResult_reset _ _ _ E). reflexivity.
Qed.

(** A drag survives the loss of the hand and is ended by its return: when
    the drag flag is set and the hand is lost for any number of frames
    (no hand selected), each of those calls shows the idle state with the
    drag flag still set and sets no [DRAG_END]; the first call that
    tracks a hand again with no pinch sets [DRAG_END], clears the flag
    and leaves the mode [none].  The release that ends a drag is no click:
    it sets neither [CLICK] nor [DOUBLE_CLICK] and leaves the click
    counter as it was. *)
Theorem drag_ends_when_hand_returns
    (lost : list (num * GestureResult num)) (back : num * GestureResult num)
    (w : World num) :
  isDragging (STATE w) = true ->
  Forall (fun f => selectHand (config w) f.2 = None) lost ->
  frameWith (config w) false false back ->
  exists ws w',
    runTrace (map frameTask (lost ++ [back])) w = ws ++ [w']
    /\ length ws = length lost
    /\ Forall (fun v => isIdle (gestureState v)
                        /\ isDragging (STATE v) = true
                        /\ flag (events (gestureState v)) "DRAG_END" = false) ws
    /\ flag (events (gestureState w')) "DRAG_END" = true
    /\ isDragging (STATE w') = false
    /\ mode (cursor (gestureState w')) = ModeNone
    /\ flag (events (gestureState w')) "CLICK" = false
    /\ flag (events (gestureState w')) "DOUBLE_CLICK" = false
    /\ clickCount (STATE w') = clickCount (STATE w).
Proof.
  revert w. induction lost as [|f lost IH]; intros w Hd Hlost Hback.
  - destruct Hback as (h & Ht & Hp & Hm).
    destruct back as [now r]. cbn [fst snd] in *.
    destruct (frame_step now r w h Ht)
      as (w' & act & Hrun & HS & Hmo & Hev & _).
    rewrite Hp, Hm in *.
    destruct (machine_release_drag now act (machineIn w (cursor (gestureState w)))
                eq_refl Hd) as (Hf & Hdr & Hmode & _ & Hcl & Hdc & Hcc).
    exists [], w'. cbn [app map runTrace]. rewrite Hrun. cbn [worldOf runTrace app length].
    split; [reflexivity|]. split; [reflexivity|]. split; [constructor|].
    rewrite Hev, HS, Hmo. auto 10.
  - apply Forall_cons in Hlost as [Hf Hlost].
    set (v := setIsBusyRef false (setGestureState (resetState (gestureState w)) w)).
    destruct (IH v) as (ws & w' & Hrun & Hlen & Hall & Hrest).
    { exact Hd. }
    { exact Hlost. }
    { exact Hback. }
    exists (v :: ws), w'.
    cbn [app map runTrace]. rewrite (lost_frame_step f w Hf). cbn [worldOf].
    fold v. rewrite Hrun. cbn [length app].
    split; [reflexivity|]. split; [congruence|].
    split; [|exact Hrest].
    apply Forall_cons. split; [|exact Hall].
    split; [apply resetState_isIdle|]. split; [exact Hd|reflexivity].
Qed.
End HandLoss.

(** The theorem at work: a drag, one frame with no hand, then an open
    hand. *)
Lemma drag_ends_when_hand_returns_witness :
  exists ws w',
    runTrace (map frameTask
                ([(1400%float, Scene.nothing)] ++ [(1500%float, Scene.seen Scene.openHand)]))
      Scene.dragging = ws ++ [w']
    /\ length ws = length [(1400%float, Scene.nothing)]
    /\ Forall (fun v => isIdle (gestureState v)
                        /\ isDragging (STATE v) = true
                        /\ flag (events (gestureState v)) "DRAG_END" = false) ws
    /\ flag (events (gestureState w')) "DRAG_END" = true
    /\ isDragging (STATE w') = false
    /\ mode (cursor (gestureState w')) = ModeNone
    /\ flag (events (gestureState w')) "CLICK" = false
    /\ flag (events (gestureState w')) "DOUBLE_CLICK" = false
    /\ clickCount (STATE w') = clickCount (STATE Scene.dragging).
Proof.
  apply (drag_ends_when_hand_returns [(1400%float, Scene.nothing)]
           (1500%float, Scene.seen Scene.openHand) Scene.dragging).
  - reflexivity.
  - apply Forall_cons; split; [reflexivity | constructor].
  - scene_frame Scene.openHand.
Defined.

(** ** The prediction loop and the busy flag *)

Section Pump.
Context {num : Type} `{Number num} `{NumberSqrt num}.

Lemma loopTick_busy (w : World num) :
  isBusyRef w = true ->
  isBusyRef (loopTick w) = true
  /\ gestureState (loopTick w) = gestureState w
  /\ STATE (loopTick w) = STATE w
  /\ isCameraActive (loopTick w) = isCameraActive w
  /\ isWorkerReady (loopTick w) = isWorkerReady w.
Proof.
  intros Hb. unfold loopTick.
  destruct (negb (isCameraActive w)); [auto|].
  cbn [isBusyRef gestureState STATE isCameraActive isWorkerReady].
  rewrite Hb, andb_false_r. auto.
Qed.

Lemma ticks_busy (n : nat) (w : World num) :
  isBusyRef w = true ->
  exists w', runTasks (replicate n TaskTick) w = Some w'
    /\ isBusyRef w' = true
    /\ gestureState w' = gestureState w
    /\ STATE w' = STATE w.
Proof.
  revert w. induction n as [|n IH]; intros w Hb.
  - exists w. auto.
  - destruct (loopTick_busy w Hb) as (Hb' & Hg & Hs & _).
    destruct (IH (loopTick w) Hb') as (w' & Hrun & Hbw & Hgw & Hsw).
    exists w'. cbn [replicate runTasks runTask worldOf].
    split; [exact Hrun|]. split; [exact Hbw|]. split; congruence.
Qed.

(** A reply that makes [handleResult] throw stops the prediction loop from
    sending frames: the busy flag, set by the turn that sent the frame, is
    not cleared, the gesture state is not touched, and however many turns
    of the loop follow, none of them submits a frame. *)
Theorem throwing_reply_stalls_detection
    (now : num) (r : GestureResult num) (w : World num)
    (i : nat) (h : list (Landmark num)) (n : nat) :
  isBusyRef w = true ->
  selectHand (config w) r = Some (i, h) ->
  length h < 10 ->
  onmessage now (Result (Some r)) w = TypeError w
  /\ exists w',
       runTasks (TaskMessage now (Result (Some r)) :: replicate n TaskTick) w = Some w'
       /\ isBusyRef w' = true
       /\ submits w' = false
       /\ gestureState w' = gestureState w
       /\ outstanding (TaskMessage now (Result (Some r)) :: replicate n TaskTick) w 1
          = Some 0.
Proof.
  intros Hb Hsel Hlen.
  assert (Hthrow : handleResult now (Some r) w = TypeError w).
  { apply (handleResult_throws now r w i h Hsel).
    right. apply lookup_ge_None. lia. }
  assert (Hmsg : onmessage now (Result (Some r)) w = TypeError w).
  { cbn [onmessage]. rewrite Hthrow. reflexivity. }
  split; [exact Hmsg|].
  destruct (ticks_busy n w Hb) as (w' & Hrun & Hbw & Hgw & _).
  exists w'. cbn [runTasks runTask outstanding]. rewrite Hmsg. cbn [worldOf].
  split; [exact Hrun|]. split; [exact Hbw|].
  split; [unfold submits; rewrite Hbw, andb_false_r; reflexivity|].
  split; [exact Hgw|].
  clear Hrun Hbw Hgw w'. revert w Hb Hsel Hthrow Hmsg.
  induction n as [|n IH]; intros w Hb Hsel Hthrow Hmsg; [reflexivity|].
  cbn [replicate outstanding runTask worldOf].
  assert (Es : submits w = false) by (unfold submits; rewrite Hb, andb_false_r; reflexivity).
  rewrite Es.
  destruct (loopTick_busy w Hb) as (Hb' & _).
  clear IH Hsel Hthrow Hmsg. revert w Hb Es Hb'.
  induction n as [|n IH]; intros w Hb Es Hb'; [reflexivity|].
  cbn [replicate outstanding runTask worldOf].
  assert (Es' : submits (loopTick w) = false)
    by (unfold submits; rewrite Hb', andb_false_r; reflexivity).
  rewrite Es'. apply IH; [exact Hb' | exact Es' |].
  apply (loopTick_busy (loopTick w) Hb').
Qed.

Lemma outstanding_step (t : Task num) (ts : list (Task num)) (w : World num)
    (k k' : nat) :
  steadyTask t = true ->
  k <= 1 -> (k = 1 -> isBusyRef w = true) ->
  outstanding (t :: ts) w k = Some k' ->
  exists o j, runTask t w = Some o
    /\ outstanding ts (worldOf o) j = Some k'
    /\ j <= 1 /\ (j = 1 -> isBusyRef (worldOf o) = true).
Proof.
  intros Hst Hk Hbusy Hout. cbn [outstanding] in Hout.
  destruct (runTask t w) as [o|] eqn:Er; [|discriminate].
  exists o.
  destruct t as [now msg|now id| | | |s]; try discriminate Hst.
  - destruct msg as [| |result]; try discriminate Hst.
    destruct k as [|k]; [discriminate|].
    exists k. split; [reflexivity|]. split; [exact Hout|]. split; lia.
  - exists k. split; [reflexivity|]. split; [exact Hout|]. split; [exact Hk|].
    intros ->. cbn [runTask] in Er.
    destruct (isDue now id (timers w)); [|discriminate].
    injection Er as <-. cbn. auto.
  - cbn [runTask] in Er. injection Er as <-. cbn [worldOf] in *.
    destruct (submits w) eqn:Es.
    + unfold submits in Es.
      apply andb_prop in Es as [Es Hnb]. apply andb_prop in Es as [Hcam Hready].
      apply negb_true_iff in Hnb.
      assert (k = 0) as ->.
      { destruct k as [|[|k]]; [reflexivity | | lia].
        rewrite Hbusy in Hnb by reflexivity. discriminate. }
      exists 1. split; [reflexivity|]. split; [exact Hout|]. split; [lia|].
      intros _. unfold loopTick. rewrite Hcam, Hready, Hnb. reflexivity.
    + exists k. split; [reflexivity|]. split; [exact Hout|]. split; [exact Hk|].
      intros ->. apply loopTick_busy. auto.
  - exists k. split; [reflexivity|]. split; [exact Hout|]. split; [exact Hk|].
    intros ->. cbn [runTask] in Er. injection Er as <-. cbn. auto.
Qed.

(** As long as the camera is neither stopped nor started again and the
    worker is not initialised anew, at most one [detect] request is in
    flight: over any run of loop turns, replies, timeouts and changes of
    the smoothing profile that starts with none outstanding, the count of
    requests not yet answered never passes 1. *)
Theorem one_request_in_flight (ts : list (Task num)) (w : World num) (k : nat) :
  forallb steadyTask ts = true ->
  outstanding ts w 0 = Some k ->
  k <= 1.
Proof.
  intros Hst Hout.
  assert (Hgen : forall ts w j k,
             forallb steadyTask ts = true ->
             j <= 1 -> (j = 1 -> isBusyRef w = true) ->
             outstanding ts w j = Some k -> k <= 1).
  { clear. intros ts. induction ts as [|t ts IH]; intros w j k Hst Hj Hb Hout.
    - cbn in Hout. injection Hout as <-. exact Hj.
    - cbn [forallb] in Hst. apply andb_prop in Hst as [Ht Hts].
      destruct (outstanding_step t ts w j k Ht Hj Hb Hout)
        as (o & j' & _ & Hout' & Hj' & Hb').
      exact (IH (worldOf o) j' k Hts Hj' Hb' Hout'). }
  apply (Hgen ts w 0 k Hst); [lia | lia | exact Hout].
Qed.
End Pump.

(** The theorems at work: a session under way, a turn of the loop that
    sends a frame, and the reply, a hand of five landmarks; then a run of
    two turns around one reply. *)
Lemma throwing_reply_stalls_detection_witness :
  let w := loopTick Scene2.running in
  let r := Scene.seen (take 5 Scene.openHand) in
  onmessage 1000%float (Result (Some r)) w = TypeError w
  /\ exists w',
       runTasks (TaskMessage 1000%float (Result (Some r)) :: replicate 3 TaskTick) w
         = Some w'
       /\ isBusyRef w' = true
       /\ submits w' = false
       /\ gestureState w' = gestureState w
       /\ outstanding (TaskMessage 1000%float (Result (Some r)) :: replicate 3 TaskTick) w 1
          = Some 0.
Proof.
  apply (throwing_reply_stalls_detection 1000%float
           (Scene.seen (take 5 Scene.openHand)) (loopTick Scene2.running)
           0 (take 5 Scene.openHand) 3).
  - reflexivity.
  - reflexivity.
  - vm_compute; lia.
Defined.

Lemma one_request_in_flight_witness :
  outstanding [TaskTick; Scene.frame 1000%float Scene.openHand; TaskTick]
    Scene2.running 0 = Some 1
  /\ 1 <= 1.
Proof.
  split; [reflexivity|].
  apply (one_request_in_flight
           [TaskTick; Scene.frame 1000%float Scene.openHand; TaskTick]
           Scene2.running 1).
  - reflexivity.
  - reflexivity.
Defined.

(** Stopping and starting the camera while a request is in flight is
    what the theorem leaves out: the busy flag is cleared under the
    request, and the next turn sends a second one. *)
Remark restart_leaves_two_in_flight :
  outstanding [TaskTick; TaskStopCamera; TaskCameraReady; TaskTick] Scene2.running 0
  = Some 2.
Proof. reflexivity. Qed.

(** ** The loop and [stopCamera]

    A turn of [loop] is suspended at [await createImageBitmap], and
    [stopCamera] can run before it goes on. *)

Section StoppedLoop.
Context {num : Type}.

Lemma filter_handle_length (h : positive) (cbs : list positive) :
  length (List.filter (fun k => negb (Pos.eqb k h)) cbs) <= length cbs
  /\ (existsb (Pos.eqb h) cbs = true ->
      length (List.filter (fun k => negb (Pos.eqb k h)) cbs) < length cbs).
Proof.
  induction cbs as [|k cbs [IH1 IH2]]; [split; [reflexivity | discriminate]|].
  cbn [List.filter existsb]. rewrite (Pos.eqb_sym h k).
  destruct (Pos.eqb k h); cbn [negb orb length]; split; try lia.
  intros Hex. specialize (IH2 Hex). lia.
Qed.

Lemma stopped_step (e : LoopEvent) (l : Loop (num := num)) :
  isCameraActive (world l) = false -> isBusyRef (world l) = false ->
  isCameraActive (world (loopStep e l)) = false
  /\ isBusyRef (world (loopStep e l)) = false
  /\ posted (loopStep e l) + awaiting (loopStep e l) <= posted l + awaiting l
  /\ awaiting (loopStep e l) <= awaiting l
  /\ 2 * awaiting (loopStep e l) + length (callbacks (loopStep e l))
       + (if runsTurn e l then 1 else 0)
     <= 2 * awaiting l + length (callbacks l).
Proof.
  intros Hc Hb. destruct e as [h video | ok |]; cbn [loopStep runsTurn].
  - destruct (existsb (Pos.eqb h) (callbacks l)) eqn:Ex.
    + unfold loopStart, loopBegin. cbn [world]. rewrite Hc. cbn [negb callbacks awaiting posted world].
      pose proof (proj2 (filter_handle_length h (callbacks l)) Ex).
      repeat split; try assumption; lia.
    + repeat split; try assumption; lia.
  - destruct (awaiting l) as [|n] eqn:Ea; cbn [Nat.eqb negb].
    + rewrite Ea. repeat split; try assumption; lia.
    + destruct ok; cbn [loopResume requestAnimationFrame world rearm setIsBusyRef
                         isCameraActive isBusyRef posted awaiting callbacks];
        rewrite ?length_app; cbn [length]; repeat split; try assumption; lia.
  - cbn [world stopCamera isCameraActive isBusyRef posted awaiting callbacks].
    assert (length (cancelAnimationFrame (armed l) (callbacks l)) <= length (callbacks l)).
    { destruct (armed l) as [h|]; cbn [cancelAnimationFrame]; [|lia].
      apply filter_handle_length. }
    repeat split; lia.
Qed.

Lemma stopped_run (es : list LoopEvent) (l : Loop (num := num)) :
  isCameraActive (world l) = false -> isBusyRef (world l) = false ->
  isCameraActive (world (loopRun es l)) = false
  /\ isBusyRef (world (loopRun es l)) = false
  /\ posted (loopRun es l) + awaiting (loopRun es l) <= posted l + awaiting l
  /\ awaiting (loopRun es l) <= awaiting l
  /\ 2 * awaiting (loopRun es l) + length (callbacks (loopRun es l)) + turnsRun es l
     <= 2 * awaiting l + length (callbacks l).
Proof.
  revert l. induction es as [|e es IH]; intros l Hc Hb.
  - cbn [loopRun fold_left turnsRun]. repeat split; try assumption; lia.
  - destruct (stopped_step e l Hc Hb) as (Hc1 & Hb1 & Hp1 & Ha1 & Hm1).
    destruct (IH (loopStep e l) Hc1 Hb1) as (Hc2 & Hb2 & Hp2 & Ha2 & Hm2).
    change (loopRun (e :: es) l) with (loopRun es (loopStep e l)).
    cbn [turnsRun]. repeat split; try assumption; lia.
Qed.

Lemma turn_is_loopTick (h : positive) (l : Loop (num := num)) :
  existsb (Pos.eqb h) (callbacks l) = true -> awaiting l = 0 ->
  world (loopRun [FrameFires h true; BitmapSettles true] l) = loopTick (world l)
  /\ posted (loopRun [FrameFires h true; BitmapSettles true] l)
     = posted l + (if submits (world l) then 1 else 0).
Proof.
  destruct l as [w a cbs f aw p]. cbn [callbacks awaiting world posted].
  intros Hex ->. cbn [loopRun fold_left]. cbn [loopStep callbacks]. rewrite Hex.
  unfold loopStart, loopBegin, loopTick, submits. cbn [world].
  destruct w as [g pb st c cam ready busy req iw ih tm nt].
  cbn [isCameraActive isWorkerReady isBusyRef].
  destruct cam, ready, busy; cbn; (split; [reflexivity | lia]).
Qed.

(** From [stopCamera] on, and as long as the camera is not started again,
    whatever the browser still runs: the camera stays off and the busy
    flag stays cleared; no turn begins to wait, so that every callback
    that runs returns at once; at most one [detect] message is posted for
    each turn that was suspended at its [await] when the camera was
    stopped, and such a turn does post its message if its bitmap arrives,
    and asks for one more turn, with the camera off; the callbacks that
    run and the turns that go on are at most twice the suspended turns
    plus the callbacks that were left, after which nothing of the loop is
    left.  A turn that nothing interrupts is [loopTick], and posts a
    message exactly when [loopTick] submits a frame. *)
Theorem stopped_loop_finishes_waiting_turns
    (l : Loop (num := num)) (es : list LoopEvent) :
  (isCameraActive (world (loopRun es (loopStep CameraStops l))) = false
   /\ isBusyRef (world (loopRun es (loopStep CameraStops l))) = false
   /\ awaiting (loopRun es (loopStep CameraStops l)) <= awaiting l
   /\ posted (loopRun es (loopStep CameraStops l))
        + awaiting (loopRun es (loopStep CameraStops l))
      <= posted l + awaiting l
   /\ 2 * awaiting (loopRun es (loopStep CameraStops l))
        + length (callbacks (loopRun es (loopStep CameraStops l)))
        + turnsRun es (loopStep CameraStops l)
      <= 2 * awaiting l + length (callbacks l))
  /\ (forall n, awaiting l = S n ->
        posted (loopStep (BitmapSettles true) (loopStep CameraStops l)) = S (posted l)
        /\ awaiting (loopStep (BitmapSettles true) (loopStep CameraStops l)) = n
        /\ callbacks (loopStep (BitmapSettles true) (loopStep CameraStops l))
           = cancelAnimationFrame (armed l) (callbacks l) ++ [fresh l]
        /\ armed (loopStep (BitmapSettles true) (loopStep CameraStops l)) = Some (fresh l)
        /\ isCameraActive (world (loopStep (BitmapSettles true) (loopStep CameraStops l)))
           = false
        /\ loopStep (FrameFires (fresh l) true)
             (loopStep (BitmapSettles true) (loopStep CameraStops l))
           = {| world := world (loopStep (BitmapSettles true) (loopStep CameraStops l));
                armed := Some (fresh l);
                callbacks := List.filter (fun k => negb (Pos.eqb k (fresh l)))
                               (cancelAnimationFrame (armed l) (callbacks l));
                fresh := Pos.succ (fresh l); awaiting := n; posted := S (posted l) |})
  /\ (forall h, existsb (Pos.eqb h) (callbacks l) = true -> awaiting l = 0 ->
        world (loopRun [FrameFires h true; BitmapSettles true] l) = loopTick (world l)
        /\ posted (loopRun [FrameFires h true; BitmapSettles true] l)
           = posted l + (if submits (world l) then 1 else 0)).
Proof.
  split; [|split].
  - destruct (stopped_run es (loopStep CameraStops l)) as (Hc & Hb & Hp & Ha & Hm);
      [reflexivity | reflexivity |].
    change (posted (loopStep CameraStops l)) with (posted l) in Hp.
    change (awaiting (loopStep CameraStops l)) with (awaiting l) in Hp, Ha, Hm.
    change (callbacks (loopStep CameraStops l))
      with (cancelAnimationFrame (armed l) (callbacks l)) in Hm.
    assert (length (cancelAnimationFrame (armed l) (callbacks l)) <= length (callbacks l)).
    { destruct (armed l) as [h|]; cbn [cancelAnimationFrame]; [|lia].
      apply filter_handle_length. }
    repeat split; try assumption; lia.
  - intros n Ha. cbn [loopStep awaiting]. rewrite Ha.
    cbn [loopResume requestAnimationFrame posted awaiting callbacks armed world fresh
         rearm isCameraActive stopCamera].
    repeat split.
    rewrite existsb_app. cbn [existsb]. rewrite Pos.eqb_refl, orb_true_r.
    unfold loopStart, loopBegin.
    cbn [world rearm isCameraActive stopCamera negb]. f_equal.
    rewrite List.filter_app. cbn [List.filter]. rewrite Pos.eqb_refl. cbn [negb].
    apply app_nil_r.
  - intros h. apply turn_is_loopTick.
Qed.
End StoppedLoop.

(** The loop at work: the callback of handle 1 runs and waits for its
    bitmap, the camera is stopped, the bitmap arrives, and the callback the
    resumed turn asked for runs.  One message is posted, after the stop;
    then nothing of the loop is left. *)
Remark stop_during_capture_posts_once :
  let l := {| world := Scene2.running; armed := Some 1%positive;
              callbacks := [1%positive]; fresh := 2%positive;
              awaiting := 0; posted := 0 |} in
  posted (loopRun [FrameFires 1 true; CameraStops] l) = 0
  /\ awaiting (loopRun [FrameFires 1 true; CameraStops] l) = 1
  /\ posted (loopRun [FrameFires 1 true; CameraStops; BitmapSettles true] l) = 1
  /\ callbacks (loopRun [FrameFires 1 true; CameraStops; BitmapSettles true] l)
     = [2%positive]
  /\ posted (loopRun [FrameFires 1 true; CameraStops; BitmapSettles true;
                      FrameFires 2 true] l) = 1
  /\ callbacks (loopRun [FrameFires 1 true; CameraStops; BitmapSettles true;
                         FrameFires 2 true] l) = []
  /\ awaiting (loopRun [FrameFires 1 true; CameraStops; BitmapSettles true;
                        FrameFires 2 true] l) = 0.
Proof. repeat split; vm_compute; reflexivity. Qed.

(** ** The log and the frame counter *)

Lemma take_cons_take {A} (n : nat) (a : A) (l : list A) :
  take (S n) (a :: take (S n) l) = take (S n) (a :: l).
Proof.
  rewrite !firstn_cons, take_take. do 2 f_equal. lia.
Qed.

Lemma addLog_take (e : LogEntry) (logs : list LogEntry) :
  addLog (timestamp e) (message e) (logType e) (take 50 logs) = take 50 (e :: logs).
Proof.
  destruct e as [stamp msg type]. exact (take_cons_take 49 _ logs).
Qed.

Lemma addLogs_take (calls logs : list LogEntry) :
  addLogs calls (take 50 logs) = take 50 (rev calls ++ logs).
Proof.
  revert logs. induction calls as [|e calls IH]; intros logs; [reflexivity|].
  change (addLogs calls (addLog (timestamp e) (message e) (logType e) (take 50 logs))
          = take 50 ((rev calls ++ [e]) ++ logs)).
  rewrite addLog_take, IH, <- app_assoc. reflexivity.
Qed.

(** The log holds the newest fifty entries, newest first: after any run
    of [addLog] calls from the empty log, it is the first fifty of the
    calls read backwards, so it never holds more than fifty entries, and
    once fifty calls have been made it holds exactly fifty. *)
Theorem log_keeps_newest_fifty (calls : list LogEntry) :
  addLogs calls [] = take 50 (rev calls)
  /\ length (addLogs calls []) = min 50 (length calls).
Proof.
  assert (E : addLogs calls [] = take 50 (rev calls)).
  { change (@nil LogEntry) with (take 50 (@nil LogEntry)) at 1.
    rewrite addLogs_take, app_nil_r. reflexivity. }
  split; [exact E|].
  rewrite E, length_take, length_rev. reflexivity.
Qed.

Section FrameCounter.
Context {num : Type} `{Number num} `{NumberSqrt num}.

(** The frame counter over one window: if a run of replies comes less
    than a second after the last roll-over and the next one a second or
    more after it, that one publishes as [fps] the number of replies
    counted since the roll-over, itself included, sets the count back to
    0 and starts the next window at its own time. *)
Theorem fps_counts_replies_of_the_window
    (ts : list num) (t : num) (s : FpsState num) :
  Forall (fun u => ge (sub u (lastFpsTime s)) (fromZ 1000) = false) ts ->
  ge (sub t (lastFpsTime s)) (fromZ 1000) = true ->
  fold_left (fun s u => updateFps u s) (ts ++ [t]) s
  = {| fps := frameCount s + length ts + 1; frameCount := 0; lastFpsTime := t |}.
Proof.
  revert s. induction ts as [|u ts IH]; intros s Hall Ht.
  - cbn [app fold_left length]. unfold updateFps. rewrite Ht.
    f_equal. lia.
  - apply Forall_cons in Hall as [Hu Hall].
    cbn [app fold_left length].
    assert (E : updateFps u s
                = {| fps := fps s; frameCount := S (frameCount s);
                     lastFpsTime := lastFpsTime s |}).
    { unfold updateFps. rewrite Hu. reflexivity. }
    rewrite E, IH; [|exact Hall|exact Ht].
    cbn [frameCount]. f_equal. lia.
Qed.
End FrameCounter.

(** The theorem at work: replies at 100, 500 and 1000 milliseconds. *)
Lemma fps_counts_replies_of_the_window_witness :
  let s := {| fps := 0; frameCount := 0; lastFpsTime := 0%float |} in
  fold_left (fun s u => updateFps u s) ([100%float; 500%float] ++ [1000%float]) s
  = {| fps := frameCount s + length [100%float; 500%float] + 1;
       frameCount := 0; lastFpsTime := 1000%float |}.
Proof.
  apply (fps_counts_replies_of_the_window [100%float; 500%float] 1000%float
           {| fps := 0; frameCount := 0; lastFpsTime := 0%float |}).
  - apply Forall_cons; split; [reflexivity|].
    apply Forall_cons; split; [reflexivity | constructor].
  - reflexivity.
Defined.

(** ** The bridge to mouse events *)

Section BridgePresses.
Context {num Element : Type} `{EqDecision Element}.

Lemma presses_app (k : Z) (a c : list (MouseEvent num Element)) (st : list Element) :
  presses k (a ++ c) st
  = match presses k a st with Some st' => presses k c st' | None => None end.
Proof.
  revert st. induction a as [|e a IH]; intros st; [reflexivity|].
  cbn [app presses].
  destruct (bool_decide (button e = k) && bool_decide (evType e = "mousedown"));
    [apply IH|].
  destruct (bool_decide (button e = k) && bool_decide (evType e = "mouseup"));
    [|apply IH].
  destruct st as [|t st]; [reflexivity|].
  destruct (bool_decide (t = evTarget e)); [apply IH | reflexivity].
Qed.

Lemma bridge_step (elementFromPoint : num -> num -> option Element)
    (g : GestureState num) (b : Bridge Element) :
  presses 0 (processGestureInteraction elementFromPoint g b).2 (held (dragTarget b))
  = Some (held (dragTarget (processGestureInteraction elementFromPoint g b).1))
  /\ presses 1 (processGestureInteraction elementFromPoint g b).2
       (held (middleDragTarget b))
     = Some (held (middleDragTarget (processGestureInteraction elementFromPoint g b).1)).
Proof.
  unfold processGestureInteraction.
  destruct (negb (active (cursor g))); [split; reflexivity|].
  destruct (elementFromPoint (cx (cursor g)) (cy (cursor g))) as [target|];
    [|split; reflexivity].
  destruct b as [[t|] [u|]];
    cbn [dragTarget middleDragTarget];
    destruct (truthy (events g) "CLICK"), (truthy (events g) "DRAG_START"),
      (truthy (events g) "DRAG_END"), (truthy (events g) "DRAG_MIDDLE_START"),
      (truthy (events g) "DRAG_MIDDLE_END"), (truthy (events g) "DOUBLE_CLICK");
    split; vm_compute;
    repeat match goal with
      | |- context [match ?d with left _ => _ | right _ => _ end] =>
          destruct d as [?|Hn]; [|exfalso; apply Hn; reflexivity]
      end;
    reflexivity.
Qed.
End BridgePresses.

Section BridgeRuns.
Context {num Element : Type} `{EqDecision Element}.

(** Over any run of the bridge, on any gesture states and whatever is
    under the cursor, the presses it dispatches are matched, button by
    button: every [mouseup] of the left button goes to the target of the
    innermost [mousedown] of the left button not yet released, and what
    is left pressed at the end is the drag target the bridge holds, if it
    holds one; the same for the middle button and the middle drag
    target. *)
Theorem bridge_presses_are_matched
    (states : list ((num -> num -> option Element) * GestureState num))
    (b : Bridge Element) :
  presses 0 (bridgeRun states b).2 (held (dragTarget b))
  = Some (held (dragTarget (bridgeRun states b).1))
  /\ presses 1 (bridgeRun states b).2 (held (middleDragTarget b))
     = Some (held (middleDragTarget (bridgeRun states b).1)).
Proof.
  revert b. induction states as [|g states IH]; intros b; [split; reflexivity|].
  cbn [bridgeRun fst snd]. rewrite !presses_app.
  destruct (bridge_step g.1 g.2 b) as [-> ->].
  apply IH.
Qed.
End BridgeRuns.

Section BridgeAndInterpreter.
Context {num Element : Type} `{Number num} `{NumberSqrt num} `{EqDecision Element}.

(** The bridge does not see the loss of the hand: for the state that
    [handleResult] leaves when no hand is selected, and for the state
    [stopCamera] leaves, it dispatches nothing and keeps its two drag
    targets, so a press it holds stays open. *)
Theorem bridge_ignores_hand_loss
    (elementFromPoint : num -> num -> option Element)
    (now : num) (r : GestureResult num) (w : World num) (b : Bridge Element) :
  selectHand (config w) r = None ->
  processGestureInteraction elementFromPoint
    (gestureState (worldOf (handleResult now (Some r) w))) b = (b, [])
  /\ processGestureInteraction elementFromPoint (gestureState (stopCamera w)) b
     = (b, []).
Proof.
  intros E. rewrite (handleResult_reset now r w E). split; reflexivity.
Qed.
End BridgeAndInterpreter.

(** The theorem at work: a drag held on element 7, and the hand gone. *)
Lemma bridge_ignores_hand_loss_witness :
  let b := {| dragTarget := Some 7; middleDragTarget := None |} in
  processGestureInteraction (fun _ _ => Some 3)
    (gestureState (worldOf (handleResult 1400%float (Some Scene.nothing) Scene.dragging))) b
  = (b, [])
  /\ processGestureInteraction (fun _ _ => Some 3)
       (gestureState (stopCamera Scene.dragging)) b
     = (b, []).
Proof.
  apply (bridge_ignores_hand_loss (fun _ _ => Some 3) 1400%float Scene.nothing
           Scene.dragging {| dragTarget := Some 7; middleDragTarget := None |}).
  reflexivity.
Defined.

(** ** The scrolling panel at binary64 *)

Section ScrollBounds64.
Local Open Scope float_scope.

(** [Math.max(0, Math.min(v, limit))] *)
Lemma clampScroll_floor (v limit : float) : nanOrAbove 0 (clampScroll v limit).
Proof.
  unfold clampScroll, nanOrAbove. change (fromZ 0) with 0.
  cbn [Math_max Math_min float_Number].
  destruct (PrimFloat.is_nan (F.min v limit)) eqn:Hm.
  - left. apply Fmax_nan. auto.
  - right. apply (Fmax_ub 0 (F.min v limit) eq_refl Hm).
Qed.

Lemma clampScroll_within (v limit : float) :
  (0 <=? limit) = true -> nanOrWithin 0 limit (clampScroll v limit).
Proof.
  intros Hl. destruct (b64_leb_not_nan _ _ Hl) as [_ Hnl].
  unfold clampScroll, nanOrWithin. change (fromZ 0) with 0.
  cbn [Math_max Math_min float_Number].
  destruct (PrimFloat.is_nan v) eqn:Hn.
  - left. apply Fmax_nan. right. apply Fmin_nan. auto.
  - pose proof (Fmin_not_nan v limit Hn Hnl) as Hm. right.
    split; [apply (Fmax_ub 0 (F.min v limit) eq_refl Hm)|].
    destruct (Fmax_sel 0 (F.min v limit)) as [-> | ->]; [exact Hl|].
    apply (Fmin_lb v limit Hn Hnl).
Qed.

Lemma Fmax_floor (d : float) : nanOrAbove 0 (F.max 0 d).
Proof.
  unfold nanOrAbove. destruct (PrimFloat.is_nan d) eqn:Hd.
  - left. apply Fmax_nan. auto.
  - right. apply (Fmax_ub 0 d eq_refl Hd).
Qed.

Lemma scrollStep_floor (s : Scroll float) (e : ScrollEvent float) :
  nanOrAbove 0 (scrollTop s) -> nanOrAbove 0 (maxScroll s) ->
  nanOrAbove 0 (scrollTop (scrollStep s e)) /\ nanOrAbove 0 (maxScroll (scrollStep s e)).
Proof.
  intros Ht Hm. destruct e as [y0|y0| | |dy|sh ch]; cbn [scrollStep].
  - split; assumption.
  - unfold onDragMove. destruct (negb (grabbed s)); [split; assumption|].
    cbn [scrollTop maxScroll]. split; [apply clampScroll_floor | exact Hm].
  - unfold onStopDrag. destruct (grabbed s); split; assumption.
  - unfold momentumLoop. destruct (grabbed s); [split; assumption|].
    destruct (lt _ _); [split; assumption|].
    change (fromZ 0) with 0. unfold gt. cbn [lt add float_Number].
    destruct (scrollTop s + velocity s <? 0) eqn:E1; cbn [scrollTop maxScroll].
    + split; [right; reflexivity | exact Hm].
    + destruct (maxScroll s <? scrollTop s + velocity s) eqn:E2; cbn [scrollTop maxScroll].
      * split; assumption.
      * split; [|exact Hm]. unfold nanOrAbove.
        destruct (PrimFloat.is_nan (scrollTop s + velocity s)) eqn:Hn; [left; reflexivity|].
        right. apply b64_leb_total; [exact Hn | reflexivity | exact E1].
  - unfold onWheel. cbn [scrollTop maxScroll]. split; [apply clampScroll_floor | exact Hm].
  - unfold updateMaxScroll. cbn [scrollTop maxScroll]. split; [exact Ht|].
    change (fromZ 0) with 0. apply Fmax_floor.
Qed.

Lemma scrollStep_within (s : Scroll float) (e : ScrollEvent float) :
  keepsLimit e = true ->
  (0 <=? maxScroll s) = true -> scrollWithin s ->
  scrollWithin (scrollStep s e) /\ maxScroll (scrollStep s e) = maxScroll s.
Proof.
  intros Hk Hm Hs. destruct (b64_leb_not_nan _ _ Hm) as [_ Hnm].
  unfold scrollWithin in *.
  destruct e as [y0|y0| | |dy|sh ch]; try discriminate Hk; cbn [scrollStep].
  - split; [exact Hs | reflexivity].
  - unfold onDragMove. destruct (negb (grabbed s)); [split; [exact Hs | reflexivity]|].
    cbn [scrollTop maxScroll]. split; [apply clampScroll_within, Hm | reflexivity].
  - unfold onStopDrag. destruct (grabbed s); (split; [exact Hs | reflexivity]).
  - unfold momentumLoop. destruct (grabbed s); [split; [exact Hs | reflexivity]|].
    destruct (lt _ _); [split; [exact Hs | reflexivity]|].
    change (fromZ 0) with 0. unfold gt. cbn [lt add float_Number].
    destruct (scrollTop s + velocity s <? 0) eqn:E1; cbn [scrollTop maxScroll].
    + split; [|reflexivity]. right. split; [reflexivity | exact Hm].
    + destruct (maxScroll s <? scrollTop s + velocity s) eqn:E2; cbn [scrollTop maxScroll].
      * split; [|reflexivity]. right. split; [exact Hm | apply b64_leb_refl, Hnm].
      * split; [|reflexivity]. unfold nanOrWithin.
        destruct (PrimFloat.is_nan (scrollTop s + velocity s)) eqn:Hn; [left; reflexivity|].
        right. split; apply b64_leb_total; assumption || reflexivity.
  - unfold onWheel. cbn [scrollTop maxScroll].
    split; [apply clampScroll_within, Hm | reflexivity].
Qed.

(** The scroll offset stays within its bounds at binary64, NaN apart.
    From a state whose offset and limit are each NaN or at least 0, every
    run of drags, momentum turns, wheel events and resizes leaves them so.
    A run without a resize from a limit that is at least 0 leaves the
    limit as it was and, if the offset was NaN or between 0 and the
    limit, leaves it so.  A resize does not clamp the offset again; the
    next wheel event does. *)
Theorem scroll_offset_stays_in_range (es : list (ScrollEvent float)) (s : Scroll float) :
  nanOrAbove 0 (scrollTop s) -> nanOrAbove 0 (maxScroll s) ->
  (nanOrAbove 0 (scrollTop (scrollRun es s)) /\ nanOrAbove 0 (maxScroll (scrollRun es s)))
  /\ (forallb keepsLimit es = true -> (0 <=? maxScroll s) = true -> scrollWithin s ->
      scrollWithin (scrollRun es s) /\ maxScroll (scrollRun es s) = maxScroll s)
  /\ (forall dy, (0 <=? maxScroll (scrollRun es s)) = true ->
      scrollWithin (onWheel dy (scrollRun es s))).
Proof.
  intros Ht Hm. split; [|split].
  - revert s Ht Hm. induction es as [|e es IH]; intros s Ht Hm; [auto|].
    cbn [scrollRun fold_left]. destruct (scrollStep_floor s e Ht Hm) as [Ht' Hm'].
    apply (IH (scrollStep s e) Ht' Hm').
  - clear Ht Hm. revert s. induction es as [|e es IH]; intros s Hk Hm Hs.
    + cbn. auto.
    + cbn [forallb] in Hk. apply andb_prop in Hk as [He Hes].
      cbn [scrollRun fold_left].
      destruct (scrollStep_within s e He Hm Hs) as [Hs' Heq].
      destruct (IH (scrollStep s e) Hes) as [Hin Hmax]; [rewrite Heq; exact Hm | exact Hs'|].
      split; [exact Hin|]. unfold scrollRun in Hmax. congruence.
  - intros dy Hl. unfold scrollWithin, onWheel. cbn [scrollTop maxScroll].
    apply clampScroll_within, Hl.
Qed.
End ScrollBounds64.

(** The theorem at work: a grab, a drag up and a throw, on a panel that
    can scroll by 300. *)
Lemma scroll_offset_stays_in_range_witness :
  let s := {| scrollTop := 0%float; maxScroll := 300%float; velocity := 0%float;
              lastY := 0%float; grabbed := false |} in
  let es := [StartDrag 200%float; DragMove 150%float; StopDrag; MomentumTurn] in
  (nanOrAbove 0 (scrollTop (scrollRun es s)) /\ nanOrAbove 0 (maxScroll (scrollRun es s)))
  /\ (forallb keepsLimit es = true -> PrimFloat.leb 0 (maxScroll s) = true ->
      scrollWithin s ->
      scrollWithin (scrollRun es s) /\ maxScroll (scrollRun es s) = maxScroll s)
  /\ (forall dy, PrimFloat.leb 0 (maxScroll (scrollRun es s)) = true ->
      scrollWithin (onWheel dy (scrollRun es s))).
Proof.
  apply (scroll_offset_stays_in_range
           [StartDrag 200%float; DragMove 150%float; StopDrag; MomentumTurn]
           {| scrollTop := 0%float; maxScroll := 300%float; velocity := 0%float;
              lastY := 0%float; grabbed := false |}).
  - right; reflexivity.
  - right; reflexivity.
Defined.

(** What a resize does: the limit shrinks under an offset that stays. *)
Remark resize_leaves_offset_beyond_limit :
  let s := {| scrollTop := 250%float; maxScroll := 300%float; velocity := 0%float;
              lastY := 0%float; grabbed := false |} in
  scrollTop (updateMaxScroll 500%float 400%float s) = 250%float
  /\ maxScroll (updateMaxScroll 500%float 400%float s) = 100%float.
Proof. split; reflexivity. Qed.

(** ** The middle pinch *)

Section MiddleFamily.
Context {num : Type} `{Number num} `{NumberSqrt num}.

Lemma machine_middle_family (now : num) (pinch middle act : bool) (m : Machine num) :
  mEvents m = ∅ ->
  isMiddleDragging (mSTATE (gestureMachine now pinch middle act m)) = middle
  /\ flag (mEvents (gestureMachine now pinch middle act m)) "DRAG_MIDDLE_START"
     = negb (isMiddleDragging (mSTATE m)) && middle
  /\ flag (mEvents (gestureMachine now pinch middle act m)) "DRAG_MIDDLE_MOVE"
     = isMiddleDragging (mSTATE m) && middle
  /\ flag (mEvents (gestureMachine now pinch middle act m)) "DRAG_MIDDLE_END"
     = isMiddleDragging (mSTATE m) && negb middle
  /\ (middle = true -> mMode (gestureMachine now pinch middle act m) = ModeRotate).
Proof.
  destruct m as [[lp cc ct ds dr md lpos] mo ev tq nx]; machine_simpl; intros ->.
  unfold gestureMachine, pointerOrIdle, middlePinchBranch, endRotate,
    indexPinchBranch, releaseBranch, cancelClickTimer, armClickTimer.
  destruct middle, pinch, md, dr; machine_simpl;
    repeat (match goal with
            | |- context [if ?b then _ else _] => destruct b
            | |- context [match ?o with Some _ => _ | None => _ end] => destruct o
            end; machine_simpl);
    vm_compute; repeat split; solve [reflexivity | discriminate].
Qed.

(** The middle drag follows the middle pinch test call by call: after
    every call on a tracked hand the flag [isMiddleDragging] is the value
    of the test ([distance(middle tip, thumb tip) < 0.05]) on that hand;
    [DRAG_MIDDLE_START] is set when the test is true and the flag was
    unset, [DRAG_MIDDLE_MOVE] when it is true and the flag was set,
    [DRAG_MIDDLE_END] when it is false and the flag was set; and while the
    test is true the mode is [rotate]. *)
Theorem middle_drag_follows_middle_pinch
    (now : num) (r : GestureResult num) (w : World num) (h : list (Landmark num)) :
  tracks (config w) r h ->
  exists w', handleResult now (Some r) w = Normal w'
    /\ isMiddleDragging (STATE w') = isMiddlePinch h
    /\ flag (events (gestureState w')) "DRAG_MIDDLE_START"
       = negb (isMiddleDragging (STATE w)) && isMiddlePinch h
    /\ flag (events (gestureState w')) "DRAG_MIDDLE_MOVE"
       = isMiddleDragging (STATE w) && isMiddlePinch h
    /\ flag (events (gestureState w')) "DRAG_MIDDLE_END"
       = isMiddleDragging (STATE w) && negb (isMiddlePinch h)
    /\ (isMiddlePinch h = true -> mode (cursor (gestureState w')) = ModeRotate).
Proof.
  intros Ht.
  destruct (handle_step now r w h Ht) as (w' & act & Hr & HS & Hmo & Hev & _).
  exists w'. split; [exact Hr|].
  rewrite HS, Hmo, Hev.
  apply (machine_middle_family now (isPinch h) (isMiddlePinch h) act
           (machineIn w (cursor (gestureState w)))).
  reflexivity.
Qed.

(** An index pinch that a rotate interrupts is a click when the rotate
    ends.  With the hold timer running (a pinch seen, no drag started, no
    click pending), any number of calls with the middle pinch test true
    leave the timer's start as it is, in mode [rotate] and with no
    [CLICK]; the first call after them with neither pinch sets [CLICK],
    however long the rotate lasted, and stops the timer. *)
Theorem pinch_before_rotate_clicks_after
    (rot : list (num * GestureResult num)) (back : num * GestureResult num)
    (w : World num) :
  isDragging (STATE w) = false ->
  gt (dragStartTime (STATE w)) (fromZ 0) = true ->
  clickCount (STATE w) = 0 ->
  Forall (fun f => exists p, frameWith (config w) p true f) rot ->
  frameWith (config w) false false back ->
  exists ws w',
    runTrace (map frameTask (rot ++ [back])) w = ws ++ [w']
    /\ length ws = length rot
    /\ Forall (fun v => mode (cursor (gestureState v)) = ModeRotate
                        /\ dragStartTime (STATE v) = dragStartTime (STATE w)
                        /\ flag (events (gestureState v)) "CLICK" = false) ws
    /\ flag (events (gestureState w')) "CLICK" = true
    /\ clickCount (STATE w') = 1
    /\ dragStartTime (STATE w') = fromZ 0.
Proof.
  revert w. induction rot as [|f rot IH]; intros w Hd Hg Hcc Hrot Hback.
  - destruct Hback as (h & Ht & Hp & Hm).
    destruct back as [now r]. cbn [fst snd] in *.
    destruct (frame_step now r w h Ht) as (w' & act & Hrun & HS & Hmo & Hev & _).
    rewrite Hp, Hm in *.
    destruct (machine_release_first now act (machineIn w (cursor (gestureState w)))
                Hd Hg Hcc eq_refl) as (Hs0 & _ & _ & Hc1 & _ & _ & Hcl & _).
    exists [], w'. cbn [app map runTrace]. rewrite Hrun. cbn [worldOf runTrace app length].
    split; [reflexivity|]. split; [reflexivity|]. split; [constructor|].
    rewrite Hev, HS. auto.
  - apply Forall_cons in Hrot as [(p & h & Ht & Hp & Hm) Hrot].
    destruct f as [now r]. cbn [fst snd] in *.
    destruct (frame_step now r w h Ht)
      as (v & act & Hrun & HS & Hmo & Hev & _ & Hcfg & _).
    rewrite Hp, Hm in *.
    destruct (machine_middle now p act (machineIn w (cursor (gestureState w))))
      as (Emode & Eev & _ & Edrag & Estart & Ecount & _).
    assert (Hsv : dragStartTime (STATE v) = dragStartTime (STATE w))
      by (rewrite HS, Estart; reflexivity).
    destruct (IH v) as (ws & w' & Htrace & Hlen & Hall & Hrest).
    { rewrite HS, Edrag. exact Hd. }
    { rewrite Hsv. exact Hg. }
    { rewrite HS, Ecount. exact Hcc. }
    { rewrite Hcfg. exact Hrot. }
    { rewrite Hcfg. exact Hback. }
    exists (v :: ws), w'.
    cbn [app map runTrace]. rewrite Hrun. cbn [worldOf]. rewrite Htrace.
    cbn [length app].
    split; [reflexivity|]. split; [congruence|].
    split; [|exact Hrest].
    apply Forall_cons. split.
    + split; [rewrite Hmo; exact Emode|]. split; [exact Hsv|].
      rewrite Hev, Eev.
      cbn [machineIn mEvents mSTATE].
      destruct (isMiddleDragging (STATE w)); reflexivity.
    + eapply Forall_impl; [exact Hall|].
      intros u (Hu1 & Hu2 & Hu3). rewrite Hu2, Hsv. auto.
Qed.
End MiddleFamily.

(** The theorems at work: a frame with both pinches after a pinch; and a
    pinch, a rotate until two seconds later, and an open hand. *)
Lemma middle_drag_follows_middle_pinch_witness :
  exists w', handleResult 1100%float (Some (Scene.seen Scene.bothHand)) Scene.pressing
             = Normal w'
    /\ isMiddleDragging (STATE w') = isMiddlePinch Scene.bothHand
    /\ flag (events (gestureState w')) "DRAG_MIDDLE_START"
       = negb (isMiddleDragging (STATE Scene.pressing)) && isMiddlePinch Scene.bothHand
    /\ flag (events (gestureState w')) "DRAG_MIDDLE_MOVE"
       = isMiddleDragging (STATE Scene.pressing) && isMiddlePinch Scene.bothHand
    /\ flag (events (gestureState w')) "DRAG_MIDDLE_END"
       = isMiddleDragging (STATE Scene.pressing) && negb (isMiddlePinch Scene.bothHand)
    /\ (isMiddlePinch Scene.bothHand = true ->
        mode (cursor (gestureState w')) = ModeRotate).
Proof.
  apply (middle_drag_follows_middle_pinch 1100%float (Scene.seen Scene.bothHand)
           Scene.pressing Scene.bothHand).
  eexists 0, _, _; repeat split; reflexivity.
Defined.

Lemma pinch_before_rotate_clicks_after_witness :
  exists ws w',
    runTrace (map frameTask
                ([(1100%float, Scene.seen Scene.bothHand);
                  (3000%float, Scene.seen Scene.bothHand)]
                 ++ [(3100%float, Scene.seen Scene.openHand)]))
      Scene.pressing = ws ++ [w']
    /\ length ws = length [(1100%float, Scene.seen Scene.bothHand);
                           (3000%float, Scene.seen Scene.bothHand)]
    /\ Forall (fun v => mode (cursor (gestureState v)) = ModeRotate
                        /\ dragStartTime (STATE v) = dragStartTime (STATE Scene.pressing)
                        /\ flag (events (gestureState v)) "CLICK" = false) ws
    /\ flag (events (gestureState w')) "CLICK" = true
    /\ clickCount (STATE w') = 1
    /\ dragStartTime (STATE w') = fromZ 0.
Proof.
  apply (pinch_before_rotate_clicks_after
           [(1100%float, Scene.seen Scene.bothHand);
            (3000%float, Scene.seen Scene.bothHand)]
           (3100%float, Scene.seen Scene.openHand) Scene.pressing).
  - reflexivity.
  - reflexivity.
  - reflexivity.
  - apply Forall_cons; split; [exists true; scene_frame Scene.bothHand|].
    apply Forall_cons; split; [exists true; scene_frame Scene.bothHand | constructor].
  - scene_frame Scene.openHand.
Defined.

(** ** Drawing the landmarks *)

Section DrawingLandmarks.
Context {num : Type} `{Number num}.

Lemma drawConnections_ok (width height : num) (hand : list (Landmark num))
    (cs : list (nat * nat)) (ops : list (CanvasOp num)) :
  Forall (fun c => c.1 < length hand /\ c.2 < length hand) cs ->
  exists segs, drawConnections width height hand cs ops = Drawn (ops ++ segs)
    /\ Forall2 (fun c op => segmentOf width height hand c = Some op) cs segs.
Proof.
  intros Hall. revert ops. induction Hall as [|c cs [H1 H2] _ IH]; intros ops.
  - exists []. rewrite app_nil_r. split; [reflexivity | constructor].
  - destruct (lookup_below hand c.1 H1) as [p1 E1].
    destruct (lookup_below hand c.2 H2) as [p2 E2].
    cbn [drawConnections]. rewrite E1, E2.
    destruct (IH (ops ++ [Segment (mul (x p1) width) (mul (y p1) height)
                                  (mul (x p2) width) (mul (y p2) height)]))
      as (segs & -> & Hsegs).
    eexists (_ :: segs). rewrite <- app_assoc. split; [reflexivity|].
    constructor; [|exact Hsegs]. unfold segmentOf. rewrite E1, E2. reflexivity.
Qed.

Lemma drawConnections_fail (width height : num) (hand : list (Landmark num))
    (cs : list (nat * nat)) (ops : list (CanvasOp num)) :
  Exists (fun c => length hand <= c.1 \/ length hand <= c.2) cs ->
  exists segs, drawConnections width height hand cs ops = DrawingThrew (ops ++ segs)
    /\ length segs < length cs
    /\ forallb isSegment segs = true.
Proof.
  intros Hex. revert ops. induction cs as [|c cs IH]; intros ops.
  - apply Exists_nil in Hex. destruct Hex.
  - cbn [drawConnections].
    destruct (hand !! c.1) as [p1|] eqn:E1;
      [destruct (hand !! c.2) as [p2|] eqn:E2|].
    + apply Exists_cons in Hex as [[Hc | Hc] | Hex].
      * apply lookup_ge_None in Hc. congruence.
      * apply lookup_ge_None in Hc. congruence.
      * destruct (IH Hex (ops ++ [Segment (mul (x p1) width) (mul (y p1) height)
                                          (mul (x p2) width) (mul (y p2) height)]))
          as (segs & -> & Hlen & Hseg).
        eexists (_ :: segs). rewrite <- app_assoc. split; [reflexivity|].
        cbn [length forallb isSegment andb]. split; [lia | exact Hseg].
    + exists []. rewrite app_nil_r. cbn [length]. split; [reflexivity|].
      split; [lia | reflexivity].
    + exists []. rewrite app_nil_r. cbn [length]. split; [reflexivity|].
      split; [lia | reflexivity].
Qed.

Lemma connections_below_21 : Forall (fun c : nat * nat => c.1 < 21 /\ c.2 < 21) HAND_CONNECTIONS.
Proof. unfold HAND_CONNECTIONS. repeat (apply Forall_cons; split; [cbn; lia|]). constructor. Qed.

Lemma drawHand_ok (width height : num) (hand : list (Landmark num))
    (ops : list (CanvasOp num)) :
  21 <= length hand ->
  exists drawn, drawHand width height hand ops = Drawn (ops ++ drawn)
    /\ drawsHand width height hand drawn.
Proof.
  intros Hh. unfold drawHand.
  destruct (drawConnections_ok width height hand HAND_CONNECTIONS ops)
    as (segs & -> & Hsegs).
  { eapply Forall_impl; [exact connections_below_21|]. cbn. intros c [? ?]. lia. }
  exists (segs ++ map (dotOf width height) hand).
  rewrite <- app_assoc. split; [reflexivity|].
  exists segs. split; [reflexivity | exact Hsegs].
Qed.

Lemma drawHands_ok (width height : num) (hands : list (list (Landmark num)))
    (ops : list (CanvasOp num)) :
  Forall (fun hand => 21 <= length hand) hands ->
  exists per, drawHands width height hands ops = Drawn (ops ++ concat per)
    /\ Forall2 (drawsHand width height) hands per.
Proof.
  intros Hall. revert ops. induction Hall as [|hand hands Hh _ IH]; intros ops.
  - exists []. cbn [concat]. rewrite app_nil_r. split; [reflexivity | constructor].
  - cbn [drawHands].
    destruct (drawHand_ok width height hand ops Hh) as (drawn & -> & Hd).
    destruct (IH (ops ++ drawn)) as (per & -> & Hper).
    exists (drawn :: per). cbn [concat]. rewrite <- app_assoc.
    split; [reflexivity | constructor; assumption].
Qed.

Lemma drawsHand_length (width height : num) (hand : list (Landmark num))
    (ops : list (CanvasOp num)) :
  drawsHand width height hand ops -> length ops = 21 + length hand.
Proof.
  intros (segs & -> & Hsegs). apply Forall2_length in Hsegs.
  rewrite length_app, length_map, <- Hsegs. reflexivity.
Qed.

(** When every hand has its 21 landmarks, [drawLandmarks] does not throw:
    it clears the canvas and then draws the hands in order, each as the
    segments of [HAND_CONNECTIONS], in order, from the first landmark of
    the connection to the second, both scaled to the canvas, followed by
    one dot at each landmark, in order: 21 segments and as many dots as
    landmarks for each hand. *)
Theorem drawLandmarks_draws_every_hand
    (width height : num) (hands : list (list (Landmark num))) :
  Forall (fun hand => 21 <= length hand) hands ->
  exists per : list (list (CanvasOp num)),
    drawLandmarks width height hands = Drawn (ClearRect :: concat per)
    /\ Forall2 (drawsHand width height) hands per
    /\ length (concat per) = 21 * length hands + length (concat hands).
Proof.
  intros Hall. unfold drawLandmarks.
  destruct (drawHands_ok width height hands [ClearRect] Hall) as (per & -> & Hper).
  exists per. split; [reflexivity|]. split; [exact Hper|].
  clear Hall. induction Hper as [|hand ops hands per Hd _ IH]; [reflexivity|].
  cbn [concat length]. rewrite !length_app, IH, (drawsHand_length _ _ _ _ Hd). lia.
Qed.

(** A hand with fewer than 21 landmarks makes [drawLandmarks] throw: the
    hands before it are drawn in full, of the short hand only segments
    are drawn, fewer than 21 and no dot, and the hands after it are not
    drawn. *)
Theorem drawLandmarks_throws_on_short_hand
    (width height : num) (good rest : list (list (Landmark num)))
    (short : list (Landmark num)) :
  Forall (fun hand => 21 <= length hand) good ->
  length short < 21 ->
  exists before segs,
    drawLandmarks width height good = Drawn before
    /\ drawLandmarks width height (good ++ short :: rest)
       = DrawingThrew (before ++ segs)
    /\ length segs < 21
    /\ forallb isSegment segs = true.
Proof.
  intros Hall Hshort. unfold drawLandmarks.
  generalize ([ClearRect] : list (CanvasOp num)). intros ops. revert ops.
  induction Hall as [|hand good Hh Hgood IH]; intros ops.
  - cbn [app drawHands]. unfold drawHand.
    destruct (drawConnections_fail width height short HAND_CONNECTIONS ops)
      as (segs & -> & Hlen & Hseg).
    { apply Exists_exists. exists (19, 20). split; [|cbn; lia].
      unfold HAND_CONNECTIONS.
      repeat (apply elem_of_cons; first [left; reflexivity | right]). }
    exists ops, segs. split; [reflexivity|]. split; [reflexivity|].
    split; [exact Hlen | exact Hseg].
  - cbn [app drawHands]. unfold drawHand.
    destruct (drawConnections_ok width height hand HAND_CONNECTIONS ops)
      as (segs & -> & _).
    { eapply Forall_impl; [exact connections_below_21|]. cbn. intros c [? ?]. lia. }
    apply IH.
Qed.
End DrawingLandmarks.

(** The theorems at work: one hand of the scene on a canvas of 640 by
    480; then the same with a hand of five landmarks after it. *)
Lemma drawLandmarks_draws_every_hand_witness :
  exists per : list (list (CanvasOp float)),
    drawLandmarks 640%float 480%float [Scene.openHand] = Drawn (ClearRect :: concat per)
    /\ Forall2 (drawsHand 640%float 480%float) [Scene.openHand] per
    /\ length (concat per) = 21 * length [Scene.openHand] + length (concat [Scene.openHand]).
Proof.
  apply (drawLandmarks_draws_every_hand 640%float 480%float [Scene.openHand]).
  apply Forall_cons; split; [vm_compute; lia | constructor].
Defined.

Lemma drawLandmarks_throws_on_short_hand_witness :
  exists before segs,
    drawLandmarks 640%float 480%float [Scene.openHand] = Drawn before
    /\ drawLandmarks 640%float 480%float
         ([Scene.openHand] ++ take 5 Scene.openHand :: [Scene.pinchHand])
       = DrawingThrew (before ++ segs)
    /\ length segs < 21
    /\ forallb isSegment segs = true.
Proof.
  apply (drawLandmarks_throws_on_short_hand 640%float 480%float
           [Scene.openHand] [Scene.pinchHand] (take 5 Scene.openHand)).
  - apply Forall_cons; split; [vm_compute; lia | constructor].
  - vm_compute; lia.
Defined.
